(** * FRC 2026 REBUILT match simulation: field ledger, robot cycle and match engine

    A shallow embedding of the simulation core of the repository
    ([src/models.py], [src/config.py], [src/field.py], [src/robot.py],
    [src/match_engine.py]) together with the properties of its specification.

    Conventions of the embedding:
    - Python [int] is [Z]; Python [float] is an exact rational [Q] (every
      constant of [config.py] is a finite decimal, and the clock moves in
      steps of 0.5 s, so the values that drive control flow are represented
      exactly); the one product of an unbounded integer and a float that is
      turned into an integer again, the scatter of [push_fuel], is computed
      in binary64; [str] is [string]; [List[...]] is [list].
    - A method that mutates [self._state] is a function of the state that
      returns the new state (and the returned value, if any).
    - [random.Random] is not part of the repository: generators are taken
      through the interface [RandomGen]. *)

From Stdlib Require Import ZArith QArith Qround Qminmax Qabs Qpower Lqa String DecimalString
  List Lia Bool.
From stdpp Require Import base list strings gmap.

Open Scope string_scope.
Open Scope Z_scope.

(* ===================================================================== *)
(** ** config.py *)
(* ===================================================================== *)

Module Config.

(* Match timing (seconds) *)
Definition AUTO_DURATION : Q := 20.0.
Definition TRANSITION_DURATION : Q := 10.0.
Definition SHIFT_DURATION : Q := 25.0.
Definition ENDGAME_DURATION : Q := 30.0.
Definition TOTAL_MATCH_DURATION : Q := 160.0.
Definition TICK_INTERVAL : Q := 0.5.

(* Scoring *)
Definition FUEL_ACTIVE_HUB_POINTS : Z := 1.
Definition FUEL_INACTIVE_HUB_POINTS : Z := 0.

(* Field *)
Definition INITIAL_NEUTRAL_FUEL : Z := 20.
Definition INITIAL_OUTPOST_FUEL : Z := 10.
Definition INITIAL_PRELOAD_FUEL : Z := 10.
Definition TOTAL_FUEL : Z := 60.

(* Fuel physics *)
Definition FUEL_HUB_TRANSIT_TIME : Q := 1.5.
Definition FUEL_MISS_RECOVERY_TIME : Q := 3.0.
Definition HP_THROW_FLIGHT_TIME : Q := 1.5.

Definition FOUL_POINTS : Z := 5.


(* Human player *)
Definition HP_THROW_INTERVAL : Q := 4.0.
Definition HP_FEED_INTERVAL : Q := 2.5.
Definition HP_THROW_ACCURACY : Q := 0.55.

(* Robot limits *)
Definition MAX_TOWER_OCCUPANTS : nat := 3.

(* Shooter parameters *)
Definition TURRET_ALIGN_TIME : Q := 0.0.
Definition FIXED_ALIGN_TIME : Q := 1.5.
Definition SHOOT_RATE_SINGLE : Q := 3.0.
Definition SHOOT_RATE_DOUBLE : Q := 6.5.
Definition SHOOT_RATE_TRIPLE : Q := 9.0.
Definition SHOOT_RATE_DUMPER : Q := 15.0.

(* Hopper parameters *)
Definition JAM_CLEAR_TIME : Q := 3.5.

(* Auto phase *)
Definition AUTO_L1_CLIMB_TIME : Q := 4.0.
Definition AUTO_L1_DESCEND_TIME : Q := 3.0.
Definition AUTO_PRELOAD_MAX : Z := 8.

(* Reliability: mechanism failures *)
Definition TURRET_FAILURE_RATE : Q := 0.12.
Definition MULTISHOT_FAILURE_RATE : Q := 0.12.
Definition BASIC_FAILURE_RATE : Q := 0.04.
Definition INTAKE_BREAK_RATE_SIMPLE : Q := 0.02.
Definition INTAKE_DEGRADE_RATE_SIMPLE : Q := 0.07.

(* Intake degradation *)
Definition DEGRADED_INTAKE_SPEED_MULT : Q := 0.5.
Definition DEGRADED_INTAKE_SUCCESS_RATE : Q := 0.60.

(* Fuel pushing *)
Definition PUSH_FUEL_PER_TRIP : Z := 5.
Definition PUSH_SCATTER_RATE : Q := 0.20.
Definition PUSH_TRIP_TIME : Q := 7.0.

(* Defense penalty rates by zone *)
Definition FOUL_RATE_NEUTRAL_ZONE : Q := 0.08.
Definition FOUL_RATE_OPPONENT_ALLIANCE : Q := 0.20.
Definition FOUL_RATE_NEAR_TOWER : Q := 0.25.
Definition TECH_FOUL_RATE_NEUTRAL : Q := 0.015.
Definition TECH_FOUL_RATE_ALLIANCE : Q := 0.06.
Definition TECH_FOUL_RATE_TOWER : Q := 0.10.

(* Defense impact on shooter types *)
Definition DEFENSE_CYCLE_HIT_TURRET : Q := 0.35.
Definition DEFENSE_CYCLE_HIT_FIXED : Q := 0.50.
Definition DEFENSE_ACCURACY_HIT_TURRET : Q := 0.08.
Definition DEFENSE_ACCURACY_HIT_FIXED : Q := 0.20.

(* Phase-aware strategy timing *)
Definition PREPOSITION_TIME_FROM_NEUTRAL : Q := 2.5.
Definition PREPOSITION_TIME_FROM_OUTPOST : Q := 3.0.
Definition CROSSFIELD_DRIVE_TIME : Q := 5.0.
Definition DUMP_TIME_PER_FUEL : Q := 0.3.

End Config.

(* ===================================================================== *)
(** ** Python numeric conversions used by the sources *)
(* ===================================================================== *)

Module Py.

(** [int(x)] on a float: truncation toward zero. *)
Definition int (x : Q) : Z :=
  if Qle_bool 0 x then Qfloor x else Qceiling x.

(** [math.floor(x)]. *)
Definition floor (x : Q) : Z := Qfloor x.

(** [round(x)] with one argument: nearest integer, ties to the even one. *)
Definition round (x : Q) : Z :=
  let f := Qfloor x in
  let frac := (x - inject_Z f)%Q in
  if Qle_bool frac 0.5
  then (if Qle_bool 0.5 frac then (if Z.even f then f else f + 1) else f)
  else f + 1.

(** *** Binary64

    The floats of this part are the rationals that are binary64 numbers.
    Infinities are not modelled: an operation that would overflow is
    refused where it can occur. *)

(** [floor(log2(x))] of a positive [x]. *)
Definition ilog2 (x : Q) : Z :=
  let e := Z.log2 (Qnum x) - Z.log2 (Z.pos (Qden x)) in
  if Qle_bool (Qpower 2 e) x then e else e - 1.

(** The binary64 number nearest to [x], ties to the even significand:
    53 significant bits, from the exponent -1022 of the subnormal numbers
    upward. *)
Definition round_binary64 (x : Q) : Q :=
  if Qeq_bool x 0 then 0%Q
  else
    let a := Qabs x in
    let e := Z.max (ilog2 a) (-1022) in
    let ulp := Qpower 2 (e - 52) in
    let m := round (a / ulp) in
    ((if Qle_bool 0 x then 1 else -1) * (inject_Z m * ulp))%Q.

(** [sys.float_info.max]. *)
Definition max_binary64 : Q := inject_Z ((2 ^ 53 - 1) * 2 ^ 971).

(** [float(n)] of an [int], the conversion that [n * x] makes for a
    float [x]: [None] is the [OverflowError] of an integer that is too
    large. *)
Definition float_of_int (n : Z) : option Q :=
  let x := round_binary64 (inject_Z n) in
  if Qle_bool (Qabs x) max_binary64 then Some x else None.

(** The float that a decimal literal denotes. *)
Definition float_literal (q : Q) : Q := round_binary64 q.

(** [x * y] on floats, for a product within the finite range. *)
Definition float_mul (x y : Q) : Q := round_binary64 (x * y).

End Py.

(* ===================================================================== *)
(** ** models.py *)
(* ===================================================================== *)

Module Models.

Inductive Alliance := RED | BLUE.

#[export] Instance Alliance_eq_dec : EqDecision Alliance.
Proof. solve_decision. Defined.

Definition Alliance_value (a : Alliance) : string :=
  match a with RED => "red" | BLUE => "blue" end.

Inductive Phase := AUTO | TRANSITION | SHIFT1 | SHIFT2 | SHIFT3 | SHIFT4 | ENDGAME.

#[export] Instance Phase_eq_dec : EqDecision Phase.
Proof. solve_decision. Defined.

Definition Phase_value (p : Phase) : string :=
  match p with
  | AUTO => "auto"
  | TRANSITION => "transition"
  | SHIFT1 => "shift1"
  | SHIFT2 => "shift2"
  | SHIFT3 => "shift3"
  | SHIFT4 => "shift4"
  | ENDGAME => "endgame"
  end.

Inductive RobotZone :=
| ZONE_ALLIANCE | ZONE_MIDFIELD | ZONE_NEUTRAL | ZONE_HUB | ZONE_TOWER
| ZONE_OUTPOST | ZONE_OPPONENT_ZONE | ZONE_TRENCH.

Definition RobotZone_value (z : RobotZone) : string :=
  match z with
  | ZONE_ALLIANCE => "alliance"
  | ZONE_MIDFIELD => "midfield"
  | ZONE_NEUTRAL => "neutral"
  | ZONE_HUB => "hub"
  | ZONE_TOWER => "tower"
  | ZONE_OUTPOST => "outpost"
  | ZONE_OPPONENT_ZONE => "opponent_zone"
  | ZONE_TRENCH => "trench"
  end.

Inductive RobotAction :=
| IDLE | INTAKING | DRIVING | SHOOTING | CLIMBING | DEFENDING | STOCKPILING
| PRE_POSITIONING | DUMPING | PUSHING_FUEL | CLEARING_JAM | WAITING_FOR_FUEL.

Inductive ShiftRole := SCORER | STOCKPILER | DEFENDER | PUSHER.

Inductive Archetype :=
| ELITE_TURRET | ELITE_MULTISHOT | STRONG | EVERYBOT | KITBOT_PLUS
| KITBOT_BASE | DEFENSE.

Inductive ShooterType :=
| SINGLE_TURRET | DOUBLE_FIXED | TRIPLE_FIXED | SINGLE_FIXED | DUMPER
| SHOOTER_NONE.

Inductive IndexerType :=
| IDX_SPINDEXER | IDX_SERIALIZER | IDX_CONVEYOR | IDX_GRAVITY_FED | IDX_NONE.

Inductive IntakeQuality :=
| TOUCH_AND_GO | SLOW_PICKUP | PUSH_AROUND | NO_GROUND_PICKUP.

Inductive MechanismStatus := NOMINAL | DEGRADED | BROKEN.

Inductive AutoAction := SCORE_FUEL | CLIMB_L1 | DISRUPT_NEUTRAL.

Inductive HumanPlayerMode := HP_FEED | HP_THROW | HP_MIXED.

Inductive ActiveShiftRole := ACTIVE_SCORE | ACTIVE_DEFEND | ACTIVE_SCORE_AND_DEFEND.

Inductive InactiveShiftRole :=
| INACTIVE_STOCKPILE | INACTIVE_DEFEND | INACTIVE_DENY_NEUTRAL | INACTIVE_PUSH_FUEL.

Inductive TurretStatus := TURRET_NOMINAL | TURRET_STUCK.

(** [MatchState]: central match state, owned by the match engine. *)
Record MatchState := mkMatchState {
  time_remaining : Q;
  current_phase : Phase;
  red_hub_active : bool;
  blue_hub_active : bool;
  red_score : Z;
  blue_score : Z;
  red_fuel_scored : Z;
  blue_fuel_scored : Z;
  red_tower_points : Z;
  blue_tower_points : Z;
  red_penalties : Z;
  blue_penalties : Z
}.

(** [RobotState]: per-robot state tracked every tick. *)
Record RobotState := mkRobotState {
  id : string;
  alliance : Alliance;
  archetype : Archetype;
  position : RobotZone;
  fuel_held : Z;
  fuel_capacity : Z;
  storage_capacity : Z;
  is_stockpiling : bool;
  is_climbing : bool;
  climb_level : Z;
  is_defending : bool;
  is_pushing_fuel : bool;
  fuel_being_pushed : Z;
  current_action : RobotAction;
  action_timer : Q;
  shift_role : ShiftRole;
  intake_status : MechanismStatus;
  shooter_status : MechanismStatus;
  fouls_drawn_this_match : Z
}.

(** [RobotRuntimeState]: mid-match mechanism degradation. *)
Record RobotRuntimeState := mkRobotRuntimeState {
  rt_intake_status : MechanismStatus;
  rt_shooter_status : MechanismStatus;
  turret_status : TurretStatus;
  current_archetype_override : option Archetype;
  fouls_drawn : Z;
  fuel_pushed_to_zone : Z
}.

(** [RobotConfig]: the static configuration of a robot; the fields the
    robot and the match engine read. *)
Record RobotConfig := mkRobotConfig {
  cfg_archetype : Archetype;
  shooter_type : ShooterType;
  indexer_type : IndexerType;
  cfg_storage_capacity : Z;
  intake_rate : Q;
  shoot_rate : Q;
  intake_quality : IntakeQuality;
  auto_fuel_target : Z;
  auto_action : AutoAction;
  auto_cycles : Z;
  climb_target : Z;
  climb_start_time : Q;
  active_shift_role : ActiveShiftRole;
  inactive_shift_role : InactiveShiftRole;
  defense_target : option string;
  preposition_before_shift : bool
}.

(** [AllianceConfig]: the fields the match engine reads. *)
Record AllianceConfig := mkAllianceConfig {
  robots : list RobotConfig;
  human_player_mode : HumanPlayerMode
}.


(** [FieldState]: global field state, owned by the field manager. *)
Record FieldState := mkFieldState {
  neutral_fuel_available : Z;
  red_outpost_fuel : Z;
  blue_outpost_fuel : Z;
  fuel_in_flight : Z;
  fuel_in_transit : Z;
  transit_queue : list (Q * Z);
  red_tower_occupants : list string;
  blue_tower_occupants : list string;
  congestion_red_hub : Q;
  congestion_blue_hub : Q
}.

(** [sum(r.fuel_held + r.fuel_being_pushed for r in robots)]. *)
Definition fuel_in_robots (robots : list RobotState) : Z :=
  fold_right (fun r acc => (fuel_held r + fuel_being_pushed r) + acc) 0 robots.

(** [FieldState.total_fuel_check]. *)
Definition total_fuel_check (s : FieldState) (robots : list RobotState) : Z :=
  neutral_fuel_available s
  + red_outpost_fuel s
  + blue_outpost_fuel s
  + fuel_in_flight s
  + fuel_in_transit s
  + fuel_in_robots robots.

(** Assignments to single attributes of the dataclasses. *)

Definition set_neutral_fuel_available (v : Z) (s : FieldState) : FieldState :=
  mkFieldState v (red_outpost_fuel s) (blue_outpost_fuel s) (fuel_in_flight s)
    (fuel_in_transit s) (transit_queue s) (red_tower_occupants s)
    (blue_tower_occupants s) (congestion_red_hub s) (congestion_blue_hub s).

Definition set_red_outpost_fuel (v : Z) (s : FieldState) : FieldState :=
  mkFieldState (neutral_fuel_available s) v (blue_outpost_fuel s) (fuel_in_flight s)
    (fuel_in_transit s) (transit_queue s) (red_tower_occupants s)
    (blue_tower_occupants s) (congestion_red_hub s) (congestion_blue_hub s).

Definition set_blue_outpost_fuel (v : Z) (s : FieldState) : FieldState :=
  mkFieldState (neutral_fuel_available s) (red_outpost_fuel s) v (fuel_in_flight s)
    (fuel_in_transit s) (transit_queue s) (red_tower_occupants s)
    (blue_tower_occupants s) (congestion_red_hub s) (congestion_blue_hub s).

Definition set_fuel_in_flight (v : Z) (s : FieldState) : FieldState :=
  mkFieldState (neutral_fuel_available s) (red_outpost_fuel s) (blue_outpost_fuel s) v
    (fuel_in_transit s) (transit_queue s) (red_tower_occupants s)
    (blue_tower_occupants s) (congestion_red_hub s) (congestion_blue_hub s).

Definition set_fuel_in_transit (v : Z) (s : FieldState) : FieldState :=
  mkFieldState (neutral_fuel_available s) (red_outpost_fuel s) (blue_outpost_fuel s)
    (fuel_in_flight s) v (transit_queue s) (red_tower_occupants s)
    (blue_tower_occupants s) (congestion_red_hub s) (congestion_blue_hub s).

Definition set_transit_queue (v : list (Q * Z)) (s : FieldState) : FieldState :=
  mkFieldState (neutral_fuel_available s) (red_outpost_fuel s) (blue_outpost_fuel s)
    (fuel_in_flight s) (fuel_in_transit s) v (red_tower_occupants s)
    (blue_tower_occupants s) (congestion_red_hub s) (congestion_blue_hub s).

Definition set_red_tower_occupants (v : list string) (s : FieldState) : FieldState :=
  mkFieldState (neutral_fuel_available s) (red_outpost_fuel s) (blue_outpost_fuel s)
    (fuel_in_flight s) (fuel_in_transit s) (transit_queue s) v
    (blue_tower_occupants s) (congestion_red_hub s) (congestion_blue_hub s).

Definition set_blue_tower_occupants (v : list string) (s : FieldState) : FieldState :=
  mkFieldState (neutral_fuel_available s) (red_outpost_fuel s) (blue_outpost_fuel s)
    (fuel_in_flight s) (fuel_in_transit s) (transit_queue s) (red_tower_occupants s)
    v (congestion_red_hub s) (congestion_blue_hub s).

Definition set_congestion (red blue : Q) (s : FieldState) : FieldState :=
  mkFieldState (neutral_fuel_available s) (red_outpost_fuel s) (blue_outpost_fuel s)
    (fuel_in_flight s) (fuel_in_transit s) (transit_queue s) (red_tower_occupants s)
    (blue_tower_occupants s) red blue.

End Models.

Import Config Models.

(* ===================================================================== *)
(** ** field.py: class FieldManager *)
(* ===================================================================== *)

Module FieldManager.

(** [FieldManager.__init__]: the match-start configuration. *)
Definition init : FieldState :=
  mkFieldState INITIAL_NEUTRAL_FUEL INITIAL_OUTPOST_FUEL INITIAL_OUTPOST_FUEL
    0 0 [] [] [] 0.0 0.0.

(** The loop of [_process_transit_queue]: [s] is [self._state] as mutated
    so far, [still_pending] the list built so far. *)
Fixpoint transit_loop (current_time : Q) (queue : list (Q * Z))
    (s : FieldState) (still_pending : list (Q * Z)) : FieldState * list (Q * Z) :=
  match queue with
  | [] => (s, still_pending)
  | (return_time, count) :: rest =>
      if Qle_bool return_time current_time
      then
        let s1 := set_neutral_fuel_available (neutral_fuel_available s + count) s in
        let s2 := set_fuel_in_transit (fuel_in_transit s1 - count) s1 in
        transit_loop current_time rest s2 still_pending
      else transit_loop current_time rest s (still_pending ++ [(return_time, count)])
  end.

Definition _process_transit_queue (current_time : Q) (s : FieldState) : FieldState :=
  let '(s', still_pending) := transit_loop current_time (transit_queue s) s [] in
  set_transit_queue still_pending s'.

(** The counting loop of [_update_congestion]. *)
Fixpoint count_at_hub (robots : list RobotState) (red_at_hub blue_at_hub : Z) : Z * Z :=
  match robots with
  | [] => (red_at_hub, blue_at_hub)
  | r :: rest =>
      match position r with
      | ZONE_HUB =>
          match alliance r with
          | RED => count_at_hub rest (red_at_hub + 1) blue_at_hub
          | BLUE => count_at_hub rest red_at_hub (blue_at_hub + 1)
          end
      | _ => count_at_hub rest red_at_hub blue_at_hub
      end
  end.

Definition _update_congestion (robots : list RobotState) (s : FieldState) : FieldState :=
  let '(red_at_hub, blue_at_hub) := count_at_hub robots 0 0 in
  set_congestion
    (Qmin 1.0 (inject_Z (Z.max 0 (red_at_hub - 1)) / 2.0))
    (Qmin 1.0 (inject_Z (Z.max 0 (blue_at_hub - 1)) / 2.0))
    s.

Definition tick (current_time : Q) (robots : list RobotState) (s : FieldState) : FieldState :=
  _update_congestion robots (_process_transit_queue current_time s).

(** *** Fuel scoring events *)

Definition fuel_shot (count : Z) (s : FieldState) : FieldState :=
  if count <=? 0 then s
  else set_fuel_in_flight (fuel_in_flight s + count) s.

Definition fuel_scored (alliance : string) (count : Z) (current_time : Q)
    (s : FieldState) : FieldState :=
  if count <=? 0 then s
  else
    let s1 := set_fuel_in_flight (fuel_in_flight s - count) s in
    let s2 := set_fuel_in_transit (fuel_in_transit s1 + count) s1 in
    let return_time := (current_time + FUEL_HUB_TRANSIT_TIME)%Q in
    set_transit_queue (transit_queue s2 ++ [(return_time, count)]) s2.

Definition fuel_missed (count : Z) (current_time : Q) (s : FieldState) : FieldState :=
  if count <=? 0 then s
  else
    let s1 := set_fuel_in_flight (fuel_in_flight s - count) s in
    let s2 := set_fuel_in_transit (fuel_in_transit s1 + count) s1 in
    let return_time := (current_time + FUEL_MISS_RECOVERY_TIME)%Q in
    set_transit_queue (transit_queue s2 ++ [(return_time, count)]) s2.

(** *** Fuel intake *)

(** [zone_str in ("neutral", "alliance", "midfield")]. *)
Definition is_neutral_like (zone_str : string) : bool :=
  bool_decide (zone_str ∈ ["neutral"; "alliance"; "midfield"]).

(** [try_intake]: [alliance_str] and [zone_str] are the strings the
    method works on after normalising enum values. *)
Definition try_intake (alliance_str zone_str : string) (amount : Z)
    (s : FieldState) : Z * FieldState :=
  if amount <=? 0 then (0, s)
  else if is_neutral_like zone_str then
    let available := neutral_fuel_available s in
    let actual := Z.min amount available in
    (actual, set_neutral_fuel_available (neutral_fuel_available s - actual) s)
  else if String.eqb zone_str "outpost" then
    if String.eqb alliance_str "red" then
      let available := red_outpost_fuel s in
      let actual := Z.min amount available in
      (actual, set_red_outpost_fuel (red_outpost_fuel s - actual) s)
    else
      let available := blue_outpost_fuel s in
      let actual := Z.min amount available in
      (actual, set_blue_outpost_fuel (blue_outpost_fuel s - actual) s)
  else
    (* Unknown zone: draw from neutral as fallback. *)
    let available := neutral_fuel_available s in
    let actual := Z.min amount available in
    (actual, set_neutral_fuel_available (neutral_fuel_available s - actual) s).

(** *** Fuel pushing *)

(** The first half of [push_fuel]: the draw from the source.  [None] is
    the early [return 0] for a zone that is neither "neutral" nor
    "outpost"; otherwise the local [actual_moved] and the state after
    [neutral_fuel_available -= actual_moved].  Both named zones draw from
    the neutral pool. *)
Definition push_draw (from_zone : string) (amount : Z) (s : FieldState)
    : option (Z * FieldState) :=
  if String.eqb from_zone "neutral" then
    let available := neutral_fuel_available s in
    let actual_moved := Z.min amount available in
    Some (actual_moved, set_neutral_fuel_available (neutral_fuel_available s - actual_moved) s)
  else if String.eqb from_zone "outpost" then
    let available := neutral_fuel_available s in
    let actual_moved := Z.min amount available in
    Some (actual_moved, set_neutral_fuel_available (neutral_fuel_available s - actual_moved) s)
  else None.

(** [int(math.floor(actual_moved * PUSH_SCATTER_RATE))]: the integer is
    converted to a float and multiplied by the float 0.2 in binary64, and
    the product, which is smaller than the converted integer and so
    finite, is rounded down.  [None] is the [OverflowError] of an
    [actual_moved] that is too large for a float. *)
Definition push_scattered (actual_moved : Z) : option Z :=
  match Py.float_of_int actual_moved with
  | None => None
  | Some x => Some (Py.floor (Py.float_mul x (Py.float_literal PUSH_SCATTER_RATE)))
  end.

(** The state after [neutral_fuel_available += scattered]. *)
Definition push_return_scatter (scattered : Z) (s : FieldState) : FieldState :=
  set_neutral_fuel_available (neutral_fuel_available s + scattered) s.

(** The state after [neutral_fuel_available += arrived]. *)
Definition push_deliver (arrived : Z) (s : FieldState) : FieldState :=
  set_neutral_fuel_available (neutral_fuel_available s + arrived) s.

(** [push_fuel]: the value returned, [None] for the [OverflowError]
    that leaves the method from the scatter computation, and the state as
    the call leaves it. *)
Definition push_fuel (from_zone to_zone : string) (amount : Z) (s : FieldState)
    : option Z * FieldState :=
  if amount <=? 0 then (Some 0, s)
  else
    match push_draw from_zone amount s with
    | None => (Some 0, s)
    | Some (actual_moved, s1) =>
        if actual_moved <=? 0 then (Some 0, s1)
        else
          match push_scattered actual_moved with
          | None => (None, s1)
          | Some scattered =>
              let arrived := actual_moved - scattered in
              let s2 := push_return_scatter scattered s1 in
              let s3 := push_deliver arrived s2 in
              (Some arrived, s3)
          end
    end.

(** *** Human player actions *)

Definition hp_throw (alliance : string) (current_time : Q) (s : FieldState) : FieldState :=
  if String.eqb alliance "red" then
    if red_outpost_fuel s <=? 0 then s
    else
      let s1 := set_red_outpost_fuel (red_outpost_fuel s - 1) s in
      set_fuel_in_flight (fuel_in_flight s1 + 1) s1
  else
    if blue_outpost_fuel s <=? 0 then s
    else
      let s1 := set_blue_outpost_fuel (blue_outpost_fuel s - 1) s in
      set_fuel_in_flight (fuel_in_flight s1 + 1) s1.

Definition hp_feed (alliance : string) (s : FieldState) : bool * FieldState :=
  if String.eqb alliance "red" then
    if red_outpost_fuel s <=? 0 then (false, s)
    else (true, set_red_outpost_fuel (red_outpost_fuel s - 1) s)
  else
    if blue_outpost_fuel s <=? 0 then (false, s)
    else (true, set_blue_outpost_fuel (blue_outpost_fuel s - 1) s).

(** *** Tower / climbing *)

(** The list selected by
    [red_tower_occupants if alliance == "red" else blue_tower_occupants]. *)
Definition occupants_of (alliance : string) (s : FieldState) : list string :=
  if String.eqb alliance "red" then red_tower_occupants s else blue_tower_occupants s.

Definition can_climb (alliance robot_id : string) (s : FieldState) : bool :=
  let occupants := occupants_of alliance s in
  if bool_decide (robot_id ∈ occupants) then true
  else Nat.ltb (length occupants) MAX_TOWER_OCCUPANTS.

(** [occupants.append(robot_id)] mutates the list held by the state. *)
Definition register_climb (alliance robot_id : string) (s : FieldState) : FieldState :=
  let occupants := occupants_of alliance s in
  if negb (bool_decide (robot_id ∈ occupants)) then
    if String.eqb alliance "red"
    then set_red_tower_occupants (occupants ++ [robot_id]) s
    else set_blue_tower_occupants (occupants ++ [robot_id]) s
  else s.

(** *** Conservation invariant *)

Inductive Outcome := Passed | AssertionError.

(** [assert_conservation]: [assert total == TOTAL_FUEL]. *)
Definition assert_conservation (robots : list RobotState) (s : FieldState) : Outcome :=
  let total := total_fuel_check s robots in
  if total =? TOTAL_FUEL then Passed else AssertionError.

End FieldManager.

(* ===================================================================== *)
(** ** random.Random: the interface the sources use *)
(* ===================================================================== *)

(** The generator of the Python standard library is outside the
    repository.  A generator state of type [G] offers what the sources
    use: [random.Random(seed)] builds a generator from a seed, and each of
    the four draws returns the drawn value and the advanced generator. *)
Class RandomGen (G : Type) := {
  rng_seed : Z -> G;
  rng_random : G -> Q * G;
  rng_uniform : Q -> Q -> G -> Q * G;
  rng_gauss : Q -> Q -> G -> Q * G;
  rng_randint : Z -> Z -> G -> Z * G
}.

(** A scripted generator: the draws are read off a list, whatever their
    kind; an exhausted script keeps answering 0, and seeding gives the
    empty script. *)
Definition scripted_draw (g : list Q) : Q * list Q :=
  match g with
  | [] => (0%Q, [])
  | x :: rest => (x, rest)
  end.

#[export] Instance ScriptedGen : RandomGen (list Q) := {
  rng_seed := fun _ => [];
  rng_random := scripted_draw;
  rng_uniform := fun _ _ => scripted_draw;
  rng_gauss := fun _ _ => scripted_draw;
  rng_randint := fun _ _ g => (Qfloor (fst (scripted_draw g)), snd (scripted_draw g))
}.

(** A seeded generator to run matches with: a linear congruential
    generator modulo 2^31.  [random()] is the new state over the modulus,
    [uniform(a, b)] is [a + (b - a) * random()], [gauss(mu, sigma)] is [mu]
    plus [sigma] times a centred draw, and [randint(a, b)] is [a] plus the
    new state modulo the width of the range. *)
Record Lcg := mkLcg { lcg_state : Z }.

Definition lcg_modulus : Z := 2 ^ 31.

Definition lcg_next (g : Lcg) : Lcg :=
  mkLcg ((1103515245 * lcg_state g + 12345) mod lcg_modulus).

Definition lcg_random (g : Lcg) : Q * Lcg :=
  let g' := lcg_next g in
  (Qred (lcg_state g' # 2147483648), g').

#[export] Instance LcgGen : RandomGen Lcg := {
  rng_seed := fun seed => mkLcg (seed mod lcg_modulus);
  rng_random := lcg_random;
  rng_uniform := fun a b g =>
    let '(x, g') := lcg_random g in (Qred (a + (b - a) * x), g');
  rng_gauss := fun mu sigma g =>
    let '(x, g') := lcg_random g in (Qred (mu + sigma * (2 * x - 1)), g');
  rng_randint := fun a b g =>
    let g' := lcg_next g in (a + lcg_state g' mod (b - a + 1), g')
}.

(** [x < y] on floats. *)
Definition Qltb (x y : Q) : bool := negb (Qle_bool y x).

(* ===================================================================== *)
(** ** config.py: the tables keyed by enum values *)
(* ===================================================================== *)

Module ConfigTables.

(** [INDEXER_RATES[indexer_type.value]] (fuel per second). *)
Definition INDEXER_RATES (i : IndexerType) : Q :=
  match i with
  | IDX_SPINDEXER => 10.0
  | IDX_SERIALIZER => 8.0
  | IDX_CONVEYOR => 6.0
  | IDX_GRAVITY_FED => 15.0
  | IDX_NONE => 0.0
  end.

(** [INDEXER_JAM_RATES[indexer_type.value]]. *)
Definition INDEXER_JAM_RATES (i : IndexerType) : Q :=
  match i with
  | IDX_SPINDEXER => 0.005
  | IDX_SERIALIZER => 0.005
  | IDX_CONVEYOR => 0.01
  | IDX_GRAVITY_FED => 0.075
  | IDX_NONE => 0.0
  end.

(** The entries of [ARCHETYPE_DEFAULTS] that the robot reads. *)
Record ArchDefaults := mkArchDefaults {
  cycle_time_mean : Q;
  cycle_time_stddev : Q;
  accuracy : Q;
  climb_success_L1 : Q;
  climb_success_L2 : Q;
  climb_success_L3 : Q
}.

(** [ARCHETYPE_DEFAULTS], looked up through [_ARCH_KEY_MAP]
    ("strong" is "strong_scorer", "defense" is "defense_bot"). *)
Definition ARCHETYPE_DEFAULTS (a : Archetype) : ArchDefaults :=
  match a with
  | ELITE_TURRET => mkArchDefaults 8.5 1.275 0.90 0.99 0.95 0.85
  | ELITE_MULTISHOT => mkArchDefaults 12.0 1.8 0.775 0.99 0.90 0.75
  | STRONG => mkArchDefaults 14.0 2.1 0.725 0.98 0.85 0.55
  | EVERYBOT => mkArchDefaults 18.5 2.775 0.575 0.95 0.70 0.25
  | KITBOT_PLUS => mkArchDefaults 24.0 3.6 0.475 0.80 0.30 0.0
  | KITBOT_BASE => mkArchDefaults 30.0 4.5 0.375 0.0 0.0 0.0
  | DEFENSE => mkArchDefaults 0.0 0.0 0.275 0.75 0.10 0.0
  end.

End ConfigTables.

Import ConfigTables.

(* ===================================================================== *)
(** ** robot.py: class Robot (scoring cycle and fuel pushing) *)
(* ===================================================================== *)

Module Robot.

(** [_INTAKE_QUALITY_PARAMS[quality.value]["success_range"]]. *)
Definition success_range (q : IntakeQuality) : Q * Q :=
  match q with
  | TOUCH_AND_GO => (0.95, 0.99)
  | SLOW_PICKUP => (0.80, 0.90)
  | PUSH_AROUND => (0.50, 0.70)
  | NO_GROUND_PICKUP => (0.0, 0.0)
  end%Q.

Definition _shoot_rate_for_type (t : ShooterType) : Q :=
  match t with
  | SINGLE_TURRET => SHOOT_RATE_SINGLE
  | SINGLE_FIXED => SHOOT_RATE_SINGLE
  | DOUBLE_FIXED => SHOOT_RATE_DOUBLE
  | TRIPLE_FIXED => SHOOT_RATE_TRIPLE
  | DUMPER => SHOOT_RATE_DUMPER
  | SHOOTER_NONE => 0.0
  end.

Definition _align_time_for_shooter (t : ShooterType) (ts : TurretStatus) : Q :=
  match t with
  | SINGLE_TURRET =>
      match ts with
      | TURRET_STUCK => FIXED_ALIGN_TIME
      | TURRET_NOMINAL => TURRET_ALIGN_TIME
      end
  | DUMPER => 0.0
  | _ => FIXED_ALIGN_TIME
  end.

(** [self._arch.get(f"climb_success_L{level}", 0.0)]. *)
Definition climb_success (arch : ArchDefaults) (level : Z) : Q :=
  if level =? 1 then climb_success_L1 arch
  else if level =? 2 then climb_success_L2 arch
  else if level =? 3 then climb_success_L3 arch
  else 0.0.

(** [PENALTY_ESCALATION_MULT[idx]] for the index [min(fouls, 2)] of
    [_check_defense_fouls]; the foul count starts at 0 and is only ever
    incremented. *)
Definition PENALTY_ESCALATION_MULT (idx : Z) : Q :=
  if idx =? 0 then 1.0 else if idx =? 1 then 1.5 else 2.0.

(** Assignments to attributes of [RobotState]. *)

Definition set_position (v : RobotZone) (r : RobotState) : RobotState :=
  mkRobotState (id r) (alliance r) (archetype r) v (fuel_held r) (fuel_capacity r)
    (storage_capacity r) (is_stockpiling r) (is_climbing r) (climb_level r)
    (is_defending r) (is_pushing_fuel r) (fuel_being_pushed r) (current_action r)
    (action_timer r) (shift_role r) (intake_status r) (shooter_status r)
    (fouls_drawn_this_match r).

Definition set_fuel_held (v : Z) (r : RobotState) : RobotState :=
  mkRobotState (id r) (alliance r) (archetype r) (position r) v (fuel_capacity r)
    (storage_capacity r) (is_stockpiling r) (is_climbing r) (climb_level r)
    (is_defending r) (is_pushing_fuel r) (fuel_being_pushed r) (current_action r)
    (action_timer r) (shift_role r) (intake_status r) (shooter_status r)
    (fouls_drawn_this_match r).

Definition set_is_stockpiling (v : bool) (r : RobotState) : RobotState :=
  mkRobotState (id r) (alliance r) (archetype r) (position r) (fuel_held r)
    (fuel_capacity r) (storage_capacity r) v (is_climbing r) (climb_level r)
    (is_defending r) (is_pushing_fuel r) (fuel_being_pushed r) (current_action r)
    (action_timer r) (shift_role r) (intake_status r) (shooter_status r)
    (fouls_drawn_this_match r).

Definition set_is_climbing (v : bool) (r : RobotState) : RobotState :=
  mkRobotState (id r) (alliance r) (archetype r) (position r) (fuel_held r)
    (fuel_capacity r) (storage_capacity r) (is_stockpiling r) v (climb_level r)
    (is_defending r) (is_pushing_fuel r) (fuel_being_pushed r) (current_action r)
    (action_timer r) (shift_role r) (intake_status r) (shooter_status r)
    (fouls_drawn_this_match r).

Definition set_climb_level (v : Z) (r : RobotState) : RobotState :=
  mkRobotState (id r) (alliance r) (archetype r) (position r) (fuel_held r)
    (fuel_capacity r) (storage_capacity r) (is_stockpiling r) (is_climbing r) v
    (is_defending r) (is_pushing_fuel r) (fuel_being_pushed r) (current_action r)
    (action_timer r) (shift_role r) (intake_status r) (shooter_status r)
    (fouls_drawn_this_match r).

Definition set_is_defending (v : bool) (r : RobotState) : RobotState :=
  mkRobotState (id r) (alliance r) (archetype r) (position r) (fuel_held r)
    (fuel_capacity r) (storage_capacity r) (is_stockpiling r) (is_climbing r)
    (climb_level r) v (is_pushing_fuel r) (fuel_being_pushed r) (current_action r)
    (action_timer r) (shift_role r) (intake_status r) (shooter_status r)
    (fouls_drawn_this_match r).

Definition set_is_pushing_fuel (v : bool) (r : RobotState) : RobotState :=
  mkRobotState (id r) (alliance r) (archetype r) (position r) (fuel_held r)
    (fuel_capacity r) (storage_capacity r) (is_stockpiling r) (is_climbing r)
    (climb_level r) (is_defending r) v (fuel_being_pushed r) (current_action r)
    (action_timer r) (shift_role r) (intake_status r) (shooter_status r)
    (fouls_drawn_this_match r).

Definition set_fuel_being_pushed (v : Z) (r : RobotState) : RobotState :=
  mkRobotState (id r) (alliance r) (archetype r) (position r) (fuel_held r)
    (fuel_capacity r) (storage_capacity r) (is_stockpiling r) (is_climbing r)
    (climb_level r) (is_defending r) (is_pushing_fuel r) v (current_action r)
    (action_timer r) (shift_role r) (intake_status r) (shooter_status r)
    (fouls_drawn_this_match r).

Definition set_current_action (v : RobotAction) (r : RobotState) : RobotState :=
  mkRobotState (id r) (alliance r) (archetype r) (position r) (fuel_held r)
    (fuel_capacity r) (storage_capacity r) (is_stockpiling r) (is_climbing r)
    (climb_level r) (is_defending r) (is_pushing_fuel r) (fuel_being_pushed r) v
    (action_timer r) (shift_role r) (intake_status r) (shooter_status r)
    (fouls_drawn_this_match r).

Definition set_action_timer (v : Q) (r : RobotState) : RobotState :=
  mkRobotState (id r) (alliance r) (archetype r) (position r) (fuel_held r)
    (fuel_capacity r) (storage_capacity r) (is_stockpiling r) (is_climbing r)
    (climb_level r) (is_defending r) (is_pushing_fuel r) (fuel_being_pushed r)
    (current_action r) v (shift_role r) (intake_status r) (shooter_status r)
    (fouls_drawn_this_match r).

Definition set_shift_role (v : ShiftRole) (r : RobotState) : RobotState :=
  mkRobotState (id r) (alliance r) (archetype r) (position r) (fuel_held r)
    (fuel_capacity r) (storage_capacity r) (is_stockpiling r) (is_climbing r)
    (climb_level r) (is_defending r) (is_pushing_fuel r) (fuel_being_pushed r)
    (current_action r) (action_timer r) v (intake_status r) (shooter_status r)
    (fouls_drawn_this_match r).

Definition set_intake_status (v : MechanismStatus) (r : RobotState) : RobotState :=
  mkRobotState (id r) (alliance r) (archetype r) (position r) (fuel_held r)
    (fuel_capacity r) (storage_capacity r) (is_stockpiling r) (is_climbing r)
    (climb_level r) (is_defending r) (is_pushing_fuel r) (fuel_being_pushed r)
    (current_action r) (action_timer r) (shift_role r) v (shooter_status r)
    (fouls_drawn_this_match r).

Definition set_shooter_status (v : MechanismStatus) (r : RobotState) : RobotState :=
  mkRobotState (id r) (alliance r) (archetype r) (position r) (fuel_held r)
    (fuel_capacity r) (storage_capacity r) (is_stockpiling r) (is_climbing r)
    (climb_level r) (is_defending r) (is_pushing_fuel r) (fuel_being_pushed r)
    (current_action r) (action_timer r) (shift_role r) (intake_status r) v
    (fouls_drawn_this_match r).

Definition set_fouls_drawn_this_match (v : Z) (r : RobotState) : RobotState :=
  mkRobotState (id r) (alliance r) (archetype r) (position r) (fuel_held r)
    (fuel_capacity r) (storage_capacity r) (is_stockpiling r) (is_climbing r)
    (climb_level r) (is_defending r) (is_pushing_fuel r) (fuel_being_pushed r)
    (current_action r) (action_timer r) (shift_role r) (intake_status r) (shooter_status r)
    v.

(** Assignments to attributes of [RobotRuntimeState]. *)

Definition set_rt_intake_status (v : MechanismStatus) (r : RobotRuntimeState) : RobotRuntimeState :=
  mkRobotRuntimeState v (rt_shooter_status r) (turret_status r)
    (current_archetype_override r) (fouls_drawn r) (fuel_pushed_to_zone r).

Definition set_rt_shooter_status (v : MechanismStatus) (r : RobotRuntimeState) : RobotRuntimeState :=
  mkRobotRuntimeState (rt_intake_status r) v (turret_status r)
    (current_archetype_override r) (fouls_drawn r) (fuel_pushed_to_zone r).

Definition set_turret_status (v : TurretStatus) (r : RobotRuntimeState) : RobotRuntimeState :=
  mkRobotRuntimeState (rt_intake_status r) (rt_shooter_status r) v
    (current_archetype_override r) (fouls_drawn r) (fuel_pushed_to_zone r).

Definition set_current_archetype_override (v : option Archetype) (r : RobotRuntimeState) : RobotRuntimeState :=
  mkRobotRuntimeState (rt_intake_status r) (rt_shooter_status r) (turret_status r) v
    (fouls_drawn r) (fuel_pushed_to_zone r).

Definition set_fouls_drawn (v : Z) (r : RobotRuntimeState) : RobotRuntimeState :=
  mkRobotRuntimeState (rt_intake_status r) (rt_shooter_status r) (turret_status r)
    (current_archetype_override r) v (fuel_pushed_to_zone r).

Definition set_fuel_pushed_to_zone (v : Z) (r : RobotRuntimeState) : RobotRuntimeState :=
  mkRobotRuntimeState (rt_intake_status r) (rt_shooter_status r) (turret_status r)
    (current_archetype_override r) (fouls_drawn r) v.

Section WithGenerator.

Context {G : Type} `{RandomGen G}.

(** The attributes of a [Robot] instance.  [_cycle_total_time] is created
    by [_start_scoring_cycle], not by [__init__]: [None] is the attribute
    not yet present. *)
Record Robot := mkRobot {
  robot_id : string;
  r_alliance : Alliance;
  config : RobotConfig;
  rng : G;
  _arch : ArchDefaults;
  state : RobotState;
  runtime : RobotRuntimeState;
  _cycle_time_mean : Q;
  _cycle_time_stddev : Q;
  _accuracy : Q;
  _shoot_rate : Q;
  _intake_rate : Q;
  _effective_shooter : ShooterType;
  _intake_quality : IntakeQuality;
  _failures_checked : bool;
  _auto_fuel_scored : Z;
  _auto_cycles_completed : Z;
  _auto_climb_attempted : bool;
  _auto_climb_scored : bool;
  _auto_shooting_started : bool;
  _auto_descending : bool;
  _stockpile_ready : bool;
  _cycle_phase : string;
  _defense_foul_checked_this_shift : bool;
  _current_shift_phase : option Phase;
  _climb_attempted_teleop : bool;
  _cycle_total_time : option Q
}.

Definition set_rng (v : G) (r : Robot) : Robot :=
  mkRobot (robot_id r) (r_alliance r) (config r) v (_arch r) (state r) (runtime r)
    (_cycle_time_mean r) (_cycle_time_stddev r) (_accuracy r) (_shoot_rate r)
    (_intake_rate r) (_effective_shooter r) (_intake_quality r) (_failures_checked r)
    (_auto_fuel_scored r) (_auto_cycles_completed r) (_auto_climb_attempted r)
    (_auto_climb_scored r) (_auto_shooting_started r) (_auto_descending r)
    (_stockpile_ready r) (_cycle_phase r) (_defense_foul_checked_this_shift r)
    (_current_shift_phase r) (_climb_attempted_teleop r) (_cycle_total_time r).

Definition set_state (v : RobotState) (r : Robot) : Robot :=
  mkRobot (robot_id r) (r_alliance r) (config r) (rng r) (_arch r) v (runtime r)
    (_cycle_time_mean r) (_cycle_time_stddev r) (_accuracy r) (_shoot_rate r)
    (_intake_rate r) (_effective_shooter r) (_intake_quality r) (_failures_checked r)
    (_auto_fuel_scored r) (_auto_cycles_completed r) (_auto_climb_attempted r)
    (_auto_climb_scored r) (_auto_shooting_started r) (_auto_descending r)
    (_stockpile_ready r) (_cycle_phase r) (_defense_foul_checked_this_shift r)
    (_current_shift_phase r) (_climb_attempted_teleop r) (_cycle_total_time r).

Definition set_runtime (v : RobotRuntimeState) (r : Robot) : Robot :=
  mkRobot (robot_id r) (r_alliance r) (config r) (rng r) (_arch r) (state r) v
    (_cycle_time_mean r) (_cycle_time_stddev r) (_accuracy r) (_shoot_rate r)
    (_intake_rate r) (_effective_shooter r) (_intake_quality r) (_failures_checked r)
    (_auto_fuel_scored r) (_auto_cycles_completed r) (_auto_climb_attempted r)
    (_auto_climb_scored r) (_auto_shooting_started r) (_auto_descending r)
    (_stockpile_ready r) (_cycle_phase r) (_defense_foul_checked_this_shift r)
    (_current_shift_phase r) (_climb_attempted_teleop r) (_cycle_total_time r).

Definition set_cycle_time_mean (v : Q) (r : Robot) : Robot :=
  mkRobot (robot_id r) (r_alliance r) (config r) (rng r) (_arch r) (state r) (runtime r) v
    (_cycle_time_stddev r) (_accuracy r) (_shoot_rate r) (_intake_rate r)
    (_effective_shooter r) (_intake_quality r) (_failures_checked r) (_auto_fuel_scored r)
    (_auto_cycles_completed r) (_auto_climb_attempted r) (_auto_climb_scored r)
    (_auto_shooting_started r) (_auto_descending r) (_stockpile_ready r) (_cycle_phase r)
    (_defense_foul_checked_this_shift r) (_current_shift_phase r)
    (_climb_attempted_teleop r) (_cycle_total_time r).

Definition set_cycle_time_stddev (v : Q) (r : Robot) : Robot :=
  mkRobot (robot_id r) (r_alliance r) (config r) (rng r) (_arch r) (state r) (runtime r)
    (_cycle_time_mean r) v (_accuracy r) (_shoot_rate r) (_intake_rate r)
    (_effective_shooter r) (_intake_quality r) (_failures_checked r) (_auto_fuel_scored r)
    (_auto_cycles_completed r) (_auto_climb_attempted r) (_auto_climb_scored r)
    (_auto_shooting_started r) (_auto_descending r) (_stockpile_ready r) (_cycle_phase r)
    (_defense_foul_checked_this_shift r) (_current_shift_phase r)
    (_climb_attempted_teleop r) (_cycle_total_time r).

Definition set_accuracy (v : Q) (r : Robot) : Robot :=
  mkRobot (robot_id r) (r_alliance r) (config r) (rng r) (_arch r) (state r) (runtime r)
    (_cycle_time_mean r) (_cycle_time_stddev r) v (_shoot_rate r) (_intake_rate r)
    (_effective_shooter r) (_intake_quality r) (_failures_checked r) (_auto_fuel_scored r)
    (_auto_cycles_completed r) (_auto_climb_attempted r) (_auto_climb_scored r)
    (_auto_shooting_started r) (_auto_descending r) (_stockpile_ready r) (_cycle_phase r)
    (_defense_foul_checked_this_shift r) (_current_shift_phase r)
    (_climb_attempted_teleop r) (_cycle_total_time r).

Definition set_shoot_rate (v : Q) (r : Robot) : Robot :=
  mkRobot (robot_id r) (r_alliance r) (config r) (rng r) (_arch r) (state r) (runtime r)
    (_cycle_time_mean r) (_cycle_time_stddev r) (_accuracy r) v (_intake_rate r)
    (_effective_shooter r) (_intake_quality r) (_failures_checked r) (_auto_fuel_scored r)
    (_auto_cycles_completed r) (_auto_climb_attempted r) (_auto_climb_scored r)
    (_auto_shooting_started r) (_auto_descending r) (_stockpile_ready r) (_cycle_phase r)
    (_defense_foul_checked_this_shift r) (_current_shift_phase r)
    (_climb_attempted_teleop r) (_cycle_total_time r).

Definition set_effective_shooter (v : ShooterType) (r : Robot) : Robot :=
  mkRobot (robot_id r) (r_alliance r) (config r) (rng r) (_arch r) (state r) (runtime r)
    (_cycle_time_mean r) (_cycle_time_stddev r) (_accuracy r) (_shoot_rate r)
    (_intake_rate r) v (_intake_quality r) (_failures_checked r) (_auto_fuel_scored r)
    (_auto_cycles_completed r) (_auto_climb_attempted r) (_auto_climb_scored r)
    (_auto_shooting_started r) (_auto_descending r) (_stockpile_ready r) (_cycle_phase r)
    (_defense_foul_checked_this_shift r) (_current_shift_phase r)
    (_climb_attempted_teleop r) (_cycle_total_time r).

Definition set_failures_checked (v : bool) (r : Robot) : Robot :=
  mkRobot (robot_id r) (r_alliance r) (config r) (rng r) (_arch r) (state r) (runtime r)
    (_cycle_time_mean r) (_cycle_time_stddev r) (_accuracy r) (_shoot_rate r)
    (_intake_rate r) (_effective_shooter r) (_intake_quality r) v (_auto_fuel_scored r)
    (_auto_cycles_completed r) (_auto_climb_attempted r) (_auto_climb_scored r)
    (_auto_shooting_started r) (_auto_descending r) (_stockpile_ready r) (_cycle_phase r)
    (_defense_foul_checked_this_shift r) (_current_shift_phase r)
    (_climb_attempted_teleop r) (_cycle_total_time r).

Definition set_auto_fuel_scored (v : Z) (r : Robot) : Robot :=
  mkRobot (robot_id r) (r_alliance r) (config r) (rng r) (_arch r) (state r) (runtime r)
    (_cycle_time_mean r) (_cycle_time_stddev r) (_accuracy r) (_shoot_rate r)
    (_intake_rate r) (_effective_shooter r) (_intake_quality r) (_failures_checked r) v
    (_auto_cycles_completed r) (_auto_climb_attempted r) (_auto_climb_scored r)
    (_auto_shooting_started r) (_auto_descending r) (_stockpile_ready r) (_cycle_phase r)
    (_defense_foul_checked_this_shift r) (_current_shift_phase r)
    (_climb_attempted_teleop r) (_cycle_total_time r).

Definition set_auto_cycles_completed (v : Z) (r : Robot) : Robot :=
  mkRobot (robot_id r) (r_alliance r) (config r) (rng r) (_arch r) (state r) (runtime r)
    (_cycle_time_mean r) (_cycle_time_stddev r) (_accuracy r) (_shoot_rate r)
    (_intake_rate r) (_effective_shooter r) (_intake_quality r) (_failures_checked r)
    (_auto_fuel_scored r) v (_auto_climb_attempted r) (_auto_climb_scored r)
    (_auto_shooting_started r) (_auto_descending r) (_stockpile_ready r) (_cycle_phase r)
    (_defense_foul_checked_this_shift r) (_current_shift_phase r)
    (_climb_attempted_teleop r) (_cycle_total_time r).

Definition set_auto_climb_attempted (v : bool) (r : Robot) : Robot :=
  mkRobot (robot_id r) (r_alliance r) (config r) (rng r) (_arch r) (state r) (runtime r)
    (_cycle_time_mean r) (_cycle_time_stddev r) (_accuracy r) (_shoot_rate r)
    (_intake_rate r) (_effective_shooter r) (_intake_quality r) (_failures_checked r)
    (_auto_fuel_scored r) (_auto_cycles_completed r) v (_auto_climb_scored r)
    (_auto_shooting_started r) (_auto_descending r) (_stockpile_ready r) (_cycle_phase r)
    (_defense_foul_checked_this_shift r) (_current_shift_phase r)
    (_climb_attempted_teleop r) (_cycle_total_time r).

Definition set_auto_climb_scored (v : bool) (r : Robot) : Robot :=
  mkRobot (robot_id r) (r_alliance r) (config r) (rng r) (_arch r) (state r) (runtime r)
    (_cycle_time_mean r) (_cycle_time_stddev r) (_accuracy r) (_shoot_rate r)
    (_intake_rate r) (_effective_shooter r) (_intake_quality r) (_failures_checked r)
    (_auto_fuel_scored r) (_auto_cycles_completed r) (_auto_climb_attempted r) v
    (_auto_shooting_started r) (_auto_descending r) (_stockpile_ready r) (_cycle_phase r)
    (_defense_foul_checked_this_shift r) (_current_shift_phase r)
    (_climb_attempted_teleop r) (_cycle_total_time r).

Definition set_auto_shooting_started (v : bool) (r : Robot) : Robot :=
  mkRobot (robot_id r) (r_alliance r) (config r) (rng r) (_arch r) (state r) (runtime r)
    (_cycle_time_mean r) (_cycle_time_stddev r) (_accuracy r) (_shoot_rate r)
    (_intake_rate r) (_effective_shooter r) (_intake_quality r) (_failures_checked r)
    (_auto_fuel_scored r) (_auto_cycles_completed r) (_auto_climb_attempted r)
    (_auto_climb_scored r) v (_auto_descending r) (_stockpile_ready r) (_cycle_phase r)
    (_defense_foul_checked_this_shift r) (_current_shift_phase r)
    (_climb_attempted_teleop r) (_cycle_total_time r).

Definition set_auto_descending (v : bool) (r : Robot) : Robot :=
  mkRobot (robot_id r) (r_alliance r) (config r) (rng r) (_arch r) (state r) (runtime r)
    (_cycle_time_mean r) (_cycle_time_stddev r) (_accuracy r) (_shoot_rate r)
    (_intake_rate r) (_effective_shooter r) (_intake_quality r) (_failures_checked r)
    (_auto_fuel_scored r) (_auto_cycles_completed r) (_auto_climb_attempted r)
    (_auto_climb_scored r) (_auto_shooting_started r) v (_stockpile_ready r)
    (_cycle_phase r) (_defense_foul_checked_this_shift r) (_current_shift_phase r)
    (_climb_attempted_teleop r) (_cycle_total_time r).

Definition set_stockpile_ready (v : bool) (r : Robot) : Robot :=
  mkRobot (robot_id r) (r_alliance r) (config r) (rng r) (_arch r) (state r) (runtime r)
    (_cycle_time_mean r) (_cycle_time_stddev r) (_accuracy r) (_shoot_rate r)
    (_intake_rate r) (_effective_shooter r) (_intake_quality r) (_failures_checked r)
    (_auto_fuel_scored r) (_auto_cycles_completed r) (_auto_climb_attempted r)
    (_auto_climb_scored r) (_auto_shooting_started r) (_auto_descending r) v
    (_cycle_phase r) (_defense_foul_checked_this_shift r) (_current_shift_phase r)
    (_climb_attempted_teleop r) (_cycle_total_time r).

Definition set_cycle_phase (v : string) (r : Robot) : Robot :=
  mkRobot (robot_id r) (r_alliance r) (config r) (rng r) (_arch r) (state r) (runtime r)
    (_cycle_time_mean r) (_cycle_time_stddev r) (_accuracy r) (_shoot_rate r)
    (_intake_rate r) (_effective_shooter r) (_intake_quality r) (_failures_checked r)
    (_auto_fuel_scored r) (_auto_cycles_completed r) (_auto_climb_attempted r)
    (_auto_climb_scored r) (_auto_shooting_started r) (_auto_descending r)
    (_stockpile_ready r) v (_defense_foul_checked_this_shift r) (_current_shift_phase r)
    (_climb_attempted_teleop r) (_cycle_total_time r).

Definition set_defense_foul_checked_this_shift (v : bool) (r : Robot) : Robot :=
  mkRobot (robot_id r) (r_alliance r) (config r) (rng r) (_arch r) (state r) (runtime r)
    (_cycle_time_mean r) (_cycle_time_stddev r) (_accuracy r) (_shoot_rate r)
    (_intake_rate r) (_effective_shooter r) (_intake_quality r) (_failures_checked r)
    (_auto_fuel_scored r) (_auto_cycles_completed r) (_auto_climb_attempted r)
    (_auto_climb_scored r) (_auto_shooting_started r) (_auto_descending r)
    (_stockpile_ready r) (_cycle_phase r) v (_current_shift_phase r)
    (_climb_attempted_teleop r) (_cycle_total_time r).

Definition set_current_shift_phase (v : option Phase) (r : Robot) : Robot :=
  mkRobot (robot_id r) (r_alliance r) (config r) (rng r) (_arch r) (state r) (runtime r)
    (_cycle_time_mean r) (_cycle_time_stddev r) (_accuracy r) (_shoot_rate r)
    (_intake_rate r) (_effective_shooter r) (_intake_quality r) (_failures_checked r)
    (_auto_fuel_scored r) (_auto_cycles_completed r) (_auto_climb_attempted r)
    (_auto_climb_scored r) (_auto_shooting_started r) (_auto_descending r)
    (_stockpile_ready r) (_cycle_phase r) (_defense_foul_checked_this_shift r) v
    (_climb_attempted_teleop r) (_cycle_total_time r).

Definition set_climb_attempted_teleop (v : bool) (r : Robot) : Robot :=
  mkRobot (robot_id r) (r_alliance r) (config r) (rng r) (_arch r) (state r) (runtime r)
    (_cycle_time_mean r) (_cycle_time_stddev r) (_accuracy r) (_shoot_rate r)
    (_intake_rate r) (_effective_shooter r) (_intake_quality r) (_failures_checked r)
    (_auto_fuel_scored r) (_auto_cycles_completed r) (_auto_climb_attempted r)
    (_auto_climb_scored r) (_auto_shooting_started r) (_auto_descending r)
    (_stockpile_ready r) (_cycle_phase r) (_defense_foul_checked_this_shift r)
    (_current_shift_phase r) v (_cycle_total_time r).

Definition set_cycle_total_time (v : option Q) (r : Robot) : Robot :=
  mkRobot (robot_id r) (r_alliance r) (config r) (rng r) (_arch r) (state r) (runtime r)
    (_cycle_time_mean r) (_cycle_time_stddev r) (_accuracy r) (_shoot_rate r)
    (_intake_rate r) (_effective_shooter r) (_intake_quality r) (_failures_checked r)
    (_auto_fuel_scored r) (_auto_cycles_completed r) (_auto_climb_attempted r)
    (_auto_climb_scored r) (_auto_shooting_started r) (_auto_descending r)
    (_stockpile_ready r) (_cycle_phase r) (_defense_foul_checked_this_shift r)
    (_current_shift_phase r) (_climb_attempted_teleop r) v.

(** [self.state.x = ...] and [self.runtime.x = ...]. *)
Definition upd_state (f : RobotState -> RobotState) (r : Robot) : Robot :=
  set_state (f (state r)) r.

Definition upd_runtime (f : RobotRuntimeState -> RobotRuntimeState) (r : Robot) : Robot :=
  set_runtime (f (runtime r)) r.

(** [self.state.current_action = a; self.state.position = z;
    self.state.action_timer = t; self._cycle_phase = p], the group of
    assignments that ends most handlers. *)
Definition enter (a : RobotAction) (z : RobotZone) (t : Q) (p : string)
    (r : Robot) : Robot :=
  set_cycle_phase p
    (set_state (set_action_timer t (set_position z (set_current_action a (state r)))) r).

(** The same group without the assignment to [position]. *)
Definition enter_here (a : RobotAction) (t : Q) (p : string) (r : Robot) : Robot :=
  set_cycle_phase p (set_state (set_action_timer t (set_current_action a (state r))) r).

(** [self.state.current_action = RobotAction.IDLE; self._cycle_phase = "idle"]. *)
Definition go_idle (r : Robot) : Robot :=
  set_cycle_phase "idle" (upd_state (set_current_action IDLE) r).

(** [self._cycle_phase == p]. *)
Definition in_phase (p : string) (r : Robot) : bool := String.eqb (_cycle_phase r) p.

(** [Robot.__init__]. *)
Definition init (robot_id : string) (alliance : Alliance) (config : RobotConfig)
    (rng : G) : Robot :=
  let arch := ARCHETYPE_DEFAULTS (cfg_archetype config) in
  let indexer_rate := INDEXER_RATES (indexer_type config) in
  mkRobot robot_id alliance config rng arch
    (mkRobotState robot_id alliance (cfg_archetype config) ZONE_ALLIANCE 0
       (cfg_storage_capacity config) (cfg_storage_capacity config)
       false false 0 false false 0 IDLE 0.0 SCORER NOMINAL NOMINAL 0)
    (mkRobotRuntimeState NOMINAL NOMINAL TURRET_NOMINAL None 0 0)
    (cycle_time_mean arch) (cycle_time_stddev arch) (accuracy arch)
    (if Qltb 0 (shoot_rate config)
     then Qmin (shoot_rate config) indexer_rate
     else _shoot_rate_for_type (shooter_type config))
    (intake_rate config) (shooter_type config) (intake_quality config)
    false 0 0 false false false false false "idle" false None false None.

Definition get_state (r : Robot) : RobotState := state r.
Definition get_accuracy (r : Robot) : Q := _accuracy r.
Definition get_shoot_rate (r : Robot) : Q := _shoot_rate r.

Definition is_turret (r : Robot) : bool :=
  match _effective_shooter r, turret_status (runtime r) with
  | SINGLE_TURRET, TURRET_NOMINAL => true
  | _, _ => false
  end.

Definition apply_defense_penalty (cycle_hit accuracy_hit : Q) (r : Robot) : Robot :=
  let r1 := set_cycle_time_mean (_cycle_time_mean r * (1.0 + cycle_hit))%Q r in
  set_accuracy (Qmax 0.0%Q (_accuracy r1 - accuracy_hit)%Q) r1.

Definition reset_defense_penalty (r : Robot) : Robot :=
  let r1 := set_cycle_time_mean (cycle_time_mean (_arch r)) r in
  let r2 := set_cycle_time_stddev (cycle_time_stddev (_arch r1)) r1 in
  let r3 := set_accuracy (accuracy (_arch r2)) r2 in
  match turret_status (runtime r3) with
  | TURRET_STUCK => set_accuracy (Qmax 0.0%Q (_accuracy r3 - 0.20)%Q) r3
  | TURRET_NOMINAL => r3
  end.

Definition _get_effective_intake_quality (r : Robot) : IntakeQuality :=
  match rt_intake_status (runtime r) with
  | BROKEN => NO_GROUND_PICKUP
  | DEGRADED =>
      match _intake_quality r with
      | TOUCH_AND_GO => SLOW_PICKUP
      | SLOW_PICKUP => PUSH_AROUND
      | quality => quality
      end
  | NOMINAL => _intake_quality r
  end.

(** *** Mid-match failures *)

Definition _check_intake_failure (r : Robot) : Robot :=
  let '(trial, g) := rng_random (rng r) in
  let r1 := set_rng g r in
  if Qltb trial INTAKE_BREAK_RATE_SIMPLE then
    let r2 := upd_state (set_intake_status BROKEN)
                (upd_runtime (set_rt_intake_status BROKEN) r1) in
    match active_shift_role (config r2) with
    | ACTIVE_SCORE => upd_runtime (set_current_archetype_override (Some DEFENSE)) r2
    | _ => r2
    end
  else
    let '(trial2, g2) := rng_random (rng r1) in
    let r2 := set_rng g2 r1 in
    if Qltb trial2 INTAKE_DEGRADE_RATE_SIMPLE then
      upd_state (set_intake_status DEGRADED) (upd_runtime (set_rt_intake_status DEGRADED) r2)
    else r2.

Definition _check_shooter_failure (r : Robot) : Robot :=
  let shooter := shooter_type (config r) in
  match shooter with
  | SHOOTER_NONE => r
  | _ =>
      let failure_rate :=
        match shooter with
        | DOUBLE_FIXED | TRIPLE_FIXED => MULTISHOT_FAILURE_RATE
        | _ => BASIC_FAILURE_RATE
        end in
      let '(trial, g) := rng_random (rng r) in
      let r1 := set_rng g r in
      if Qltb trial failure_rate then
        let r2 := upd_state (set_shooter_status DEGRADED)
                    (upd_runtime (set_rt_shooter_status DEGRADED) r1) in
        match shooter with
        | TRIPLE_FIXED => set_shoot_rate SHOOT_RATE_DOUBLE r2
        | DOUBLE_FIXED => set_shoot_rate SHOOT_RATE_SINGLE r2
        | _ => r2
        end
      else r1
  end.

Definition _check_turret_failure (r : Robot) : Robot :=
  match shooter_type (config r) with
  | SINGLE_TURRET =>
      let '(trial, g) := rng_random (rng r) in
      let r1 := set_rng g r in
      if Qltb trial TURRET_FAILURE_RATE then
        let r2 := upd_runtime (set_turret_status TURRET_STUCK) r1 in
        let r3 := set_effective_shooter SINGLE_FIXED r2 in
        set_accuracy (Qmax 0.0%Q (_accuracy r3 - 0.20)%Q) r3
      else r1
  | _ => r
  end.

Definition check_failures (r : Robot) : Robot :=
  _check_turret_failure (_check_shooter_failure (_check_intake_failure r)).

(** *** Stockpile dump *)

Definition dump_stockpile (r : Robot) : Robot :=
  if fuel_held (state r) <=? 0 then r
  else
    let dump_time := (inject_Z (fuel_held (state r)) * DUMP_TIME_PER_FUEL)%Q in
    let r1 := upd_state (set_is_stockpiling false)
                (upd_state (set_action_timer dump_time)
                   (upd_state (set_current_action DUMPING) r)) in
    set_cycle_phase "dumping" (set_stockpile_ready false r1).

(** *** Scoring cycle *)

Definition _start_drive_to_fuel (total_cycle : Q) (r : Robot) : Robot :=
  let drive_time := (total_cycle * 0.25)%Q in
  enter DRIVING ZONE_NEUTRAL drive_time "drive_to_fuel" r.

Definition _start_scoring_cycle (r : Robot) : Robot :=
  let '(drawn, g) := rng_gauss (_cycle_time_mean r) (_cycle_time_stddev r) (rng r) in
  let cycle_time := Qmax (_cycle_time_mean r * 0.5) drawn in
  _start_drive_to_fuel cycle_time (set_cycle_total_time (Some cycle_time) (set_rng g r)).

(** [_begin_drive_to_hub]: [None] is the [AttributeError] raised when
    [_cycle_total_time] was never assigned. *)
Definition _begin_drive_to_hub (r : Robot) : option Robot :=
  match _cycle_total_time r with
  | None => None
  | Some total =>
      let drive_time := (total * 0.20)%Q in
      Some (enter DRIVING ZONE_HUB drive_time "drive_to_hub" r)
  end.

(** The pick-up loop of [_begin_intake], [n] iterations left: every
    iteration draws a success rate and a trial from the robot's
    generator and asks the field for one fuel on success; an empty
    zone ends the loop. *)
Fixpoint intake_loop (n : nat) (success_lo success_hi : Q) (status : MechanismStatus)
    (alliance_str zone_str : string) (g : G) (fld : FieldState) (fuel_picked : Z)
    : G * FieldState * Z :=
  match n with
  | O => (g, fld, fuel_picked)
  | S n' =>
      let '(drawn, g1) := rng_uniform success_lo success_hi g in
      let success_rate :=
        match status with
        | DEGRADED => Qmin drawn DEGRADED_INTAKE_SUCCESS_RATE
        | _ => drawn
        end in
      let '(trial, g2) := rng_random g1 in
      if Qltb trial success_rate then
        let '(got, fld') := FieldManager.try_intake alliance_str zone_str 1 fld in
        if 0 <? got
        then intake_loop n' success_lo success_hi status alliance_str zone_str g2 fld'
               (fuel_picked + got)
        else (g2, fld', fuel_picked)
      else intake_loop n' success_lo success_hi status alliance_str zone_str g2 fld
             fuel_picked
  end.

(** The intake speed after degradation. *)
Definition effective_intake_rate (r : Robot) : Q :=
  match rt_intake_status (runtime r) with
  | DEGRADED => (_intake_rate r * DEGRADED_INTAKE_SPEED_MULT)%Q
  | _ => _intake_rate r
  end.

Definition _begin_intake (r : Robot) (fld : FieldState) : option (Robot * FieldState) :=
  let quality := _get_effective_intake_quality r in
  match quality with
  | NO_GROUND_PICKUP =>
      Some (enter DRIVING ZONE_OUTPOST 2.0 "drive_to_outpost" r, fld)
  | _ =>
      let '(success_lo, success_hi) := success_range quality in
      let fuel_needed := storage_capacity (state r) - fuel_held (state r) in
      if fuel_needed <=? 0 then
        match _begin_drive_to_hub r with
        | Some r' => Some (r', fld)
        | None => None
        end
      else
        let '(g, fld', fuel_picked) :=
          intake_loop (Z.to_nat fuel_needed) success_lo success_hi
            (rt_intake_status (runtime r)) (Alliance_value (r_alliance r))
            (RobotZone_value (position (state r))) (rng r) fld 0 in
        let r1 := set_rng g r in
        let r2 := set_state (set_fuel_held (fuel_held (state r1) + fuel_picked) (state r1)) r1 in
        let effective_rate := effective_intake_rate r2 in
        let total_intake_time :=
          if Qltb 0 effective_rate && (0 <? fuel_picked)
          then (inject_Z fuel_picked / effective_rate)%Q
          else TICK_INTERVAL in
        Some (enter_here INTAKING (Qmax total_intake_time TICK_INTERVAL) "intaking" r2, fld')
  end.

Definition _finish_intake (r : Robot) : option Robot := _begin_drive_to_hub r.

(** The throughput [_begin_shooting] divides by. *)
Definition shooting_rate (r : Robot) : Q :=
  match rt_shooter_status (runtime r) with
  | DEGRADED => (_shoot_rate r * 0.67)%Q
  | _ => _shoot_rate r
  end.

Definition _begin_shooting (r : Robot) : Robot :=
  if fuel_held (state r) <=? 0 then
    set_cycle_phase "idle" (set_state (set_current_action IDLE (state r)) r)
  else
    let indexer_jam := INDEXER_JAM_RATES (indexer_type (config r)) in
    let '(trial, g) := rng_random (rng r) in
    let r := set_rng g r in
    if Qltb trial indexer_jam then
      enter_here CLEARING_JAM JAM_CLEAR_TIME "shooting" r
    else
      let rate := shooting_rate r in
      if Qle_bool rate 0 then
        set_cycle_phase "idle" (set_state (set_current_action IDLE (state r)) r)
      else
        let shoot_time := (inject_Z (fuel_held (state r)) / rate)%Q in
        enter_here SHOOTING shoot_time "shooting" r.

Definition _begin_align (r : Robot) : Robot :=
  let align_time := _align_time_for_shooter (_effective_shooter r) (turret_status (runtime r)) in
  if Qltb 0 align_time then enter_here DRIVING align_time "aligning" r
  else _begin_shooting r.

Definition _finish_shooting (r : Robot) : Robot :=
  set_cycle_phase "idle"
    (set_state (set_position ZONE_HUB (set_current_action IDLE (set_fuel_held 0 (state r)))) r).

Definition _finish_dumping (r : Robot) : Robot :=
  let r1 := upd_state (set_is_stockpiling false)
              (upd_state (set_current_action IDLE) (upd_state (set_fuel_held 0) r)) in
  set_cycle_phase "idle" (set_stockpile_ready false r1).

Definition _on_scoring_action_complete (r : Robot) (fld : FieldState)
    : option (Robot * FieldState) :=
  if in_phase "drive_to_fuel" r then _begin_intake r fld
  else if in_phase "intaking" r then
    match _finish_intake r with
    | Some r' => Some (r', fld)
    | None => None
    end
  else if in_phase "drive_to_hub" r then Some (_begin_align r, fld)
  else if in_phase "aligning" r then Some (_begin_shooting r, fld)
  else if in_phase "shooting" r then Some (_finish_shooting r, fld)
  else if in_phase "dumping" r then Some (_finish_dumping r, fld)
  else Some (r, fld).

Definition _tick_scoring (dt : Q) (r : Robot) (fld : FieldState)
    : option (Robot * FieldState) :=
  if Qltb 0 (action_timer (state r)) then
    let r1 := upd_state (set_action_timer (action_timer (state r) - dt)%Q) r in
    if Qltb 0 (action_timer (state r1)) then Some (r1, fld)
    else _on_scoring_action_complete r1 fld
  else
    match current_action (state r) with
    | IDLE =>
        match _effective_shooter r with
        | SHOOTER_NONE => Some (upd_state (set_current_action IDLE) r, fld)
        | _ => Some (_start_scoring_cycle r, fld)
        end
    | _ => Some (r, fld)
    end.

(** *** Stockpile cycle *)

(** The group of assignments that parks a full robot at the hub. *)
Definition stockpile_ready_at (z : option RobotZone) (r : Robot) : Robot :=
  let r1 := upd_state (set_current_action IDLE) r in
  let r2 := match z with
            | Some zone => upd_state (set_position zone) r1
            | None => r1
            end in
  let r3 := upd_state (set_is_stockpiling true) r2 in
  set_cycle_phase "idle" (set_stockpile_ready true r3).

Definition _start_preposition (r : Robot) : Robot :=
  let time_needed :=
    match position (state r) with
    | ZONE_HUB => 0.0%Q
    | ZONE_OUTPOST => PREPOSITION_TIME_FROM_OUTPOST
    | ZONE_OPPONENT_ZONE => CROSSFIELD_DRIVE_TIME
    | _ => PREPOSITION_TIME_FROM_NEUTRAL
    end in
  if Qle_bool time_needed 0 then stockpile_ready_at (Some ZONE_HUB) r
  else enter_here PRE_POSITIONING time_needed "pre_positioning" r.

Definition _start_stockpile_cycle (r : Robot) : Robot :=
  if storage_capacity (state r) <=? fuel_held (state r) then _start_preposition r
  else
    let '(drive_time, g) := rng_uniform 2.0 3.5 (rng r) in
    enter DRIVING ZONE_NEUTRAL drive_time "stockpile_drive" (set_rng g r).

(** The pick-up loop of [_stockpile_intake]: as [intake_loop], but the
    fuel goes to [state.fuel_held] at once and [fuel_picked] counts the
    successful attempts. *)
Fixpoint stockpile_loop (n : nat) (success_lo success_hi : Q) (status : MechanismStatus)
    (alliance_str zone_str : string) (g : G) (fld : FieldState) (fuel_held fuel_picked : Z)
    : G * FieldState * Z * Z :=
  match n with
  | O => (g, fld, fuel_held, fuel_picked)
  | S n' =>
      let '(drawn, g1) := rng_uniform success_lo success_hi g in
      let success_rate :=
        match status with
        | DEGRADED => Qmin drawn DEGRADED_INTAKE_SUCCESS_RATE
        | _ => drawn
        end in
      let '(trial, g2) := rng_random g1 in
      if Qltb trial success_rate then
        let '(got, fld') := FieldManager.try_intake alliance_str zone_str 1 fld in
        if 0 <? got
        then stockpile_loop n' success_lo success_hi status alliance_str zone_str g2 fld'
               (fuel_held + got) (fuel_picked + 1)
        else (g2, fld', fuel_held, fuel_picked)
      else stockpile_loop n' success_lo success_hi status alliance_str zone_str g2 fld
             fuel_held fuel_picked
  end.

Definition _stockpile_intake (r : Robot) (fld : FieldState) : Robot * FieldState :=
  let quality := _get_effective_intake_quality r in
  let fuel_needed := storage_capacity (state r) - fuel_held (state r) in
  let at_outpost :=
    match quality with
    | NO_GROUND_PICKUP => true
    | _ => fuel_needed <=? 0
    end in
  if at_outpost then
    let r1 := upd_state (set_position ZONE_OUTPOST)
                (upd_state (set_action_timer (inject_Z fuel_needed * 2.5)%Q)
                   (upd_state (set_current_action STOCKPILING) r)) in
    let '(got, fld') :=
      FieldManager.try_intake (Alliance_value (r_alliance r1)) (RobotZone_value ZONE_OUTPOST)
        fuel_needed fld in
    let r2 := upd_state (set_fuel_held (fuel_held (state r1) + got)) r1 in
    (set_cycle_phase "stockpile_intake" r2, fld')
  else
    let '(success_lo, success_hi) := success_range quality in
    let '(g, fld', held, fuel_picked) :=
      stockpile_loop (Z.to_nat fuel_needed) success_lo success_hi
        (rt_intake_status (runtime r)) (Alliance_value (r_alliance r))
        (RobotZone_value (position (state r))) (rng r) fld (fuel_held (state r)) 0 in
    let r1 := upd_state (set_fuel_held held) (set_rng g r) in
    let effective_rate := effective_intake_rate r1 in
    let total_time :=
      if Qltb 0 effective_rate && (0 <? fuel_picked)
      then (inject_Z fuel_picked / effective_rate)%Q
      else TICK_INTERVAL in
    (enter_here STOCKPILING (Qmax total_time TICK_INTERVAL) "stockpile_intake" r1, fld').

Definition _on_stockpile_action_complete (r : Robot) (fld : FieldState) : Robot * FieldState :=
  if in_phase "stockpile_drive" r then _stockpile_intake r fld
  else if in_phase "stockpile_intake" r then
    if preposition_before_shift (config r) then (_start_preposition r, fld)
    else (stockpile_ready_at None r, fld)
  else if in_phase "pre_positioning" r then (stockpile_ready_at (Some ZONE_HUB) r, fld)
  else (r, fld).

Definition _tick_stockpiling (dt : Q) (r : Robot) (fld : FieldState) : Robot * FieldState :=
  if Qltb 0 (action_timer (state r)) then
    let r1 := upd_state (set_action_timer (action_timer (state r) - dt)%Q) r in
    if Qltb 0 (action_timer (state r1)) then (r1, fld)
    else _on_stockpile_action_complete r1 fld
  else
    match current_action (state r) with
    | IDLE => if _stockpile_ready r then (r, fld) else (_start_stockpile_cycle r, fld)
    | _ => (r, fld)
    end.

(** *** Defense *)

(** The group of assignments on arrival in the opponent zone. *)
Definition defend_here (r : Robot) : Robot :=
  upd_state (set_is_defending true)
    (upd_state (set_position ZONE_OPPONENT_ZONE) (upd_state (set_current_action DEFENDING) r)).

Definition _start_defense (r : Robot) : Robot :=
  let drive_time :=
    match position (state r) with
    | ZONE_OPPONENT_ZONE => 0.0%Q
    | _ => CROSSFIELD_DRIVE_TIME
    end in
  if Qltb 0 drive_time then enter_here DRIVING drive_time "defense_drive" r
  else set_cycle_phase "defending" (upd_state (set_action_timer 0.0) (defend_here r)).

(** [self.runtime.fouls_drawn += 1; self.state.fouls_drawn_this_match += 1]. *)
Definition draw_foul (r : Robot) : Robot :=
  let r1 := upd_runtime (set_fouls_drawn (fouls_drawn (runtime r) + 1)) r in
  upd_state (set_fouls_drawn_this_match (fouls_drawn_this_match (state r1) + 1)) r1.

Definition _check_defense_fouls (r : Robot) : Robot :=
  let zone := position (state r) in
  let fouls := fouls_drawn (runtime r) in
  let escalation_idx := Z.min fouls 2 in
  let escalation := PENALTY_ESCALATION_MULT escalation_idx in
  let '(foul_rate0, tech_rate0) :=
    match zone with
    | ZONE_OPPONENT_ZONE => (FOUL_RATE_OPPONENT_ALLIANCE, TECH_FOUL_RATE_ALLIANCE)
    | ZONE_TOWER => (FOUL_RATE_NEAR_TOWER, TECH_FOUL_RATE_TOWER)
    | _ => (FOUL_RATE_NEUTRAL_ZONE, TECH_FOUL_RATE_NEUTRAL)
    end in
  let foul_rate := Qmin (foul_rate0 * escalation)%Q 1.0%Q in
  let tech_rate := Qmin (tech_rate0 * escalation)%Q 1.0%Q in
  let '(trial, g) := rng_random (rng r) in
  let r1 := set_rng g r in
  let r2 := if Qltb trial foul_rate then draw_foul r1 else r1 in
  let '(trial2, g2) := rng_random (rng r2) in
  let r3 := set_rng g2 r2 in
  if Qltb trial2 tech_rate then draw_foul r3 else r3.

Definition _tick_defending (dt : Q) (r : Robot) : Robot :=
  if Qltb 0 (action_timer (state r)) then
    let r1 := upd_state (set_action_timer (action_timer (state r) - dt)%Q) r in
    if Qle_bool (action_timer (state r1)) 0 then
      if in_phase "defense_drive" r1 then set_cycle_phase "defending" (defend_here r1)
      else r1
    else r1
  else
    if _defense_foul_checked_this_shift r then r
    else _check_defense_fouls (set_defense_foul_checked_this_shift true r).

(** *** Fuel pushing *)

Definition _start_push_cycle (r : Robot) : Robot :=
  set_cycle_phase "pushing"
    (set_state
       (set_action_timer PUSH_TRIP_TIME
          (set_is_pushing_fuel true
             (set_position ZONE_NEUTRAL (set_current_action PUSHING_FUEL (state r)))))
       r).

(** [_complete_push_trip].  The two calls that would hand fuel back to
    the field are guarded by [hasattr(field_manager, ...)]: the
    arguments [return_fuel_to_field] and [add_fuel_to_alliance_zone]
    are the methods of that name of the field manager at hand, [None]
    when it has none. *)
Definition _complete_push_trip
    (return_fuel_to_field : option (Z -> FieldState -> FieldState))
    (add_fuel_to_alliance_zone : option (Alliance -> Z -> FieldState -> FieldState))
    (r : Robot) (fld : FieldState) : Robot * FieldState :=
  let '(pushed, fld1) :=
    FieldManager.try_intake (Alliance_value (r_alliance r))
      (RobotZone_value ZONE_NEUTRAL) PUSH_FUEL_PER_TRIP fld in
  let scattered := Py.int (inject_Z (Py.round (inject_Z pushed * PUSH_SCATTER_RATE))) in
  let net_pushed := Z.max 0 (pushed - scattered) in
  let fld2 :=
    match return_fuel_to_field with
    | Some method => if 0 <? scattered then method scattered fld1 else fld1
    | None => fld1
    end in
  let r1 := set_runtime
              (set_fuel_pushed_to_zone (fuel_pushed_to_zone (runtime r) + net_pushed)
                 (runtime r)) r in
  let r2 := set_state (set_fuel_being_pushed 0 (state r1)) r1 in
  let fld3 :=
    match add_fuel_to_alliance_zone with
    | Some method => if 0 <? net_pushed then method (r_alliance r) net_pushed fld2 else fld2
    | None => fld2
    end in
  let r3 := set_cycle_phase "idle"
              (set_state (set_is_pushing_fuel false (set_current_action IDLE (state r2))) r2) in
  (r3, fld3).

(** [_tick_auto_disrupt], the autonomous routine DISRUPT_NEUTRAL: the
    same guarded hand-back as in [_complete_push_trip]. *)
Definition _tick_auto_disrupt
    (return_fuel_to_field : option (Z -> FieldState -> FieldState))
    (add_fuel_to_alliance_zone : option (Alliance -> Z -> FieldState -> FieldState))
    (r : Robot) (fld : FieldState) : Robot * FieldState :=
  if String.eqb (_cycle_phase r) "idle" || String.eqb (_cycle_phase r) "" then
    let '(drive_time, g) := rng_uniform 1.5 2.5 (rng r) in
    (enter DRIVING ZONE_NEUTRAL drive_time "auto_disrupt_drive" (set_rng g r), fld)
  else if String.eqb (_cycle_phase r) "auto_disrupting" then
    let '(pushed, fld1) :=
      FieldManager.try_intake (Alliance_value (r_alliance r))
        (RobotZone_value ZONE_NEUTRAL) PUSH_FUEL_PER_TRIP fld in
    let scattered := Py.int (inject_Z (Py.round (inject_Z pushed * PUSH_SCATTER_RATE))) in
    let net := Z.max 0 (pushed - scattered) in
    let fld2 :=
      match add_fuel_to_alliance_zone with
      | Some method => if 0 <? net then method (r_alliance r) net fld1 else fld1
      | None => fld1
      end in
    let fld3 :=
      match return_fuel_to_field with
      | Some method => if 0 <? scattered then method scattered fld2 else fld2
      | None => fld2
      end in
    (enter_here PUSHING_FUEL TICK_INTERVAL "auto_disrupting" r, fld3)
  else (r, fld).

End WithGenerator.

Arguments Robot G : clear implicits.

(** [class FieldManager] defines neither [return_fuel_to_field] nor
    [add_fuel_to_alliance_zone]: on an instance of it both [hasattr]
    tests of the robot are false. *)
Definition FieldManager_return_fuel_to_field
  : option (Z -> FieldState -> FieldState) := None.
Definition FieldManager_add_fuel_to_alliance_zone
  : option (Alliance -> Z -> FieldState -> FieldState) := None.

Section Behaviour.

Context {G : Type} `{RandomGen G}.

(** The robots of a match talk to the [FieldManager] of the engine. *)
Definition _tick_pushing (dt : Q) (r : Robot G) (fld : FieldState) : Robot G * FieldState :=
  if Qltb 0 (action_timer (state r)) then
    let r1 := upd_state (set_action_timer (action_timer (state r) - dt)%Q) r in
    if Qle_bool (action_timer (state r1)) 0
    then _complete_push_trip FieldManager_return_fuel_to_field
           FieldManager_add_fuel_to_alliance_zone r1 fld
    else (r1, fld)
  else
    match current_action (state r) with
    | IDLE => (_start_push_cycle r, fld)
    | _ => (r, fld)
    end.

(** *** Climbing *)

Definition _start_climb (r : Robot G) : Robot G :=
  let target := climb_target (config r) in
  if target <=? 0 then r
  else
    let r1 := set_climb_attempted_teleop true r in
    let r2 := upd_state (set_position ZONE_TOWER)
                (upd_state (set_current_action CLIMBING) (upd_state (set_is_climbing true) r1)) in
    let base_time :=
      (if target =? 1 then 3.0 else if target =? 2 then 5.0 else if target =? 3 then 7.0
       else 3.0)%Q in
    let '(climb_time, g) := rng_uniform (base_time * 0.8)%Q (base_time * 1.2)%Q (rng r2) in
    set_cycle_phase "climbing" (upd_state (set_action_timer climb_time) (set_rng g r2)).

Definition _resolve_climb (r : Robot G) : Robot G :=
  let target := climb_target (config r) in
  let success_rate := climb_success (_arch r) target in
  let '(trial, g) := rng_random (rng r) in
  let r1 := set_rng g r in
  let r2 :=
    if Qltb trial success_rate then upd_state (set_climb_level target) r1
    else if 2 <=? target then
      let fallback_rate := climb_success (_arch r1) (target - 1) in
      let '(trial2, g2) := rng_random (rng r1) in
      let r1' := set_rng g2 r1 in
      if Qltb trial2 fallback_rate then upd_state (set_climb_level (target - 1)) r1'
      else r1'
    else r1 in
  go_idle (upd_state (set_is_climbing false) r2).

(** *** Shift change *)

Definition _apply_active_role (r : Robot G) : Robot G :=
  match active_shift_role (config r) with
  | ACTIVE_SCORE =>
      let r1 := upd_state (set_is_pushing_fuel false)
                  (upd_state (set_is_defending false) (upd_state (set_shift_role SCORER) r)) in
      if (0 <? fuel_held (state r1)) && is_stockpiling (state r1)
      then dump_stockpile r1
      else _start_scoring_cycle r1
  | ACTIVE_DEFEND =>
      let r1 := upd_state (set_is_pushing_fuel false)
                  (upd_state (set_is_stockpiling false)
                     (upd_state (set_is_defending true) (upd_state (set_shift_role DEFENDER) r))) in
      _start_defense r1
  | ACTIVE_SCORE_AND_DEFEND =>
      if (0 <? fuel_held (state r)) && is_stockpiling (state r)
      then dump_stockpile (upd_state (set_shift_role SCORER) r)
      else _start_defense
             (upd_state (set_is_defending true) (upd_state (set_shift_role DEFENDER) r))
  end.

Definition _apply_inactive_role (r : Robot G) : Robot G :=
  match inactive_shift_role (config r) with
  | INACTIVE_STOCKPILE | INACTIVE_DENY_NEUTRAL =>
      let r1 := upd_state (set_is_pushing_fuel false)
                  (upd_state (set_is_defending false)
                     (upd_state (set_is_stockpiling true)
                        (upd_state (set_shift_role STOCKPILER) r))) in
      _start_stockpile_cycle r1
  | INACTIVE_DEFEND =>
      let r1 := upd_state (set_is_pushing_fuel false)
                  (upd_state (set_is_stockpiling false)
                     (upd_state (set_is_defending true) (upd_state (set_shift_role DEFENDER) r))) in
      _start_defense r1
  | INACTIVE_PUSH_FUEL =>
      let r1 := upd_state (set_is_defending false)
                  (upd_state (set_is_stockpiling false)
                     (upd_state (set_is_pushing_fuel true) (upd_state (set_shift_role PUSHER) r))) in
      _start_push_cycle r1
  end.

Definition on_shift_change (hub_active : bool) (r : Robot G) : Robot G :=
  let r1 := if hub_active then _apply_active_role r else _apply_inactive_role r in
  set_defense_foul_checked_this_shift false r1.

Definition _is_hub_active (match_state : MatchState) (r : Robot G) : bool :=
  match r_alliance r with
  | RED => red_hub_active match_state
  | BLUE => blue_hub_active match_state
  end.

Definition _detect_shift_change (match_state : MatchState) (r : Robot G) : Robot G :=
  let phase := current_phase match_state in
  if bool_decide (Some phase <> _current_shift_phase r) then
    let r1 := set_current_shift_phase (Some phase) r in
    match phase with
    | SHIFT1 | SHIFT2 | SHIFT3 | SHIFT4 =>
        on_shift_change (_is_hub_active match_state r1) r1
    | ENDGAME => on_shift_change true r1
    | _ => r1
    end
  else r.

(** *** Autonomous period *)

Definition _start_auto_shot_burst (r : Robot G) : Robot G :=
  if fuel_held (state r) <=? 0 then
    go_idle (set_auto_cycles_completed (_auto_cycles_completed r + 1) r)
  else
    let align := _align_time_for_shooter (_effective_shooter r) (turret_status (runtime r)) in
    let rate := Qmax (_shoot_rate r) 0.1%Q in
    let shoot_time := (inject_Z (fuel_held (state r)) / rate)%Q in
    enter_here SHOOTING (align + shoot_time)%Q "auto_shoot" r.

Definition _tick_auto_score (r : Robot G) : Robot G :=
  let max_cycles := auto_cycles (config r) in
  if (_auto_fuel_scored r <? auto_fuel_target (config r))
     || ((_auto_cycles_completed r <? max_cycles) && (0 <? fuel_held (state r)))
  then
    if negb (_auto_shooting_started r) then
      let r1 := set_auto_shooting_started true r in
      let '(drive_time, g) := rng_uniform 1.0 2.0 (rng r1) in
      enter DRIVING ZONE_HUB drive_time "auto_drive" (set_rng g r1)
    else _start_auto_shot_burst r
  else if (0 <? _auto_cycles_completed r) && (_auto_cycles_completed r <? max_cycles)
          && (fuel_held (state r) =? 0)
  then
    let '(drive_time, g) := rng_uniform 2.0 3.0 (rng r) in
    enter DRIVING ZONE_NEUTRAL drive_time "auto_drive_to_neutral" (set_rng g r)
  else go_idle r.

Definition _tick_auto_climb (r : Robot G) : Robot G :=
  if _auto_climb_scored r && negb (_auto_descending r) then go_idle r
  else if negb (_auto_climb_attempted r) then
    let r1 := set_auto_climb_attempted true r in
    let '(drive_time, g) := rng_uniform 1.5 2.5 (rng r1) in
    enter DRIVING ZONE_TOWER drive_time "auto_climb_drive" (set_rng g r1)
  else go_idle r.

Definition _complete_auto_action (r : Robot G) (fld : FieldState) : Robot G * FieldState :=
  if in_phase "auto_drive" r then (_start_auto_shot_burst r, fld)
  else if in_phase "auto_shoot" r then
    let r1 := set_auto_fuel_scored (_auto_fuel_scored r + fuel_held (state r)) r in
    let r2 := upd_state (set_fuel_held 0) r1 in
    let r3 := set_auto_cycles_completed (_auto_cycles_completed r2 + 1) r2 in
    let r4 := set_auto_shooting_started false r3 in
    (go_idle (upd_state (set_action_timer 0.0) r4), fld)
  else if in_phase "auto_drive_to_neutral" r then
    let fuel_needed := storage_capacity (state r) - fuel_held (state r) in
    let '(r1, fld1) :=
      if 0 <? fuel_needed then
        let '(got, fld') :=
          FieldManager.try_intake (Alliance_value (r_alliance r))
            (RobotZone_value ZONE_NEUTRAL) fuel_needed fld in
        (upd_state (set_fuel_held (fuel_held (state r) + got)) r, fld')
      else (r, fld) in
    let intake_time :=
      if Qltb 0 (_intake_rate r1) && (0 <? fuel_held (state r1))
      then (inject_Z (fuel_held (state r1)) / _intake_rate r1)%Q
      else 0.5%Q in
    (enter_here INTAKING intake_time "auto_intake" r1, fld1)
  else if in_phase "auto_intake" r then
    let '(drive_time, g) := rng_uniform 1.5 2.5 (rng r) in
    (enter DRIVING ZONE_HUB drive_time "auto_drive" (set_rng g r), fld)
  else if in_phase "auto_climb_drive" r then
    (set_cycle_phase "auto_climb"
       (upd_state (set_action_timer AUTO_L1_CLIMB_TIME)
          (upd_state (set_is_climbing true) (upd_state (set_current_action CLIMBING) r))), fld)
  else if in_phase "auto_climb" r then
    let success_rate := climb_success_L1 (_arch r) in
    let '(trial, g) := rng_random (rng r) in
    let r1 := set_rng g r in
    let r2 :=
      if Qltb trial success_rate
      then set_auto_climb_scored true (upd_state (set_climb_level 1) r1)
      else r1 in
    let r3 := set_auto_descending true (upd_state (set_is_climbing false) r2) in
    (enter DRIVING ZONE_TOWER AUTO_L1_DESCEND_TIME "auto_descend" r3, fld)
  else if in_phase "auto_descend" r then
    (go_idle (upd_state (set_position ZONE_ALLIANCE) (set_auto_descending false r)), fld)
  else if in_phase "auto_disrupt_drive" r then
    (set_cycle_phase "auto_disrupting"
       (upd_state (set_action_timer TICK_INTERVAL)
          (upd_state (set_is_pushing_fuel true)
             (upd_state (set_position ZONE_NEUTRAL)
                (upd_state (set_current_action PUSHING_FUEL) r)))), fld)
  else if in_phase "auto_disrupting" r then
    _tick_auto_disrupt FieldManager_return_fuel_to_field
      FieldManager_add_fuel_to_alliance_zone r fld
  else (r, fld).

Definition _tick_auto (dt : Q) (r : Robot G) (fld : FieldState) : Robot G * FieldState :=
  if Qltb 0 (action_timer (state r)) then
    let r1 := upd_state (set_action_timer (action_timer (state r) - dt)%Q) r in
    if Qle_bool (action_timer (state r1)) 0 then _complete_auto_action r1 fld
    else (r1, fld)
  else
    match auto_action (config r) with
    | SCORE_FUEL => (_tick_auto_score r, fld)
    | CLIMB_L1 => (_tick_auto_climb r, fld)
    | DISRUPT_NEUTRAL =>
        _tick_auto_disrupt FieldManager_return_fuel_to_field
          FieldManager_add_fuel_to_alliance_zone r fld
    end.

(** *** Transition, teleop shifts, endgame *)

Definition _tick_transition (r : Robot G) : Robot G :=
  set_cycle_phase "transition"
    (upd_state (set_position ZONE_ALLIANCE) (upd_state (set_current_action DRIVING) r)).

Definition _tick_teleop_shift (dt : Q) (r : Robot G) (fld : FieldState)
    : option (Robot G * FieldState) :=
  match shift_role (state r) with
  | SCORER => _tick_scoring dt r fld
  | STOCKPILER => Some (_tick_stockpiling dt r fld)
  | DEFENDER => Some (_tick_defending dt r, fld)
  | PUSHER => Some (_tick_pushing dt r fld)
  end.

Definition _tick_endgame (match_state : MatchState) (dt : Q) (r : Robot G) (fld : FieldState)
    : option (Robot G * FieldState) :=
  if is_climbing (state r) then
    if Qltb 0 (action_timer (state r)) then
      let r1 := upd_state (set_action_timer (action_timer (state r) - dt)%Q) r in
      if Qle_bool (action_timer (state r1)) 0 then Some (_resolve_climb r1, fld)
      else Some (r1, fld)
    else Some (r, fld)
  else
    let time_remaining := time_remaining match_state in
    let climb_threshold := climb_start_time (config r) in
    let should_climb :=
      negb (_climb_attempted_teleop r)
      && (0 <? climb_target (config r))
      && Qltb 0 climb_threshold
      && Qle_bool time_remaining climb_threshold in
    if should_climb then Some (_start_climb r, fld)
    else _tick_scoring dt r fld.

(** [Robot.tick]: the main update, once per simulation tick. *)
Definition tick (match_state : MatchState) (dt : Q) (r : Robot G) (fld : FieldState)
    : option (Robot G * FieldState) :=
  let r1 := if _failures_checked r then r
            else set_failures_checked true (check_failures r) in
  let r2 := _detect_shift_change match_state r1 in
  match current_phase match_state with
  | AUTO => Some (_tick_auto dt r2 fld)
  | TRANSITION => Some (_tick_transition r2, fld)
  | ENDGAME => _tick_endgame match_state dt r2 fld
  | _ => _tick_teleop_shift dt r2 fld
  end.

End Behaviour.

End Robot.

(* ===================================================================== *)
(** ** match_engine.py: phases, hub activation and shot resolution *)
(* ===================================================================== *)

Module MatchEngine.

Import Robot.

Definition _PHASE_BOUNDARIES : list (Q * Q * Phase) :=
  [ (140.0, 160.0, AUTO);
    (130.0, 140.0, TRANSITION);
    (105.0, 130.0, SHIFT1);
    (80.0, 105.0, SHIFT2);
    (55.0, 80.0, SHIFT3);
    (30.0, 55.0, SHIFT4);
    (0.0, 30.0, ENDGAME) ]%Q.

(** The loop of [_get_phase] over the boundary table. *)
Fixpoint find_phase (table : list (Q * Q * Phase)) (time_remaining : Q) : option Phase :=
  match table with
  | [] => None
  | (lo, hi, phase) :: rest =>
      if Qle_bool lo time_remaining && Qltb time_remaining hi
      then Some phase
      else find_phase rest time_remaining
  end.

Definition _get_phase (time_remaining : Q) : Phase :=
  match find_phase _PHASE_BOUNDARIES time_remaining with
  | Some phase => phase
  | None => if Qle_bool 160.0 time_remaining then AUTO else ENDGAME
  end.

(** [phase in (Phase.SHIFT1, Phase.SHIFT2, Phase.SHIFT3, Phase.SHIFT4)]. *)
Definition is_shift (p : Phase) : bool :=
  match p with
  | SHIFT1 | SHIFT2 | SHIFT3 | SHIFT4 => true
  | _ => false
  end.

(** Assignments to attributes of [MatchState]. *)

Definition set_time_remaining (v : Q) (m : MatchState) : MatchState :=
  mkMatchState v (current_phase m) (red_hub_active m) (blue_hub_active m) (red_score m)
    (blue_score m) (red_fuel_scored m) (blue_fuel_scored m) (red_tower_points m)
    (blue_tower_points m) (red_penalties m) (blue_penalties m).

Definition set_current_phase (v : Phase) (m : MatchState) : MatchState :=
  mkMatchState (time_remaining m) v (red_hub_active m) (blue_hub_active m) (red_score m)
    (blue_score m) (red_fuel_scored m) (blue_fuel_scored m) (red_tower_points m)
    (blue_tower_points m) (red_penalties m) (blue_penalties m).

Definition set_red_hub_active (v : bool) (m : MatchState) : MatchState :=
  mkMatchState (time_remaining m) (current_phase m) v (blue_hub_active m) (red_score m)
    (blue_score m) (red_fuel_scored m) (blue_fuel_scored m) (red_tower_points m)
    (blue_tower_points m) (red_penalties m) (blue_penalties m).

Definition set_blue_hub_active (v : bool) (m : MatchState) : MatchState :=
  mkMatchState (time_remaining m) (current_phase m) (red_hub_active m) v (red_score m)
    (blue_score m) (red_fuel_scored m) (blue_fuel_scored m) (red_tower_points m)
    (blue_tower_points m) (red_penalties m) (blue_penalties m).

Definition set_red_score (v : Z) (m : MatchState) : MatchState :=
  mkMatchState (time_remaining m) (current_phase m) (red_hub_active m) (blue_hub_active m)
    v (blue_score m) (red_fuel_scored m) (blue_fuel_scored m) (red_tower_points m)
    (blue_tower_points m) (red_penalties m) (blue_penalties m).

Definition set_blue_score (v : Z) (m : MatchState) : MatchState :=
  mkMatchState (time_remaining m) (current_phase m) (red_hub_active m) (blue_hub_active m)
    (red_score m) v (red_fuel_scored m) (blue_fuel_scored m) (red_tower_points m)
    (blue_tower_points m) (red_penalties m) (blue_penalties m).

Definition set_ms_red_fuel_scored (v : Z) (m : MatchState) : MatchState :=
  mkMatchState (time_remaining m) (current_phase m) (red_hub_active m) (blue_hub_active m)
    (red_score m) (blue_score m) v (blue_fuel_scored m) (red_tower_points m)
    (blue_tower_points m) (red_penalties m) (blue_penalties m).

Definition set_ms_blue_fuel_scored (v : Z) (m : MatchState) : MatchState :=
  mkMatchState (time_remaining m) (current_phase m) (red_hub_active m) (blue_hub_active m)
    (red_score m) (blue_score m) (red_fuel_scored m) v (red_tower_points m)
    (blue_tower_points m) (red_penalties m) (blue_penalties m).



Definition set_red_penalties (v : Z) (m : MatchState) : MatchState :=
  mkMatchState (time_remaining m) (current_phase m) (red_hub_active m) (blue_hub_active m)
    (red_score m) (blue_score m) (red_fuel_scored m) (blue_fuel_scored m)
    (red_tower_points m) (blue_tower_points m) v (blue_penalties m).

Definition set_blue_penalties (v : Z) (m : MatchState) : MatchState :=
  mkMatchState (time_remaining m) (current_phase m) (red_hub_active m) (blue_hub_active m)
    (red_score m) (blue_score m) (red_fuel_scored m) (blue_fuel_scored m)
    (red_tower_points m) (blue_tower_points m) (red_penalties m) v.

(** [match_state.red_hub_active = red; match_state.blue_hub_active = blue]. *)
Definition set_hub_active (red blue : bool) (m : MatchState) : MatchState :=
  set_blue_hub_active blue (set_red_hub_active red m).

(** [match_state.red_fuel_scored += hits; match_state.red_score += points]. *)
Definition credit_red (hits points : Z) (m : MatchState) : MatchState :=
  let m1 := set_ms_red_fuel_scored (red_fuel_scored m + hits) m in
  set_red_score (red_score m1 + points) m1.

(** [match_state.blue_fuel_scored += hits; match_state.blue_score += points]. *)
Definition credit_blue (hits points : Z) (m : MatchState) : MatchState :=
  let m1 := set_ms_blue_fuel_scored (blue_fuel_scored m + hits) m in
  set_blue_score (blue_score m1 + points) m1.

(** [match_state.red_penalties += pts; match_state.blue_score += pts]. *)
Definition penalize_red (pts : Z) (m : MatchState) : MatchState :=
  let m1 := set_red_penalties (red_penalties m + pts) m in
  set_blue_score (blue_score m1 + pts) m1.

(** [match_state.blue_penalties += pts; match_state.red_score += pts]. *)
Definition penalize_blue (pts : Z) (m : MatchState) : MatchState :=
  let m1 := set_blue_penalties (blue_penalties m + pts) m in
  set_red_score (red_score m1 + pts) m1.



(** The dictionary [_defense_applied], in insertion order. *)
Fixpoint dict_get (key : string) (d : list (string * bool)) : option bool :=
  match d with
  | [] => None
  | (k, v) :: rest => if String.eqb k key then Some v else dict_get key rest
  end.

(** [d[key] = v]: in place for a known key, at the end for a new one. *)
Fixpoint dict_set (key : string) (v : bool) (d : list (string * bool))
    : list (string * bool) :=
  match d with
  | [] => [(key, v)]
  | (k, x) :: rest =>
      if String.eqb k key then (k, v) :: rest else (k, x) :: dict_set key v rest
  end.

(** [f"{prefix}_{i}"]. *)
Definition robot_name (prefix : string) (i : nat) : string :=
  prefix +:+ "_" +:+ NilZero.string_of_uint (Nat.to_uint i).

Section WithGenerator.

Context {G : Type} `{RandomGen G}.

(** The attributes of a [MatchEngine] instance.  [red_robots] and
    [blue_robots] hold the same objects as [all_robots] (which is their
    concatenation): the robots of an alliance are the members of
    [all_robots] of that alliance, in order.  [_auto_winner] is created by
    [_determine_auto_winner], [None] is the attribute not yet present. *)
Record MatchEngine := mkMatchEngine {
  rng : G;
  red_config : AllianceConfig;
  blue_config : AllianceConfig;
  field : FieldState;
  match_state : MatchState;
  all_robots : list (Robot G);
  red_fuel_scored : Z;
  blue_fuel_scored : Z;
  red_tower_points : Z;
  blue_tower_points : Z;
  red_penalty_points : Z;
  blue_penalty_points : Z;
  phase_scores : gmap string (Z * Z);
  _red_hp_timer : Q;
  _blue_hp_timer : Q;
  _defense_applied : list (string * bool);
  _red_auto_score : Z;
  _blue_auto_score : Z;
  _prev_foul_counts : gmap string Z;
  _auto_winner : option string
}.

Definition set_rng (v : G) (e : MatchEngine) : MatchEngine :=
  mkMatchEngine v (red_config e) (blue_config e) (field e) (match_state e) (all_robots e)
    (red_fuel_scored e) (blue_fuel_scored e) (red_tower_points e) (blue_tower_points e)
    (red_penalty_points e) (blue_penalty_points e) (phase_scores e) (_red_hp_timer e)
    (_blue_hp_timer e) (_defense_applied e) (_red_auto_score e) (_blue_auto_score e)
    (_prev_foul_counts e) (_auto_winner e).

Definition set_field (v : FieldState) (e : MatchEngine) : MatchEngine :=
  mkMatchEngine (rng e) (red_config e) (blue_config e) v (match_state e) (all_robots e)
    (red_fuel_scored e) (blue_fuel_scored e) (red_tower_points e) (blue_tower_points e)
    (red_penalty_points e) (blue_penalty_points e) (phase_scores e) (_red_hp_timer e)
    (_blue_hp_timer e) (_defense_applied e) (_red_auto_score e) (_blue_auto_score e)
    (_prev_foul_counts e) (_auto_winner e).

Definition set_match_state (v : MatchState) (e : MatchEngine) : MatchEngine :=
  mkMatchEngine (rng e) (red_config e) (blue_config e) (field e) v (all_robots e)
    (red_fuel_scored e) (blue_fuel_scored e) (red_tower_points e) (blue_tower_points e)
    (red_penalty_points e) (blue_penalty_points e) (phase_scores e) (_red_hp_timer e)
    (_blue_hp_timer e) (_defense_applied e) (_red_auto_score e) (_blue_auto_score e)
    (_prev_foul_counts e) (_auto_winner e).

Definition set_all_robots (v : list (Robot G)) (e : MatchEngine) : MatchEngine :=
  mkMatchEngine (rng e) (red_config e) (blue_config e) (field e) (match_state e) v
    (red_fuel_scored e) (blue_fuel_scored e) (red_tower_points e) (blue_tower_points e)
    (red_penalty_points e) (blue_penalty_points e) (phase_scores e) (_red_hp_timer e)
    (_blue_hp_timer e) (_defense_applied e) (_red_auto_score e) (_blue_auto_score e)
    (_prev_foul_counts e) (_auto_winner e).

Definition set_red_fuel_scored (v : Z) (e : MatchEngine) : MatchEngine :=
  mkMatchEngine (rng e) (red_config e) (blue_config e) (field e) (match_state e)
    (all_robots e) v (blue_fuel_scored e) (red_tower_points e) (blue_tower_points e)
    (red_penalty_points e) (blue_penalty_points e) (phase_scores e) (_red_hp_timer e)
    (_blue_hp_timer e) (_defense_applied e) (_red_auto_score e) (_blue_auto_score e)
    (_prev_foul_counts e) (_auto_winner e).

Definition set_blue_fuel_scored (v : Z) (e : MatchEngine) : MatchEngine :=
  mkMatchEngine (rng e) (red_config e) (blue_config e) (field e) (match_state e)
    (all_robots e) (red_fuel_scored e) v (red_tower_points e) (blue_tower_points e)
    (red_penalty_points e) (blue_penalty_points e) (phase_scores e) (_red_hp_timer e)
    (_blue_hp_timer e) (_defense_applied e) (_red_auto_score e) (_blue_auto_score e)
    (_prev_foul_counts e) (_auto_winner e).



Definition set_red_penalty_points (v : Z) (e : MatchEngine) : MatchEngine :=
  mkMatchEngine (rng e) (red_config e) (blue_config e) (field e) (match_state e)
    (all_robots e) (red_fuel_scored e) (blue_fuel_scored e) (red_tower_points e)
    (blue_tower_points e) v (blue_penalty_points e) (phase_scores e) (_red_hp_timer e)
    (_blue_hp_timer e) (_defense_applied e) (_red_auto_score e) (_blue_auto_score e)
    (_prev_foul_counts e) (_auto_winner e).

Definition set_blue_penalty_points (v : Z) (e : MatchEngine) : MatchEngine :=
  mkMatchEngine (rng e) (red_config e) (blue_config e) (field e) (match_state e)
    (all_robots e) (red_fuel_scored e) (blue_fuel_scored e) (red_tower_points e)
    (blue_tower_points e) (red_penalty_points e) v (phase_scores e) (_red_hp_timer e)
    (_blue_hp_timer e) (_defense_applied e) (_red_auto_score e) (_blue_auto_score e)
    (_prev_foul_counts e) (_auto_winner e).

Definition set_phase_scores (v : gmap string (Z * Z)) (e : MatchEngine) : MatchEngine :=
  mkMatchEngine (rng e) (red_config e) (blue_config e) (field e) (match_state e)
    (all_robots e) (red_fuel_scored e) (blue_fuel_scored e) (red_tower_points e)
    (blue_tower_points e) (red_penalty_points e) (blue_penalty_points e) v
    (_red_hp_timer e) (_blue_hp_timer e) (_defense_applied e) (_red_auto_score e)
    (_blue_auto_score e) (_prev_foul_counts e) (_auto_winner e).

Definition set_red_hp_timer (v : Q) (e : MatchEngine) : MatchEngine :=
  mkMatchEngine (rng e) (red_config e) (blue_config e) (field e) (match_state e)
    (all_robots e) (red_fuel_scored e) (blue_fuel_scored e) (red_tower_points e)
    (blue_tower_points e) (red_penalty_points e) (blue_penalty_points e) (phase_scores e) v
    (_blue_hp_timer e) (_defense_applied e) (_red_auto_score e) (_blue_auto_score e)
    (_prev_foul_counts e) (_auto_winner e).

Definition set_blue_hp_timer (v : Q) (e : MatchEngine) : MatchEngine :=
  mkMatchEngine (rng e) (red_config e) (blue_config e) (field e) (match_state e)
    (all_robots e) (red_fuel_scored e) (blue_fuel_scored e) (red_tower_points e)
    (blue_tower_points e) (red_penalty_points e) (blue_penalty_points e) (phase_scores e)
    (_red_hp_timer e) v (_defense_applied e) (_red_auto_score e) (_blue_auto_score e)
    (_prev_foul_counts e) (_auto_winner e).

Definition set_defense_applied (v : list (string * bool)) (e : MatchEngine) : MatchEngine :=
  mkMatchEngine (rng e) (red_config e) (blue_config e) (field e) (match_state e)
    (all_robots e) (red_fuel_scored e) (blue_fuel_scored e) (red_tower_points e)
    (blue_tower_points e) (red_penalty_points e) (blue_penalty_points e) (phase_scores e)
    (_red_hp_timer e) (_blue_hp_timer e) v (_red_auto_score e) (_blue_auto_score e)
    (_prev_foul_counts e) (_auto_winner e).

Definition set_red_auto_score (v : Z) (e : MatchEngine) : MatchEngine :=
  mkMatchEngine (rng e) (red_config e) (blue_config e) (field e) (match_state e)
    (all_robots e) (red_fuel_scored e) (blue_fuel_scored e) (red_tower_points e)
    (blue_tower_points e) (red_penalty_points e) (blue_penalty_points e) (phase_scores e)
    (_red_hp_timer e) (_blue_hp_timer e) (_defense_applied e) v (_blue_auto_score e)
    (_prev_foul_counts e) (_auto_winner e).

Definition set_blue_auto_score (v : Z) (e : MatchEngine) : MatchEngine :=
  mkMatchEngine (rng e) (red_config e) (blue_config e) (field e) (match_state e)
    (all_robots e) (red_fuel_scored e) (blue_fuel_scored e) (red_tower_points e)
    (blue_tower_points e) (red_penalty_points e) (blue_penalty_points e) (phase_scores e)
    (_red_hp_timer e) (_blue_hp_timer e) (_defense_applied e) (_red_auto_score e) v
    (_prev_foul_counts e) (_auto_winner e).

Definition set_prev_foul_counts (v : gmap string Z) (e : MatchEngine) : MatchEngine :=
  mkMatchEngine (rng e) (red_config e) (blue_config e) (field e) (match_state e)
    (all_robots e) (red_fuel_scored e) (blue_fuel_scored e) (red_tower_points e)
    (blue_tower_points e) (red_penalty_points e) (blue_penalty_points e) (phase_scores e)
    (_red_hp_timer e) (_blue_hp_timer e) (_defense_applied e) (_red_auto_score e)
    (_blue_auto_score e) v (_auto_winner e).

Definition set_auto_winner (v : option string) (e : MatchEngine) : MatchEngine :=
  mkMatchEngine (rng e) (red_config e) (blue_config e) (field e) (match_state e)
    (all_robots e) (red_fuel_scored e) (blue_fuel_scored e) (red_tower_points e)
    (blue_tower_points e) (red_penalty_points e) (blue_penalty_points e) (phase_scores e)
    (_red_hp_timer e) (_blue_hp_timer e) (_defense_applied e) (_red_auto_score e)
    (_blue_auto_score e) (_prev_foul_counts e) v.

(** [self._red_auto_score = red; self._blue_auto_score = blue;
    self._auto_winner = winner]. *)
Definition set_auto (red blue : Z) (winner : option string) (e : MatchEngine) : MatchEngine :=
  set_auto_winner winner (set_blue_auto_score blue (set_red_auto_score red e)).

(** *** Phase transitions *)

Definition _determine_auto_winner (e : MatchEngine) : MatchEngine :=
  let red := red_fuel_scored e in
  let blue := blue_fuel_scored e in
  if blue <? red then set_auto red blue (Some "red") e
  else if red <? blue then set_auto red blue (Some "blue") e
  else set_auto red blue (Some "red") e.

(** [getattr(self, "_auto_winner", "red")]. *)
Definition auto_winner_or_default (e : MatchEngine) : string :=
  match _auto_winner e with
  | Some w => w
  | None => "red"
  end.

Definition _update_hub_activation (phase : Phase) (e : MatchEngine) : MatchEngine :=
  let winner := auto_winner_or_default e in
  let winner_active := match phase with SHIFT2 | SHIFT4 => true | _ => false end in
  let loser_active := negb winner_active in
  if String.eqb winner "red"
  then set_match_state (set_hub_active winner_active loser_active (match_state e)) e
  else set_match_state (set_hub_active loser_active winner_active (match_state e)) e.

Definition _on_phase_change (old_phase new_phase : Phase) (e : MatchEngine) : MatchEngine :=
  let e1 :=
    match old_phase, new_phase with
    | AUTO, TRANSITION => _determine_auto_winner e
    | _, _ => e
    end in
  let e2 := if is_shift new_phase then _update_hub_activation new_phase e1 else e1 in
  match new_phase with
  | ENDGAME => set_match_state (set_hub_active true true (match_state e2)) e2
  | _ => e2
  end.

(** *** Shooting resolution *)

(** The trial loop of [_resolve_shooting], [n] iterations left:
    [fuel_held] is [state.fuel_held], [g] the engine's generator, [fld]
    the field state. *)
Fixpoint shot_loop (n : nat) (accuracy : Q) (fuel_held : Z) (g : G) (fld : FieldState)
    (hits misses : Z) : Z * G * FieldState * Z * Z :=
  match n with
  | O => (fuel_held, g, fld, hits, misses)
  | S n' =>
      if fuel_held <=? 0 then (fuel_held, g, fld, hits, misses)
      else
        let fuel_held := fuel_held - 1 in
        let fld := FieldManager.fuel_shot 1 fld in
        let '(trial, g) := rng_random g in
        if Qltb trial accuracy
        then shot_loop n' accuracy fuel_held g fld (hits + 1) misses
        else shot_loop n' accuracy fuel_held g fld hits (misses + 1)
  end.

(** [min(state.fuel_held, max(1, int(rate * TICK_INTERVAL + 0.5)))]. *)
Definition fuel_this_tick (fuel_held : Z) (rate : Q) : Z :=
  Z.min fuel_held (Z.max 1 (Py.int (rate * TICK_INTERVAL + 0.5))).

(** The hub flag of the robot's alliance. *)
Definition hub_active_of (alliance : Alliance) (m : MatchState) : bool :=
  match alliance with
  | RED => red_hub_active m
  | BLUE => blue_hub_active m
  end.

(** The block under [if hub_active:] for [hits] hits. *)
Definition credit_hits (alliance : Alliance) (hits : Z) (e : MatchEngine) : MatchEngine :=
  let points := hits * FUEL_ACTIVE_HUB_POINTS in
  let e1 :=
    match alliance with
    | RED =>
        set_match_state (credit_red hits points (match_state e))
          (set_red_fuel_scored (red_fuel_scored e + hits) e)
    | BLUE =>
        set_match_state (credit_blue hits points (match_state e))
          (set_blue_fuel_scored (blue_fuel_scored e + hits) e)
    end in
  let phase_key := Phase_value (current_phase (match_state e1)) in
  match alliance with
  | RED => set_phase_scores (alter (fun rb => (fst rb + points, snd rb)) phase_key (phase_scores e1)) e1
  | BLUE => set_phase_scores (alter (fun rb => (fst rb, snd rb + points)) phase_key (phase_scores e1)) e1
  end.

(** The body of the loop of [_resolve_shooting] for one robot. *)
Definition resolve_robot (elapsed : Q) (robot : Robot G) (e : MatchEngine)
    : Robot G * MatchEngine :=
  let state := get_state robot in
  match current_action state with
  | SHOOTING | DUMPING =>
      if fuel_held state <=? 0 then (robot, e)
      else
        let rate := get_shoot_rate robot in
        if Qle_bool rate 0 then (robot, e)
        else
          let n := fuel_this_tick (fuel_held state) rate in
          let alliance := alliance state in
          let hub_active := hub_active_of alliance (match_state e) in
          let accuracy := get_accuracy robot in
          let '(held, g, fld, hits, misses) :=
            shot_loop (Z.to_nat n) accuracy (fuel_held state) (rng e) (field e) 0 0 in
          let robot' := set_state (set_fuel_held held state) robot in
          let e1 := set_field fld (set_rng g e) in
          let e2 :=
            if 0 <? hits then
              let e' := set_field
                          (FieldManager.fuel_scored (Alliance_value alliance) hits elapsed
                             (field e1)) e1 in
              if hub_active then credit_hits alliance hits e' else e'
            else e1 in
          let e3 :=
            if 0 <? misses
            then set_field (FieldManager.fuel_missed misses elapsed (field e2)) e2
            else e2 in
          (robot', e3)
  | _ => (robot, e)
  end.

(** The loop over [self.all_robots]. *)
Fixpoint resolve_robots (elapsed : Q) (robots : list (Robot G)) (e : MatchEngine)
    : list (Robot G) * MatchEngine :=
  match robots with
  | [] => ([], e)
  | robot :: rest =>
      let '(robot', e1) := resolve_robot elapsed robot e in
      let '(rest', e2) := resolve_robots elapsed rest e1 in
      (robot' :: rest', e2)
  end.

Definition _resolve_shooting (elapsed : Q) (e : MatchEngine) : MatchEngine :=
  let '(robots, e') := resolve_robots elapsed (all_robots e) e in
  set_all_robots robots e'.

(** *** Human player *)

Definition _hp_throw (alliance : string) (elapsed : Q) (e : MatchEngine) : MatchEngine :=
  let e1 := set_field (FieldManager.hp_throw alliance elapsed (field e)) e in
  let '(trial, g) := rng_random (rng e1) in
  let e2 := set_rng g e1 in
  if Qltb trial HP_THROW_ACCURACY then
    let e3 := set_field (FieldManager.fuel_scored alliance 1 elapsed (field e2)) e2 in
    let hub_active :=
      if String.eqb alliance "red"
      then red_hub_active (match_state e3)
      else blue_hub_active (match_state e3) in
    if hub_active then
      if String.eqb alliance "red" then
        set_match_state (credit_red 1 FUEL_ACTIVE_HUB_POINTS (match_state e3))
          (set_red_fuel_scored (red_fuel_scored e3 + 1) e3)
      else
        set_match_state (credit_blue 1 FUEL_ACTIVE_HUB_POINTS (match_state e3))
          (set_blue_fuel_scored (blue_fuel_scored e3 + 1) e3)
    else e3
  else set_field (FieldManager.fuel_missed 1 elapsed (field e2)) e2.

(** The loop of [_hp_feed] over the robots of alliance [team]: the first
    robot that is not full ends the loop, fed or not. *)
Fixpoint hp_feed_loop (team : Alliance) (alliance : string) (robots : list (Robot G))
    (fld : FieldState) : list (Robot G) * FieldState :=
  match robots with
  | [] => ([], fld)
  | robot :: rest =>
      if bool_decide (r_alliance robot = team)
         && (fuel_held (state robot) <? storage_capacity (state robot))
      then
        let '(fed, fld') := FieldManager.hp_feed alliance fld in
        if fed
        then (upd_state (set_fuel_held (fuel_held (state robot) + 1)) robot :: rest, fld')
        else (robot :: rest, fld')
      else
        let '(rest', fld') := hp_feed_loop team alliance rest fld in
        (robot :: rest', fld')
  end.

Definition _hp_feed (team : Alliance) (alliance : string) (e : MatchEngine) : MatchEngine :=
  let '(robots, fld) := hp_feed_loop team alliance (all_robots e) (field e) in
  set_field fld (set_all_robots robots e).

Definition _process_hp_for_alliance (alliance : Alliance) (hp_mode : HumanPlayerMode)
    (dt elapsed : Q) (e : MatchEngine) : MatchEngine :=
  let timer0 := match alliance with RED => _red_hp_timer e | BLUE => _blue_hp_timer e end in
  let timer := (timer0 + dt)%Q in
  let alliance_str := Alliance_value alliance in
  let throw_branch :=
    if Qle_bool HP_THROW_INTERVAL timer
    then ((timer - HP_THROW_INTERVAL)%Q, _hp_throw alliance_str elapsed e)
    else (timer, e) in
  let feed_branch :=
    if Qle_bool HP_FEED_INTERVAL timer
    then ((timer - HP_FEED_INTERVAL)%Q, _hp_feed alliance alliance_str e)
    else (timer, e) in
  let '(timer', e1) :=
    match hp_mode with
    | HP_THROW => throw_branch
    | HP_FEED => feed_branch
    | HP_MIXED =>
        if hub_active_of alliance (match_state e) then throw_branch else feed_branch
    end in
  match alliance with
  | RED => set_red_hp_timer timer' e1
  | BLUE => set_blue_hp_timer timer' e1
  end.

Definition _process_human_players (dt elapsed : Q) (e : MatchEngine) : MatchEngine :=
  match current_phase (match_state e) with
  | AUTO | TRANSITION => e
  | _ =>
      let e1 := _process_hp_for_alliance RED (human_player_mode (red_config e)) dt elapsed e in
      _process_hp_for_alliance BLUE (human_player_mode (blue_config e1)) dt elapsed e1
  end.

(** *** Robots *)

(** [for robot in self.all_robots: robot.tick(self.match_state, self.field, dt)]:
    the robots share the field. *)
Fixpoint tick_robots (match_state : MatchState) (dt : Q) (robots : list (Robot G))
    (fld : FieldState) : option (list (Robot G) * FieldState) :=
  match robots with
  | [] => Some ([], fld)
  | robot :: rest =>
      match Robot.tick match_state dt robot fld with
      | None => None
      | Some (robot', fld1) =>
          match tick_robots match_state dt rest fld1 with
          | None => None
          | Some (rest', fld2) => Some (robot' :: rest', fld2)
          end
      end
  end.

(** *** Defense *)

Fixpoint find_robot_in (robot_id : string) (robots : list (Robot G)) : option (Robot G) :=
  match robots with
  | [] => None
  | robot :: rest =>
      if String.eqb (Robot.robot_id robot) robot_id then Some robot
      else find_robot_in robot_id rest
  end.

Definition _find_robot (robot_id : string) (e : MatchEngine) : option (Robot G) :=
  find_robot_in robot_id (all_robots e).

(** A method called on the robot that [_find_robot] returns changes that
    robot inside [all_robots]. *)
Fixpoint update_robot (robot_id : string) (method : Robot G -> Robot G)
    (robots : list (Robot G)) : list (Robot G) :=
  match robots with
  | [] => []
  | robot :: rest =>
      if String.eqb (Robot.robot_id robot) robot_id then method robot :: rest
      else robot :: update_robot robot_id method rest
  end.

(** The target of a defender: its configured target, else the first robot
    of the other alliance. *)
Definition defense_target_of (defender : Robot G) : string :=
  let fallback := match r_alliance defender with RED => "blue_0" | BLUE => "red_0" end in
  match defense_target (config defender) with
  | Some target_id => if String.eqb target_id "" then fallback else target_id
  | None => fallback
  end.

(** The first loop of [_process_defense], over the defending robots. *)
Fixpoint defense_loop (defenders : list (Robot G)) (currently_defended : gset string)
    (e : MatchEngine) : gset string * MatchEngine :=
  match defenders with
  | [] => (currently_defended, e)
  | defender :: rest =>
      let target_id := defense_target_of defender in
      match _find_robot target_id e with
      | None => defense_loop rest currently_defended e
      | Some target =>
          let currently_defended := {[target_id]} ∪ currently_defended in
          if negb (default false (dict_get target_id (_defense_applied e))) then
            let penalty :=
              if is_turret target
              then apply_defense_penalty DEFENSE_CYCLE_HIT_TURRET DEFENSE_ACCURACY_HIT_TURRET
              else apply_defense_penalty DEFENSE_CYCLE_HIT_FIXED DEFENSE_ACCURACY_HIT_FIXED in
            let e1 := set_all_robots (update_robot target_id penalty (all_robots e)) e in
            defense_loop rest currently_defended
              (set_defense_applied (dict_set target_id true (_defense_applied e1)) e1)
          else defense_loop rest currently_defended e
      end
  end.

(** The second loop of [_process_defense], over a copy of the items of
    [_defense_applied]. *)
Fixpoint release_loop (items : list (string * bool)) (currently_defended : gset string)
    (e : MatchEngine) : MatchEngine :=
  match items with
  | [] => e
  | (robot_id, is_defended) :: rest =>
      if is_defended && negb (bool_decide (robot_id ∈ currently_defended)) then
        let e1 :=
          match _find_robot robot_id e with
          | Some _ => set_all_robots (update_robot robot_id reset_defense_penalty (all_robots e)) e
          | None => e
          end in
        release_loop rest currently_defended
          (set_defense_applied (dict_set robot_id false (_defense_applied e1)) e1)
      else release_loop rest currently_defended e
  end.

Definition _process_defense (e : MatchEngine) : MatchEngine :=
  let defenders :=
    List.filter
      (fun robot =>
         is_defending (state robot)
         && match current_action (state robot) with DEFENDING => true | _ => false end)
      (all_robots e) in
  let '(currently_defended, e1) := defense_loop defenders ∅ e in
  release_loop (_defense_applied e1) currently_defended e1.

(** *** Fouls *)

(** The loop of [_process_fouls]. *)
Fixpoint fouls_loop (robots : list (Robot G)) (e : MatchEngine) : MatchEngine :=
  match robots with
  | [] => e
  | robot :: rest =>
      let current_fouls := fouls_drawn_this_match (state robot) in
      let prev_fouls := default 0 (_prev_foul_counts e !! Robot.robot_id robot) in
      if prev_fouls <? current_fouls then
        let new_fouls := current_fouls - prev_fouls in
        let e1 := set_prev_foul_counts
                    (<[Robot.robot_id robot := current_fouls]> (_prev_foul_counts e)) e in
        let penalty_pts := new_fouls * FOUL_POINTS in
        let e2 :=
          match r_alliance robot with
          | RED =>
              set_match_state (penalize_red penalty_pts (match_state e1))
                (set_blue_penalty_points (blue_penalty_points e1 + penalty_pts) e1)
          | BLUE =>
              set_match_state (penalize_blue penalty_pts (match_state e1))
                (set_red_penalty_points (red_penalty_points e1 + penalty_pts) e1)
          end in
        fouls_loop rest e2
      else fouls_loop rest e
  end.

Definition _process_fouls (e : MatchEngine) : MatchEngine := fouls_loop (all_robots e) e.

(** *** Tower climbing resolution *)



(** *** Result compilation *)


(** *** Preload *)

(** The loop of [_distribute_preload]. *)
Fixpoint preload_loop (robots : list (Robot G)) (remaining : Z) : list (Robot G) :=
  match robots with
  | [] => []
  | robot :: rest =>
      let target :=
        Z.min (Z.min (auto_fuel_target (config robot)) AUTO_PRELOAD_MAX)
          (cfg_storage_capacity (config robot)) in
      let fuel := Z.min target remaining in
      set_state (set_fuel_held fuel (state robot)) robot :: preload_loop rest (remaining - fuel)
  end.

Definition _distribute_preload (robots : list (Robot G)) (total_preload : Z)
    : list (Robot G) :=
  preload_loop robots total_preload.

(** *** Construction *)

(** The loops of [__init__] that create the robots of one alliance: robot
    number [i] gets its own generator, seeded by a draw
    [self.rng.randint(0, 2**31)] of the engine's generator. *)
Fixpoint make_robots (prefix : string) (alliance : Alliance) (configs : list RobotConfig)
    (i : nat) (g : G) : list (Robot G) * G :=
  match configs with
  | [] => ([], g)
  | cfg :: rest =>
      let '(seed, g1) := rng_randint 0 (2 ^ 31) g in
      let robot := Robot.init (robot_name prefix i) alliance cfg (rng_seed seed) in
      let '(robots, g2) := make_robots prefix alliance rest (S i) g1 in
      (robot :: robots, g2)
  end.

(** [MatchEngine.__init__]. *)
Definition init (red_alliance blue_alliance : AllianceConfig) (seed : Z) : MatchEngine :=
  let g := rng_seed seed in
  let '(red_robots, g1) := make_robots "red" RED (robots red_alliance) 0 g in
  let '(blue_robots, g2) := make_robots "blue" BLUE (robots blue_alliance) 0 g1 in
  let red_robots := _distribute_preload red_robots INITIAL_PRELOAD_FUEL in
  let blue_robots := _distribute_preload blue_robots INITIAL_PRELOAD_FUEL in
  let all_robots := (red_robots ++ blue_robots)%list in
  mkMatchEngine g2 red_alliance blue_alliance FieldManager.init
    (mkMatchState TOTAL_MATCH_DURATION AUTO true true 0 0 0 0 0 0 0 0)
    all_robots 0 0 0 0 0 0 ∅ 0.0 0.0 [] 0 0
    (fold_left (fun counts robot => <[Robot.robot_id robot := 0]> counts) all_robots ∅)
    None.

(** *** Main simulation loop *)

(** The head of an iteration of the loop of [run]: the phase is read off
    the clock, a change of phase is handled, and the phase gets its entry
    in [phase_scores]. *)
Definition begin_tick (e : MatchEngine) : MatchEngine :=
  let new_phase := _get_phase (time_remaining (match_state e)) in
  let e1 :=
    if bool_decide (new_phase <> current_phase (match_state e)) then
      let e' := _on_phase_change (current_phase (match_state e)) new_phase e in
      set_match_state (set_current_phase new_phase (match_state e')) e'
    else e in
  let phase_key := Phase_value new_phase in
  match phase_scores e1 !! phase_key with
  | Some _ => e1
  | None => set_phase_scores (<[phase_key := (0, 0)]> (phase_scores e1)) e1
  end.

(** The six numbered steps of an iteration; [None] is an exception
    raised by a robot. *)
Definition steps (dt elapsed : Q) (e : MatchEngine) : option MatchEngine :=
  let all_states := map get_state (all_robots e) in
  let e1 := set_field (FieldManager.tick elapsed all_states (field e)) e in
  let e2 := _process_human_players dt elapsed e1 in
  match tick_robots (match_state e2) dt (all_robots e2) (field e2) with
  | None => None
  | Some (robots, fld) =>
      let e3 := set_field fld (set_all_robots robots e2) in
      let e4 := _resolve_shooting elapsed e3 in
      let e5 := _process_defense e4 in
      Some (_process_fouls e5)
  end.

(** One iteration of the loop of [run]. *)
Definition run_iteration (e : MatchEngine) : option MatchEngine :=
  let dt := TICK_INTERVAL in
  let e1 := begin_tick e in
  let elapsed := (TOTAL_MATCH_DURATION - time_remaining (match_state e1))%Q in
  match steps dt elapsed e1 with
  | None => None
  | Some e2 =>
      Some (set_match_state
              (set_time_remaining (time_remaining (match_state e2) - dt)%Q (match_state e2)) e2)
  end.

(** [while self.match_state.time_remaining > 0], at most [n] iterations. *)
Fixpoint run_loop (n : nat) (e : MatchEngine) : option MatchEngine :=
  match n with
  | O => Some e
  | S n' =>
      if Qltb 0 (time_remaining (match_state e))
      then
        match run_iteration e with
        | None => None
        | Some e' => run_loop n' e'
        end
      else Some e
  end.

(** The number of iterations that empty a clock of [t] seconds. *)
Definition ticks_for (t : Q) : nat := Z.to_nat (Qceiling (t / TICK_INTERVAL)).


End WithGenerator.

Arguments MatchEngine G : clear implicits.

End MatchEngine.

(* ===================================================================== *)
(** ** Vocabulary of the statements *)
(* ===================================================================== *)

(** The three pools a robot can draw from. *)
Inductive Pool := NeutralPool | RedOutpost | BlueOutpost.

(** The pool a request [try_intake(alliance, zone, _)] is served from:
    the team's outpost for the zone "outpost", the neutral pool for every
    other zone. *)
Definition intake_pool (alliance_str zone_str : string) : Pool :=
  if FieldManager.is_neutral_like zone_str then NeutralPool
  else if String.eqb zone_str "outpost" then
    (if String.eqb alliance_str "red" then RedOutpost else BlueOutpost)
  else NeutralPool.

Definition pool_count (p : Pool) (s : FieldState) : Z :=
  match p with
  | NeutralPool => neutral_fuel_available s
  | RedOutpost => red_outpost_fuel s
  | BlueOutpost => blue_outpost_fuel s
  end.

(** The state [s] with the count of pool [p] replaced by [v] and nothing
    else changed. *)
Definition with_pool_count (p : Pool) (v : Z) (s : FieldState) : FieldState :=
  match p with
  | NeutralPool => set_neutral_fuel_available v s
  | RedOutpost => set_red_outpost_fuel v s
  | BlueOutpost => set_blue_outpost_fuel v s
  end.

(** The outpost pool of a team. *)
Definition outpost_of (a : Alliance) : Pool :=
  match a with RED => RedOutpost | BLUE => BlueOutpost end.

(** Every pool of the ledger that robots and human players draw from
    holds a non-negative count. *)
Definition pools_nonneg (s : FieldState) : Prop :=
  0 <= neutral_fuel_available s /\ 0 <= red_outpost_fuel s /\ 0 <= blue_outpost_fuel s.

(** A climb request is served the way [can_climb]'s contract asks: the
    robot is registered only when [can_climb] answers true. *)
Definition climb_if_allowed (request : string * string) (s : FieldState) : FieldState :=
  let '(alliance, robot_id) := request in
  if FieldManager.can_climb alliance robot_id s
  then FieldManager.register_climb alliance robot_id s
  else s.

(** A sequence of requests, served in order. *)
Definition climb_all_if_allowed (requests : list (string * string)) (s : FieldState)
    : FieldState :=
  fold_left (fun st request => climb_if_allowed request st) requests s.

(** A sequence of unconditional [register_climb] calls, in order. *)
Definition register_all (requests : list (string * string)) (s : FieldState) : FieldState :=
  fold_left (fun st request => FieldManager.register_climb (fst request) (snd request) st)
    requests s.

(** Both occupancy lists are within the tower capacity. *)
Definition towers_within_capacity (s : FieldState) : Prop :=
  (length (red_tower_occupants s) <= MAX_TOWER_OCCUPANTS)%nat
  /\ (length (blue_tower_occupants s) <= MAX_TOWER_OCCUPANTS)%nat.

(** The hub flag of the team named [team] ("red", else blue). *)
Definition team_hub_active (team : string) (m : MatchState) : bool :=
  if String.eqb team "red" then red_hub_active m else blue_hub_active m.

Definition other_team (team : string) : string :=
  if String.eqb team "red" then "blue" else "red".






Section Trials.

Context {G : Type} `{RandomGen G}.



End Trials.



(** Robot configurations as [strategy.py] builds them from
    [ARCHETYPE_DEFAULTS]. *)
Definition elite_turret_config : RobotConfig :=
  mkRobotConfig ELITE_TURRET SINGLE_TURRET IDX_SPINDEXER 14 8.0 10.0 TOUCH_AND_GO 8
    SCORE_FUEL 1 3 12.0 ACTIVE_SCORE INACTIVE_STOCKPILE None true.


Definition kitbot_base_config : RobotConfig :=
  mkRobotConfig KITBOT_BASE SINGLE_FIXED IDX_GRAVITY_FED 15 2.0 3.0 PUSH_AROUND 1
    SCORE_FUEL 1 0 0.0 ACTIVE_SCORE INACTIVE_STOCKPILE None true.

(** The three robots of an alliance as [MatchEngine.__init__] creates
    them, all of one configuration, each on a scripted generator. *)
Definition alliance_robots (a : Alliance) (cfg : RobotConfig) : list (Robot.Robot (list Q)) :=
  [ Robot.init (Alliance_value a +:+ "_0") a cfg [];
    Robot.init (Alliance_value a +:+ "_1") a cfg [];
    Robot.init (Alliance_value a +:+ "_2") a cfg [] ].

(** All six robots after [_distribute_preload] on both alliances. *)
Definition preloaded_robots (red_cfg blue_cfg : RobotConfig) : list (Robot.Robot (list Q)) :=
  (MatchEngine._distribute_preload (alliance_robots RED red_cfg) INITIAL_PRELOAD_FUEL
   ++ MatchEngine._distribute_preload (alliance_robots BLUE blue_cfg) INITIAL_PRELOAD_FUEL)%list.

(** Two alliances of three elite-turret robots, human players in mixed
    mode. *)
Definition elite_alliance : AllianceConfig :=
  mkAllianceConfig [elite_turret_config; elite_turret_config; elite_turret_config] HP_MIXED.

(** An engine at the end of Auto with the given fuel scored. *)
Definition engine_after_auto (red blue : Z) : MatchEngine.MatchEngine (list Q) :=
  MatchEngine.mkMatchEngine [] elite_alliance elite_alliance FieldManager.init
    (mkMatchState 140.0 AUTO true true red blue red blue 0 0 0 0)
    (preloaded_robots elite_turret_config elite_turret_config)
    red blue 0 0 0 0 ∅ 0.0 0.0 [] 0 0 ∅ None.



(** The robot states the conservation check is run on. *)
Definition states_of {G : Type} (robots : list (Robot.Robot G)) : list RobotState :=
  map Robot.get_state robots.

(** The six robots of a match between two elite-turret alliances, as
    preloaded at match start (8, 2 and 0 fuel per alliance), split around
    the third red robot "red_2". *)
Definition robots_before_pusher : list (Robot.Robot (list Q)) :=
  take 2 (preloaded_robots elite_turret_config elite_turret_config).

Definition pusher : Robot.Robot (list Q) :=
  Robot._start_push_cycle
    (default (Robot.init "red_2" RED elite_turret_config [])
       (preloaded_robots elite_turret_config elite_turret_config !! 2%nat)).

Definition robots_after_pusher : list (Robot.Robot (list Q)) :=
  drop 3 (preloaded_robots elite_turret_config elite_turret_config).

(** The fuel a call [push_fuel(from_zone, _, amount)] takes out of its
    source: what the draw removes, and nothing when a guard ends the call
    before the draw. *)
Definition push_actual_moved (from_zone : string) (amount : Z) (s : FieldState) : Z :=
  if amount <=? 0 then 0
  else
    match FieldManager.push_draw from_zone amount s with
    | Some (actual_moved, _) => actual_moved
    | None => 0
    end.




(** What the six steps of an iteration leave alone: the clock, the phase,
    the hub flags and the recorded Auto winner. *)
Definition keeps_phase_data {G : Type} (e e' : MatchEngine.MatchEngine G) : Prop :=
  time_remaining (MatchEngine.match_state e') = time_remaining (MatchEngine.match_state e)
  /\ current_phase (MatchEngine.match_state e') = current_phase (MatchEngine.match_state e)
  /\ red_hub_active (MatchEngine.match_state e') = red_hub_active (MatchEngine.match_state e)
  /\ blue_hub_active (MatchEngine.match_state e') = blue_hub_active (MatchEngine.match_state e)
  /\ MatchEngine._auto_winner e' = MatchEngine._auto_winner e.

(** The clock at the head of iteration number [k] of the loop of [run], as
    the loop computes it: [k] subtractions of the tick interval from the
    match duration. *)
Definition clock (k : nat) : Q :=
  Nat.iter k (fun t => (t - TICK_INTERVAL)%Q) TOTAL_MATCH_DURATION.

(** [k] iterations of the loop of [run], whatever the clock says. *)
Fixpoint iterate {G : Type} `{RandomGen G} (k : nat) (e : MatchEngine.MatchEngine G)
    : option (MatchEngine.MatchEngine G) :=
  match k with
  | O => Some e
  | S k' =>
      match MatchEngine.run_iteration e with
      | None => None
      | Some e' => iterate k' e'
      end
  end.

(** The loop [while self.match_state.time_remaining > 0] of [run] as a
    relation between the engine at the head of the loop and the way the
    loop ends: with the engine it leaves, or with an exception ([None]). *)
Inductive loop_outcome {G : Type} `{RandomGen G}
    : MatchEngine.MatchEngine G -> option (MatchEngine.MatchEngine G) -> Prop :=
| loop_exit e :
    Qltb 0 (time_remaining (MatchEngine.match_state e)) = false ->
    loop_outcome e (Some e)
| loop_raise e :
    Qltb 0 (time_remaining (MatchEngine.match_state e)) = true ->
    MatchEngine.run_iteration e = None ->
    loop_outcome e None
| loop_iterate e e' out :
    Qltb 0 (time_remaining (MatchEngine.match_state e)) = true ->
    MatchEngine.run_iteration e = Some e' ->
    loop_outcome e' out ->
    loop_outcome e out.


(** The cycle phases whose completion reads [_cycle_total_time]. *)
Definition needs_cycle_total (phase : string) : bool :=
  String.eqb phase "drive_to_fuel" || String.eqb phase "intaking".

(** A robot in such a phase has the attribute. *)
Definition cycle_total_known {G : Type} (r : Robot.Robot G) : bool :=
  implb (needs_cycle_total (Robot._cycle_phase r))
    match Robot._cycle_total_time r with Some _ => true | None => false end.

Definition robots_ready {G : Type} (robots : list (Robot.Robot G)) : Prop :=
  Forall (fun r => cycle_total_known r = true) robots.


(** The conserved sum over the field and the robots of an engine. *)
Definition engine_total {G : Type} (e : MatchEngine.MatchEngine G) : Z :=
  total_fuel_check (MatchEngine.field e) (states_of (MatchEngine.all_robots e)).

(** An elite-turret alliance under the auto preset "2_score_1_disrupt" of
    [strategy.py]: the third robot runs DISRUPT_NEUTRAL in Auto. *)
Definition disruptor_config : RobotConfig :=
  mkRobotConfig ELITE_TURRET SINGLE_TURRET IDX_SPINDEXER 14 8.0 10.0 TOUCH_AND_GO 8
    DISRUPT_NEUTRAL 1 3 12.0 ACTIVE_SCORE INACTIVE_STOCKPILE None true.

Definition disrupt_alliance : AllianceConfig :=
  mkAllianceConfig [elite_turret_config; elite_turret_config; disruptor_config] HP_MIXED.

(** An alliance of three stock kitbots. *)
Definition kitbot_alliance : AllianceConfig :=
  mkAllianceConfig [kitbot_base_config; kitbot_base_config; kitbot_base_config] HP_MIXED.

(* ===================================================================== *)
(** What the source zone of a push holds, in the words of the
    specification: the neutral pool for "neutral", the two outposts
    together for "outpost", nothing under any other name. *)
Definition source_available (from_zone : string) (s : FieldState) : Z :=
  if String.eqb from_zone "neutral" then neutral_fuel_available s
  else if String.eqb from_zone "outpost" then red_outpost_fuel s + blue_outpost_fuel s
  else 0.

(** The ledger of the match start after each alliance has taken the ten
    fuel of its own outpost. *)
Definition outposts_emptied : FieldState :=
  snd (FieldManager.try_intake "blue" "outpost" 10
         (snd (FieldManager.try_intake "red" "outpost" 10 FieldManager.init))).



Section ShotVocabulary.

Context {G : Type} `{RandomGen G}.






End ShotVocabulary.

Section Streams.

Context {G : Type} `{RandomGen G}.




End Streams.

(** ** Properties of the field ledger *)
(* ===================================================================== *)

Section FieldLedger.

Import FieldManager.

(** Writing back the value a field already holds changes nothing. *)
Lemma set_neutral_same s : set_neutral_fuel_available (neutral_fuel_available s) s = s.
Proof. by destruct s. Qed.

Lemma set_red_outpost_same s : set_red_outpost_fuel (red_outpost_fuel s) s = s.
Proof. by destruct s. Qed.

Lemma set_blue_outpost_same s : set_blue_outpost_fuel (blue_outpost_fuel s) s = s.
Proof. by destruct s. Qed.

Lemma with_pool_count_same p s : with_pool_count p (pool_count p s) s = s.
Proof. destruct p; by destruct s. Qed.

Lemma pool_count_with p v s : pool_count p (with_pool_count p v s) = v.
Proof. by destruct p. Qed.

(** [try_intake] in one equation: nothing for a non-positive request,
    else the minimum of request and pool count, taken from the pool. *)
Lemma try_intake_unfold alliance_str zone_str amount s :
  try_intake alliance_str zone_str amount s =
  if amount <=? 0 then (0, s)
  else
    let p := intake_pool alliance_str zone_str in
    let actual := Z.min amount (pool_count p s) in
    (actual, with_pool_count p (pool_count p s - actual) s).
Proof.
  unfold try_intake, intake_pool.
  destruct (amount <=? 0); [done|].
  destruct (is_neutral_like zone_str); [done|].
  destruct (String.eqb zone_str "outpost"); [|done].
  by destruct (String.eqb alliance_str "red").
Qed.

(** The pools stay non-negative under every operation that draws from
    them. *)
Lemma try_intake_pools_nonneg alliance_str zone_str amount s :
  pools_nonneg s -> pools_nonneg (snd (try_intake alliance_str zone_str amount s)).
Proof.
  intros (Hn & Hr & Hb). rewrite try_intake_unfold.
  destruct (Z.leb_spec amount 0); [done|].
  destruct (intake_pool alliance_str zone_str); unfold pools_nonneg; simpl; lia.
Qed.

Lemma hp_feed_pools_nonneg alliance s :
  pools_nonneg s -> pools_nonneg (snd (hp_feed alliance s)).
Proof.
  intros (Hn & Hr & Hb). unfold hp_feed.
  destruct (String.eqb alliance "red").
  - destruct (Z.leb_spec (red_outpost_fuel s) 0); unfold pools_nonneg; simpl; lia.
  - destruct (Z.leb_spec (blue_outpost_fuel s) 0); unfold pools_nonneg; simpl; lia.
Qed.

Lemma hp_throw_pools_nonneg alliance now s :
  pools_nonneg s -> pools_nonneg (hp_throw alliance now s).
Proof.
  intros (Hn & Hr & Hb). unfold hp_throw.
  destruct (String.eqb alliance "red").
  - destruct (Z.leb_spec (red_outpost_fuel s) 0); unfold pools_nonneg; simpl; lia.
  - destruct (Z.leb_spec (blue_outpost_fuel s) 0); unfold pools_nonneg; simpl; lia.
Qed.

Lemma init_pools_nonneg : pools_nonneg init.
Proof. unfold pools_nonneg; simpl; unfold INITIAL_NEUTRAL_FUEL, INITIAL_OUTPOST_FUEL; lia. Qed.

End FieldLedger.

Section FieldLedgerClaims.

Import FieldManager.

(** C10.  A count that is zero or negative makes [fuel_shot],
    [fuel_scored] and [fuel_missed] return at once: the whole field
    state, pool counters and transit queue included, is the one before
    the call. *)
Theorem nonpositive_count_leaves_field_unchanged :
  forall (count : Z) (alliance : string) (now : Q) (s : FieldState),
    count <= 0 ->
    fuel_shot count s = s
    /\ fuel_scored alliance count now s = s
    /\ fuel_missed count now s = s.
Proof.
  intros count alliance now s Hc.
  unfold fuel_shot, fuel_scored, fuel_missed.
  apply Z.leb_le in Hc. by rewrite Hc.
Qed.

Lemma nonpositive_count_leaves_field_unchanged_witness :
  -2 <= 0
  /\ fuel_shot (-2) init = init
  /\ fuel_scored "red" (-2) 12.5 init = init
  /\ fuel_missed (-2) 12.5 init = init.
Proof.
  split; [lia|].
  apply (nonpositive_count_leaves_field_unchanged (-2) "red" 12.5%Q init). lia.
Defined.

(** C9.  [hp_feed] for a team answers [False] exactly when that team's
    outpost count is zero or less, and then the field state is
    untouched; otherwise it answers [True] and the only change is that
    team's outpost count, one lower. *)
Theorem hp_feed_fails_closed :
  forall (team : Alliance) (s : FieldState),
    let outpost := pool_count (outpost_of team) s in
    let result := hp_feed (Alliance_value team) s in
    (fst result = false <-> outpost <= 0)
    /\ (outpost <= 0 -> result = (false, s))
    /\ (0 < outpost ->
        result = (true, with_pool_count (outpost_of team) (outpost - 1) s)
        /\ pool_count (outpost_of team) (snd result) = outpost - 1
        /\ neutral_fuel_available (snd result) = neutral_fuel_available s
        /\ fuel_in_flight (snd result) = fuel_in_flight s
        /\ fuel_in_transit (snd result) = fuel_in_transit s
        /\ transit_queue (snd result) = transit_queue s
        /\ red_tower_occupants (snd result) = red_tower_occupants s
        /\ blue_tower_occupants (snd result) = blue_tower_occupants s
        /\ congestion_red_hub (snd result) = congestion_red_hub s
        /\ congestion_blue_hub (snd result) = congestion_blue_hub s
        /\ (forall other, other <> team ->
              pool_count (outpost_of other) (snd result) = pool_count (outpost_of other) s)).
Proof.
  intros team s. destruct team; simpl; unfold hp_feed; simpl.
  - destruct (Z.leb_spec (red_outpost_fuel s) 0) as [Hle|Hgt]; simpl.
    + split; [split; [lia|done]|]. split; [done|lia].
    + split; [split; [done|lia]|]. split; [lia|]. intros _.
      repeat split; try done. intros [] Hne; [done|reflexivity].
  - destruct (Z.leb_spec (blue_outpost_fuel s) 0) as [Hle|Hgt]; simpl.
    + split; [split; [lia|done]|]. split; [done|lia].
    + split; [split; [done|lia]|]. split; [lia|]. intros _.
      repeat split; try done. intros [] Hne; [reflexivity|done].
Qed.

Lemma hp_feed_fails_closed_witness :
  hp_feed "red" init = (true, set_red_outpost_fuel 9 init)
  /\ hp_feed "blue" (set_blue_outpost_fuel 0 init) = (false, set_blue_outpost_fuel 0 init).
Proof.
  split.
  - apply (hp_feed_fails_closed RED init). reflexivity.
  - apply (hp_feed_fails_closed BLUE (set_blue_outpost_fuel 0 init)). reflexivity.
Defined.

End FieldLedgerClaims.

Section IntakeAndPushClaims.

Import FieldManager.

(** C2.  In a ledger whose pool holds a non-negative count, [try_intake]
    grants exactly the pool count when the request exceeds it and exactly
    the request when the request is between 0 and the pool count; the
    grant is never negative and never more than the pool held, and for a
    request that is not negative it lies between 0 and the request; the
    only change of the field state is that pool's count, lowered by
    exactly the grant.  A request of zero or less, which no caller makes
    below zero, is granted nothing and changes nothing. *)
Theorem try_intake_fails_closed :
  forall (alliance_str zone_str : string) (amount : Z) (s : FieldState),
    let pool := intake_pool alliance_str zone_str in
    let available := pool_count pool s in
    let actual := fst (try_intake alliance_str zone_str amount s) in
    let s' := snd (try_intake alliance_str zone_str amount s) in
    0 <= available ->
    (amount > available -> actual = available)
    /\ (0 <= amount <= available -> actual = amount)
    /\ (amount <= 0 -> actual = 0 /\ s' = s)
    /\ 0 <= actual <= Z.max 0 amount
    /\ (0 <= amount -> 0 <= actual <= amount)
    /\ actual <= available
    /\ pool_count pool s' = available - actual
    /\ s' = with_pool_count pool (available - actual) s.
Proof.
  intros alliance_str zone_str amount s pool available actual s' Hav.
  subst actual s'. rewrite try_intake_unfold. fold pool. fold available.
  destruct (Z.leb_spec amount 0) as [Hle|Hgt]; cbn [fst snd].
  - assert (Hsame : with_pool_count pool (available - 0) s = s).
    { rewrite Z.sub_0_r. apply with_pool_count_same. }
    rewrite Hsame. repeat split; try lia; done.
  - rewrite pool_count_with. repeat split; try lia.
Qed.

Lemma try_intake_fails_closed_witness :
  0 <= pool_count (intake_pool "blue" "outpost") init
  /\ (25 > 10 -> fst (try_intake "blue" "outpost" 25 init) = 10)
  /\ snd (try_intake "blue" "outpost" 25 init) = set_blue_outpost_fuel (10 - 10) init.
Proof.
  assert (Hav : 0 <= pool_count (intake_pool "blue" "outpost") init) by (vm_compute; discriminate).
  split; [exact Hav|].
  split.
  - apply (try_intake_fails_closed "blue" "outpost" 25 init Hav).
  - apply (try_intake_fails_closed "blue" "outpost" 25 init Hav).
Defined.

End IntakeAndPushClaims.


Section Binary64.

(** [round] stays within a half of its argument and above the floor. *)
Lemma round_above_floor (y : Q) : Qfloor y <= Py.round y.
Proof.
  unfold Py.round. cbv zeta.
  repeat match goal with |- context [if ?b then _ else _] => destruct b end; lia.
Qed.

Lemma round_within_half (y : Q) : (inject_Z (Py.round y) <= y + (1 # 2))%Q.
Proof.
  unfold Py.round. cbv zeta.
  pose proof (Qfloor_le y) as Hfloor.
  destruct (Qle_bool (y - inject_Z (Qfloor y)) 0.5) eqn:Hlow.
  - destruct (Qle_bool 0.5 (y - inject_Z (Qfloor y))) eqn:Hhigh.
    + apply Qle_bool_iff in Hhigh.
      destruct (Z.even (Qfloor y)); [lra|].
      rewrite inject_Z_plus. change (inject_Z 1) with 1%Q. lra.
    + lra.
  - pose proof (Qlt_floor y) as Hnext.
    rewrite inject_Z_plus in *. change (inject_Z 1) with 1%Q in *.
    assert (Hfrac : ~ (y - inject_Z (Qfloor y) <= 0.5)%Q).
    { intros Hle. apply Qle_bool_iff in Hle. congruence. }
    lra.
Qed.

Lemma round_of_integer (y : Q) (z : Z) : (y == inject_Z z)%Q -> Py.round y = z.
Proof.
  intros Hy. unfold Py.round. cbv zeta.
  assert (Hfloor : Qfloor y = z) by (rewrite Hy; apply Qfloor_Z).
  rewrite Hfloor.
  assert (Hlow : Qle_bool (y - inject_Z z) 0.5 = true) by (apply Qle_bool_iff; lra).
  assert (Hhigh : Qle_bool 0.5 (y - inject_Z z) = false).
  { apply not_true_is_false. intros Hle. apply Qle_bool_iff in Hle. lra. }
  by rewrite Hlow, Hhigh.
Qed.

(** A rational between two consecutive integers has the lower one as its
    floor. *)
Lemma floor_between (p : Q) (k : Z) :
  (inject_Z k <= p)%Q -> (p < inject_Z k + 1)%Q -> Qfloor p = k.
Proof.
  intros Hlow Hhigh.
  apply Qfloor_resp_le in Hlow. rewrite Qfloor_Z in Hlow.
  pose proof (Qfloor_le p) as Hfloor.
  assert (Hlt : (inject_Z (Qfloor p) < inject_Z (k + 1))%Q).
  { rewrite inject_Z_plus. change (inject_Z 1) with 1%Q. lra. }
  rewrite <- Zlt_Qlt in Hlt. lia.
Qed.

(** A power of two with an exponent that is not negative. *)
Lemma two_power (j : Z) : 0 <= j -> (Qpower 2 j == inject_Z (2 ^ j))%Q.
Proof. intros Hj. by rewrite Zpower_Qpower. Qed.

Lemma two_power_inverse (j : Z) :
  0 <= j -> (Qpower 2 (- j) * inject_Z (2 ^ j) == 1)%Q.
Proof.
  intros Hj. rewrite Qpower_opp, two_power by exact Hj.
  assert (Hpos : (0 < inject_Z (2 ^ j))%Q).
  { change 0%Q with (inject_Z 0). rewrite <- Zlt_Qlt. lia. }
  field. lra.
Qed.

(** [ilog2] does not overshoot. *)
Lemma ilog2_below (x : Q) : (0 < x)%Q -> (Qpower 2 (Py.ilog2 x) <= x)%Q.
Proof.
  intros Hx. unfold Py.ilog2. cbv zeta.
  destruct (Qle_bool _ x) eqn:Hle; [by apply Qle_bool_iff|]. clear Hle.
  destruct x as [a b]. cbn [Qnum Qden].
  assert (Ha : 0 < a) by (unfold Qlt in Hx; cbn in Hx; lia).
  pose proof (Z.log2_spec a Ha) as [Hlow _].
  pose proof (Z.log2_spec (Z.pos b) ltac:(lia)) as [_ Hhigh].
  pose proof (Z.log2_nonneg a) as Hla. pose proof (Z.log2_nonneg (Z.pos b)) as Hlb.
  set (la := Z.log2 a) in *. set (lb := Z.log2 (Z.pos b)) in *.
  replace (la - lb - 1) with (la - Z.succ lb) by lia.
  rewrite Qpower_minus by done. rewrite !two_power by lia.
  rewrite (Qmake_Qdiv a b).
  assert (H1 : (0 < inject_Z (2 ^ Z.succ lb))%Q).
  { change 0%Q with (inject_Z 0). rewrite <- Zlt_Qlt. lia. }
  assert (H2 : (0 < inject_Z (Z.pos b))%Q).
  { change 0%Q with (inject_Z 0). rewrite <- Zlt_Qlt. lia. }
  assert (H3 : (inject_Z (2 ^ la) <= inject_Z a)%Q) by (by rewrite <- Zle_Qle).
  assert (H4 : (inject_Z (Z.pos b) <= inject_Z (2 ^ Z.succ lb))%Q)
    by (rewrite <- Zle_Qle; lia).
  assert (H5 : (0 <= inject_Z (2 ^ la))%Q).
  { change 0%Q with (inject_Z 0). rewrite <- Zle_Qle. lia. }
  apply Qle_shift_div_l; [exact H2|].
  set (t := (inject_Z (2 ^ la) / inject_Z (2 ^ Z.succ lb))%Q).
  assert (Ht : (t * inject_Z (2 ^ Z.succ lb) == inject_Z (2 ^ la))%Q)
    by (subst t; field; lra).
  assert (Ht0 : (0 <= t)%Q).
  { subst t. apply Qle_shift_div_l; [exact H1|]. lra. }
  apply Qle_trans with (t * inject_Z (2 ^ Z.succ lb))%Q; [|lra].
  rewrite !(Qmult_comm t). by apply Qmult_le_compat_r.
Qed.

(** A positive rational below a power of two has a smaller [ilog2]. *)
Lemma ilog2_bound (x : Q) (b : Z) :
  (0 < x)%Q -> (x < Qpower 2 (b + 1))%Q -> Py.ilog2 x <= b.
Proof.
  intros Hx Hb. pose proof (ilog2_below x Hx) as Hlow.
  assert (Hlt : (Qpower 2 (Py.ilog2 x) < Qpower 2 (b + 1))%Q) by lra.
  apply Qpower_lt_compat_l_inv in Hlt; [lia|lra].
Qed.

Lemma round_compat (x y : Q) : (x == y)%Q -> Py.round x = Py.round y.
Proof.
  intros Hxy. unfold Py.round. cbv zeta.
  assert (Hfloor : Qfloor x = Qfloor y) by (by rewrite Hxy).
  rewrite Hfloor.
  assert (Hlow : Qle_bool (x - inject_Z (Qfloor y)) 0.5
                 = Qle_bool (y - inject_Z (Qfloor y)) 0.5).
  { apply eq_true_iff_eq. rewrite !Qle_bool_iff. by rewrite Hxy. }
  assert (Hhigh : Qle_bool 0.5 (x - inject_Z (Qfloor y))
                  = Qle_bool 0.5 (y - inject_Z (Qfloor y))).
  { apply eq_true_iff_eq. rewrite !Qle_bool_iff. by rewrite Hxy. }
  by rewrite Hlow, Hhigh.
Qed.

(** The rounding of a positive rational below [2 ^ (b + 1)], for [b] up
    to 52: the rounded multiple of a unit [1 / 2 ^ j], whose [j] is at
    least [52 - b]. *)
Lemma round_binary64_positive (x : Q) (b : Z) :
  (0 < x)%Q -> (x < Qpower 2 (b + 1))%Q -> -1022 <= b <= 52 ->
  exists j : Z,
    52 - b <= j
    /\ (Py.round_binary64 x
        == inject_Z (Py.round (x * inject_Z (2 ^ j))) / inject_Z (2 ^ j))%Q.
Proof.
  intros Hx Hb Hrange. unfold Py.round_binary64. cbv zeta.
  assert (Hnz : Qeq_bool x 0 = false).
  { apply not_true_is_false. intros Heq. apply Qeq_bool_iff in Heq. lra. }
  assert (Hsign : Qle_bool 0 x = true) by (apply Qle_bool_iff; lra).
  rewrite Hnz, Hsign.
  assert (Habs : (Qabs x == x)%Q) by (apply Qabs_pos; lra).
  assert (He : Py.ilog2 (Qabs x) <= b) by (apply ilog2_bound; by rewrite Habs).
  set (e := Z.max (Py.ilog2 (Qabs x)) (-1022)) in *.
  assert (Hle : e <= b) by lia.
  exists (52 - e). split; [lia|].
  assert (Hj : 0 <= 52 - e) by lia.
  pose proof (two_power_inverse (52 - e) Hj) as Hinv.
  replace (- (52 - e)) with (e - 52) in Hinv by lia.
  assert (Hpos : (0 < inject_Z (2 ^ (52 - e)))%Q).
  { change 0%Q with (inject_Z 0). rewrite <- Zlt_Qlt. lia. }
  set (J := inject_Z (2 ^ (52 - e))) in *.
  set (ulp := Qpower 2 (e - 52)) in *.
  assert (Hulp : (ulp == / J)%Q) by (field_simplify_eq; lra).
  assert (Harg : (Qabs x / ulp == x * J)%Q).
  { rewrite Habs, Hulp. field. lra. }
  rewrite (round_compat _ _ Harg), Hulp. field. lra.
Qed.

Lemma inject_Z_pos (z : Z) : 0 < z -> (0 < inject_Z z)%Q.
Proof. intros Hz. change 0%Q with (inject_Z 0). by rewrite <- Zlt_Qlt. Qed.

(** An integer of at most 50 bits is a float. *)
Lemma float_of_small_int (n : Z) :
  0 < n <= 2 ^ 50 ->
  exists x : Q, Py.float_of_int n = Some x /\ (x == inject_Z n)%Q.
Proof.
  intros [Hpos Hsmall]. unfold Py.float_of_int. cbv zeta.
  assert (Hn : (0 < inject_Z n)%Q) by (by apply inject_Z_pos).
  assert (Hbelow : (inject_Z n < Qpower 2 (50 + 1))%Q).
  { rewrite two_power by lia. rewrite <- Zlt_Qlt. lia. }
  destruct (round_binary64_positive (inject_Z n) 50 Hn Hbelow ltac:(lia)) as (j & Hj & Hx).
  assert (Hexact : (Py.round_binary64 (inject_Z n) == inject_Z n)%Q).
  { rewrite Hx. rewrite (round_of_integer _ (n * 2 ^ j)) by (by rewrite inject_Z_mult).
    rewrite inject_Z_mult. pose proof (inject_Z_pos (2 ^ j) ltac:(lia)). field. lra. }
  assert (Hfinite : Qle_bool (Qabs (Py.round_binary64 (inject_Z n))) Py.max_binary64 = true).
  { apply Qle_bool_iff. rewrite Hexact, Qabs_pos by lra.
    unfold Py.max_binary64. rewrite <- Zle_Qle.
    apply Z.le_trans with (2 ^ 50); [exact Hsmall|]. vm_compute. discriminate. }
  rewrite Hfinite. by eexists.
Qed.

(** The float that the literal 0.20 denotes. *)
Lemma scatter_rate_float :
  (Py.float_literal PUSH_SCATTER_RATE == 3602879701896397 # 18014398509481984)%Q.
Proof. rewrite <- (Qred_correct (Py.float_literal _)). by vm_compute. Qed.

(** Up to [2 ^ 50] fuel, twenty per cent in binary64, rounded down, is the
    count divided by five. *)
Lemma push_scattered_fifth (n : Z) :
  0 < n <= 2 ^ 50 -> FieldManager.push_scattered n = Some (n / 5).
Proof.
  intros Hn. unfold FieldManager.push_scattered.
  destruct (float_of_small_int n Hn) as (x & -> & Hx).
  f_equal. unfold Py.float_mul, Py.floor.
  set (d := Py.float_literal PUSH_SCATTER_RATE).
  pose proof scatter_rate_float as Hd. fold d in Hd.
  pose proof (Z.div_mod n 5 ltac:(lia)) as Hdiv.
  pose proof (Z.mod_pos_bound n 5 ltac:(lia)) as Hmod.
  set (k := n / 5) in *. set (r := n mod 5) in *.
  assert (Hnq : (inject_Z n == 5 * inject_Z k + inject_Z r)%Q).
  { rewrite Hdiv, inject_Z_plus, inject_Z_mult. reflexivity. }
  assert (Hr0 : (0 <= inject_Z r)%Q) by (change 0%Q with (inject_Z 0); rewrite <- Zle_Qle; lia).
  assert (Hr4 : (inject_Z r <= 4)%Q) by (change 4%Q with (inject_Z 4); rewrite <- Zle_Qle; lia).
  assert (Hk0 : (0 <= inject_Z k)%Q).
  { change 0%Q with (inject_Z 0). rewrite <- Zle_Qle. subst k. apply Z.div_pos; lia. }
  assert (Hn1 : (1 <= inject_Z n)%Q) by (change 1%Q with (inject_Z 1); rewrite <- Zle_Qle; lia).
  assert (Hn50 : (inject_Z n <= 1125899906842624)%Q).
  { change 1125899906842624%Q with (inject_Z (2 ^ 50)). rewrite <- Zle_Qle. lia. }
  set (v := (x * d)%Q).
  assert (Hv : (v == inject_Z n * (3602879701896397 # 18014398509481984))%Q)
    by (subst v; by rewrite Hx, Hd).
  assert (Hvlow : (inject_Z k <= v)%Q) by lra.
  assert (Hvhigh : (v <= inject_Z k + (13 # 16))%Q) by lra.
  assert (Hvpos : (0 < v)%Q) by lra.
  assert (Hbelow : (v < Qpower 2 (48 + 1))%Q).
  { rewrite two_power by lia. change (v < 562949953421312)%Q. lra. }
  destruct (round_binary64_positive v 48 Hvpos Hbelow ltac:(lia)) as (j & Hj & Hp).
  pose proof (inject_Z_pos (2 ^ j) ltac:(lia)) as HJ.
  assert (HJ16 : (16 <= inject_Z (2 ^ j))%Q).
  { change 16%Q with (inject_Z (2 ^ 4)). rewrite <- Zle_Qle.
    apply Z.pow_le_mono_r; lia. }
  set (J := inject_Z (2 ^ j)) in *.
  set (m := Py.round (v * J)) in *.
  apply floor_between; rewrite Hp.
  - apply Qle_shift_div_l; [exact HJ|].
    assert (Hfloor : k * 2 ^ j <= m).
    { apply Z.le_trans with (Qfloor (v * J)); [|apply round_above_floor].
      rewrite <- (Qfloor_Z (k * 2 ^ j)). apply Qfloor_resp_le.
      rewrite inject_Z_mult. fold J. by apply Qmult_le_compat_r; [|lra]. }
    rewrite Zle_Qle, inject_Z_mult in Hfloor. exact Hfloor.
  - apply Qlt_shift_div_r; [exact HJ|].
    pose proof (round_within_half (v * J)) as Hhalf. fold m in Hhalf.
    assert (Hprod : (v * J <= (inject_Z k + (13 # 16)) * J)%Q)
      by (apply Qmult_le_compat_r; lra).
    nra.
Qed.

(** Beyond [2 ^ 53] the binary64 product can part from the fifth: this
    count is rounded up to the next float and the product up to the next
    integer. *)
Lemma push_scattered_excess :
  let n := 5 * 2 ^ 51 + 3 in
  FieldManager.push_scattered n = Some (n / 5 + 1).
Proof. by vm_compute. Qed.

End Binary64.

Section PushClaims.

Import FieldManager.

(** The draw of [push_fuel] from a named source. *)
Lemma push_draw_named from_zone amount s :
  from_zone = "neutral" \/ from_zone = "outpost" ->
  push_draw from_zone amount s
  = Some (Z.min amount (neutral_fuel_available s),
          set_neutral_fuel_available
            (neutral_fuel_available s - Z.min amount (neutral_fuel_available s)) s).
Proof. intros [-> | ->]; reflexivity. Qed.

Lemma push_draw_unnamed from_zone amount s :
  from_zone <> "neutral" -> from_zone <> "outpost" -> push_draw from_zone amount s = None.
Proof.
  intros Hn Ho. unfold push_draw.
  apply String.eqb_neq in Hn, Ho. by rewrite Hn, Ho.
Qed.

(** Drawing, returning the scattered part and delivering the rest leaves
    the state as it was. *)
Lemma push_round_trip s actual scattered :
  push_deliver (actual - scattered)
    (push_return_scatter scattered
       (set_neutral_fuel_available (neutral_fuel_available s - actual) s)) = s.
Proof.
  unfold push_deliver, push_return_scatter, set_neutral_fuel_available.
  destruct s; simpl. f_equal. lia.
Qed.

(** C3, as stated, at a concrete input.  With both outposts emptied by
    their alliances and twenty fuel in the neutral pool, a push of five
    fuel from the source "outpost" draws five fuel, more than the two
    outposts hold together: the draw is made from the neutral pool. *)
Lemma push_fuel_outpost_source_counterexample :
  let s := outposts_emptied in
  red_outpost_fuel s = 0
  /\ blue_outpost_fuel s = 0
  /\ neutral_fuel_available s = 20
  /\ source_available "outpost" s = 0
  /\ push_draw "outpost" 5 s = Some (5, set_neutral_fuel_available 15 s)
  /\ push_actual_moved "outpost" 5 s = 5
  /\ ~ (push_actual_moved "outpost" 5 s <= source_available "outpost" s)
  /\ push_fuel "outpost" "alliance" 5 s = (Some 4, s).
Proof.
  cbv zeta.
  assert (Hpush : push_fuel "outpost" "alliance" 5 outposts_emptied
                  = (Some 4, outposts_emptied)).
  { unfold push_fuel. rewrite (push_draw_named "outpost" 5 outposts_emptied) by tauto.
    change (Z.min 5 (neutral_fuel_available outposts_emptied)) with 5.
    rewrite (push_scattered_fifth 5) by (split; [lia|by vm_compute]).
    reflexivity. }
  do 6 (split; [reflexivity|]). split; [|exact Hpush].
  intros Hle. by apply Hle.
Qed.

(** C3, amended.  [push_fuel] answers 0 and changes nothing when the
    request is zero or less and when the source is neither "neutral" nor
    "outpost".  Otherwise, for either source, it draws
    [actual_moved = min(amount, neutral_fuel_available)] from the neutral
    pool, so [actual_moved] is at most the request and at most the neutral
    pool, whatever the outposts hold.  If the pool was empty the answer is
    0 and nothing changes.  If [actual_moved] is positive, the scattered
    part is the binary64 product of [actual_moved] and 0.2 rounded down,
    which up to [2 ^ 50] fuel is [actual_moved] divided by five, rounded
    down; the arrived part is [actual_moved] less the scattered part, so
    the parts add up to [actual_moved]; the scattered part is added back
    to the neutral pool and the arrived part is delivered there too, so
    the ledger ends as it began; and the answer is the arrived part.  (An
    [actual_moved] too large for a float raises, with the draw made.) *)
Theorem push_fuel_scatter_conservation :
  forall (from_zone to_zone : string) (amount : Z) (s : FieldState),
    let available := neutral_fuel_available s in
    let actual_moved := push_actual_moved from_zone amount s in
    let s1 := set_neutral_fuel_available (available - actual_moved) s in
    (amount <= 0 ->
       actual_moved = 0 /\ push_fuel from_zone to_zone amount s = (Some 0, s))
    /\ (from_zone <> "neutral" -> from_zone <> "outpost" ->
       actual_moved = 0 /\ push_fuel from_zone to_zone amount s = (Some 0, s))
    /\ (0 < amount -> from_zone = "neutral" \/ from_zone = "outpost" ->
        actual_moved = Z.min amount available
        /\ actual_moved <= amount
        /\ actual_moved <= available
        /\ push_draw from_zone amount s = Some (actual_moved, s1)
        /\ (available = 0 ->
            actual_moved = 0 /\ push_fuel from_zone to_zone amount s = (Some 0, s))
        /\ (0 < actual_moved ->
            forall scattered : Z,
              push_scattered actual_moved = Some scattered ->
              let arrived := actual_moved - scattered in
              scattered + arrived = actual_moved
              /\ neutral_fuel_available (push_return_scatter scattered s1)
                 = available - actual_moved + scattered
              /\ neutral_fuel_available
                   (push_deliver arrived (push_return_scatter scattered s1))
                 = available - actual_moved + scattered + arrived
              /\ push_deliver arrived (push_return_scatter scattered s1) = s
              /\ push_fuel from_zone to_zone amount s = (Some arrived, s))
        /\ (0 < actual_moved <= 2 ^ 50 ->
            let scattered := actual_moved / 5 in
            let arrived := actual_moved - scattered in
            push_scattered actual_moved = Some scattered
            /\ 0 <= scattered
            /\ 5 * scattered <= actual_moved < 5 * scattered + 5
            /\ 0 < arrived
            /\ push_fuel from_zone to_zone amount s = (Some arrived, s))
        /\ (0 < actual_moved -> push_scattered actual_moved = None ->
            push_fuel from_zone to_zone amount s = (None, s1))).
Proof.
  intros from_zone to_zone amount s available actual_moved s1.
  split; [|split].
  - intros Hle. unfold actual_moved, push_actual_moved, push_fuel.
    by destruct (Z.leb_spec amount 0); [|lia].
  - intros Hn Ho. unfold actual_moved, push_actual_moved, push_fuel.
    rewrite push_draw_unnamed by done. by destruct (amount <=? 0).
  - intros Hpos Hsrc.
    assert (Hact : actual_moved = Z.min amount available).
    { unfold actual_moved, push_actual_moved.
      destruct (Z.leb_spec amount 0); [lia|].
      by rewrite (push_draw_named _ _ _ Hsrc). }
    assert (Hdraw : push_draw from_zone amount s = Some (actual_moved, s1)).
    { rewrite (push_draw_named _ _ _ Hsrc). subst s1. fold available. by rewrite <- Hact. }
    assert (Hcall : push_fuel from_zone to_zone amount s
                    = if actual_moved <=? 0 then (Some 0, s1)
                      else match push_scattered actual_moved with
                           | None => (None, s1)
                           | Some scattered =>
                               (Some (actual_moved - scattered),
                                push_deliver (actual_moved - scattered)
                                  (push_return_scatter scattered s1))
                           end).
    { unfold push_fuel. destruct (Z.leb_spec amount 0); [lia|]. by rewrite Hdraw. }
    assert (Hsome : 0 < actual_moved -> forall scattered,
              push_scattered actual_moved = Some scattered ->
              push_fuel from_zone to_zone amount s = (Some (actual_moved - scattered), s)).
    { intros Hmoved scattered Hsc. rewrite Hcall, Hsc.
      destruct (Z.leb_spec actual_moved 0); [lia|].
      unfold s1, available. by rewrite push_round_trip. }
    assert (Hdm := Z.div_mod actual_moved 5 ltac:(lia)).
    assert (Hmod := Z.mod_pos_bound actual_moved 5 ltac:(lia)).
    do 4 (split; [first [exact Hact | exact Hdraw | lia]|]).
    split; [|split; [|split]].
    + intros Hz. assert (Hzero : actual_moved = 0) by lia.
      split; [exact Hzero|]. rewrite Hcall, Hzero, Z.leb_refl.
      unfold s1, available. rewrite Hzero, Z.sub_0_r. by rewrite set_neutral_same.
    + intros Hmoved scattered Hsc arrived.
      split; [lia|]. split; [reflexivity|]. split; [reflexivity|].
      split; [unfold s1, available; apply push_round_trip|by apply Hsome].
    + intros Hsmall scattered arrived.
      assert (Hsc : push_scattered actual_moved = Some scattered)
        by (by apply push_scattered_fifth).
      split; [exact Hsc|]. split; [apply Z.div_pos; lia|].
      split; [subst scattered; lia|]. split; [subst arrived scattered; lia|].
      apply Hsome; [lia|exact Hsc].
    + intros Hmoved Hnone. rewrite Hcall, Hnone.
      by destruct (Z.leb_spec actual_moved 0); [lia|].
Qed.

Lemma push_fuel_scatter_conservation_witness :
  0 < 7
  /\ push_draw "neutral" 7 init = Some (7, set_neutral_fuel_available (20 - 7) init)
  /\ push_scattered 7 = Some 1
  /\ push_fuel "neutral" "alliance" 7 init = (Some 6, init).
Proof.
  assert (Hpos : 0 < 7) by lia.
  destruct (push_fuel_scatter_conservation "neutral" "alliance" 7 init) as (_ & _ & Hmain).
  destruct (Hmain Hpos (or_introl eq_refl)) as (_ & _ & _ & Hdraw & _ & _ & Hfifth & _).
  assert (Hsmall : 0 < push_actual_moved "neutral" 7 init <= 2 ^ 50) by (by vm_compute).
  destruct (Hfifth Hsmall) as (Hsc & _ & _ & _ & Hres).
  split; [exact Hpos|]. split; [exact Hdraw|]. split; [exact Hsc|exact Hres].
Defined.

End PushClaims.

Section TowerClaims.

Import FieldManager.

(** [register_climb] in terms of the list it selects. *)
Lemma register_climb_occupants alliance robot_id s :
  occupants_of alliance (register_climb alliance robot_id s)
  = if bool_decide (robot_id ∈ occupants_of alliance s)
    then occupants_of alliance s
    else (occupants_of alliance s ++ [robot_id])%list.
Proof.
  unfold register_climb, occupants_of.
  destruct (String.eqb alliance "red") eqn:Ha; case_bool_decide; simpl; by rewrite ?Ha.
Qed.

Lemma register_climb_known alliance robot_id s :
  robot_id ∈ occupants_of alliance s -> register_climb alliance robot_id s = s.
Proof.
  intros Hin. unfold register_climb. by rewrite bool_decide_eq_true_2.
Qed.

(** C7, as stated, at a concrete input.  Four different robots registered
    on the red tower make an occupancy list of four entries, one more than
    [MAX_TOWER_OCCUPANTS]. *)
Lemma register_climb_exceeds_capacity_counterexample :
  let s := register_all
             [("red", "red_0"); ("red", "red_1"); ("red", "red_2"); ("red", "red_3")] init in
  red_tower_occupants init = []
  /\ red_tower_occupants s = ["red_0"; "red_1"; "red_2"; "red_3"]
  /\ (length (red_tower_occupants s) > MAX_TOWER_OCCUPANTS)%nat.
Proof.
  cbv zeta. split; [reflexivity|]. split; [vm_compute; reflexivity|].
  vm_compute. lia.
Qed.

(** One request served under the contract keeps both lists within the
    capacity. *)
Lemma climb_if_allowed_capacity request s :
  towers_within_capacity s -> towers_within_capacity (climb_if_allowed request s).
Proof.
  destruct request as [alliance robot_id]. intros [Hr Hb].
  unfold climb_if_allowed, can_climb, register_climb.
  case_bool_decide as Hin; simpl; [done|].
  destruct (Nat.ltb_spec (length (occupants_of alliance s)) MAX_TOWER_OCCUPANTS) as [Hlt|Hge];
    [|done].
  unfold occupants_of in *.
  destruct (String.eqb alliance "red"); split; simpl; try done;
    rewrite length_app; simpl; lia.
Qed.

(** C7, amended.  Registering a robot a second time changes nothing
    (the occupancy list keeps the length it had after the first call);
    [can_climb] answers true exactly for a robot already registered or a
    list of fewer than [MAX_TOWER_OCCUPANTS] = 3 entries; [register_climb]
    itself does not look at the capacity, and it is the registrations made
    only after [can_climb] answered true that keep both occupancy lists at
    3 entries or fewer, whatever the sequence of requests. *)
Theorem climb_registration_idempotent_and_bounded :
  forall (alliance robot_id : string) (s : FieldState),
    register_climb alliance robot_id (register_climb alliance robot_id s)
    = register_climb alliance robot_id s
    /\ length (occupants_of alliance
                 (register_climb alliance robot_id (register_climb alliance robot_id s)))
       = length (occupants_of alliance (register_climb alliance robot_id s))
    /\ MAX_TOWER_OCCUPANTS = 3%nat
    /\ (can_climb alliance robot_id s = true
        <-> robot_id ∈ occupants_of alliance s
            \/ (length (occupants_of alliance s) < MAX_TOWER_OCCUPANTS)%nat)
    /\ (forall requests : list (string * string),
          towers_within_capacity s ->
          towers_within_capacity (climb_all_if_allowed requests s)).
Proof.
  intros alliance robot_id s.
  assert (Hidem : register_climb alliance robot_id (register_climb alliance robot_id s)
                  = register_climb alliance robot_id s).
  { apply register_climb_known. rewrite register_climb_occupants.
    case_bool_decide as Hin; [done|]. apply elem_of_app. right. by apply list_elem_of_singleton. }
  split; [exact Hidem|]. split; [by rewrite Hidem|]. split; [reflexivity|]. split.
  - unfold can_climb. case_bool_decide as Hin.
    + split; [by left|done].
    + rewrite Nat.ltb_lt. split; [by right|]. by intros [Hin'|Hlt].
  - intros requests. clear Hidem. revert s. unfold climb_all_if_allowed.
    induction requests as [|request requests IH]; intros s Hcap; simpl; [done|].
    apply IH. by apply climb_if_allowed_capacity.
Qed.

Lemma climb_registration_idempotent_and_bounded_witness :
  towers_within_capacity init
  /\ towers_within_capacity
       (climb_all_if_allowed
          [("red", "red_0"); ("red", "red_1"); ("red", "red_2"); ("red", "red_3")] init).
Proof.
  assert (Hcap : towers_within_capacity init) by (split; simpl; lia).
  split; [exact Hcap|].
  apply (climb_registration_idempotent_and_bounded "red" "red_0" init). exact Hcap.
Defined.

End TowerClaims.

Section HubActivation.

Import MatchEngine.

Context {G : Type} `{RandomGen G}.

(** The winner chosen at the boundary, by cases on the fuel scored. *)
Lemma determine_auto_winner_cases (e : MatchEngine G) :
  let e1 := _determine_auto_winner e in
  (MatchEngine.red_fuel_scored e > MatchEngine.blue_fuel_scored e -> _auto_winner e1 = Some "red")
  /\ (MatchEngine.blue_fuel_scored e > MatchEngine.red_fuel_scored e -> _auto_winner e1 = Some "blue")
  /\ (MatchEngine.red_fuel_scored e = MatchEngine.blue_fuel_scored e -> _auto_winner e1 = Some "red")
  /\ _red_auto_score e1 = MatchEngine.red_fuel_scored e
  /\ _blue_auto_score e1 = MatchEngine.blue_fuel_scored e
  /\ match_state e1 = match_state e.
Proof.
  unfold _determine_auto_winner; cbv zeta.
  destruct (Z.ltb_spec (MatchEngine.blue_fuel_scored e) (MatchEngine.red_fuel_scored e));
    [|destruct (Z.ltb_spec (MatchEngine.red_fuel_scored e) (MatchEngine.blue_fuel_scored e))];
    simpl; repeat split; try done; lia.
Qed.

(** The hub flags a shift sets, by the recorded winner. *)
Lemma update_hub_activation_flags (phase : Phase) (e : MatchEngine G) :
  let winner := auto_winner_or_default e in
  let m := match_state (_update_hub_activation phase e) in
  let winner_active := match phase with SHIFT2 | SHIFT4 => true | _ => false end in
  team_hub_active winner m = winner_active
  /\ team_hub_active (other_team winner) m = negb winner_active.
Proof.
  unfold _update_hub_activation, team_hub_active, other_team; cbv zeta.
  destruct (String.eqb (auto_winner_or_default e) "red"); simpl; done.
Qed.

(** On the change from Auto to Transition the engine records as Auto
    winner the team with strictly more fuel scored, and red on an exact
    tie.  With that winner on record, entering shift 1 or 3 leaves the
    winner's hub inactive and entering shift 2 or 4 leaves it active, and at
    every shift the other team's hub flag is the negation of the
    winner's. *)
Lemma phase_change_hub_flags :
  forall (boundary later : MatchEngine G) (old_phase : Phase),
    let e1 := _on_phase_change AUTO TRANSITION boundary in
    let winner := auto_winner_or_default e1 in
    let hub := fun (shift : Phase) (team : string) =>
      team_hub_active team (match_state (_on_phase_change old_phase shift later)) in
    _auto_winner later = _auto_winner e1 ->
    (MatchEngine.red_fuel_scored boundary > MatchEngine.blue_fuel_scored boundary -> winner = "red")
    /\ (MatchEngine.blue_fuel_scored boundary > MatchEngine.red_fuel_scored boundary -> winner = "blue")
    /\ (MatchEngine.red_fuel_scored boundary = MatchEngine.blue_fuel_scored boundary -> winner = "red")
    /\ hub SHIFT1 winner = false
    /\ hub SHIFT2 winner = true
    /\ hub SHIFT3 winner = false
    /\ hub SHIFT4 winner = true
    /\ (forall shift, is_shift shift = true ->
          hub shift (other_team winner) = negb (hub shift winner)).
Proof.
  intros boundary later old_phase e1 winner hub Hsame.
  assert (He1 : e1 = _determine_auto_winner boundary) by reflexivity.
  destruct (determine_auto_winner_cases boundary) as (Hred & Hblue & Htie & _).
  fold e1 in Hred, Hblue, Htie. cbv zeta in Hred, Hblue, Htie. rewrite <- He1 in Hred, Hblue, Htie.
  assert (Hw : auto_winner_or_default later = winner).
  { unfold winner, auto_winner_or_default. by rewrite Hsame. }
  assert (Hshift : forall shift, is_shift shift = true ->
            match_state (_on_phase_change old_phase shift later)
            = match_state (_update_hub_activation shift later)).
  { intros shift Hs. unfold _on_phase_change.
    destruct shift; try discriminate Hs; destruct old_phase; reflexivity. }
  assert (Hflags : forall shift, is_shift shift = true ->
            hub shift winner = match shift with SHIFT2 | SHIFT4 => true | _ => false end
            /\ hub shift (other_team winner)
               = negb match shift with SHIFT2 | SHIFT4 => true | _ => false end).
  { intros shift Hs. unfold hub. rewrite (Hshift shift Hs), <- Hw.
    apply update_hub_activation_flags. }
  split; [intros Hgt; unfold winner, auto_winner_or_default; by rewrite (Hred Hgt)|].
  split; [intros Hgt; unfold winner, auto_winner_or_default; by rewrite (Hblue Hgt)|].
  split; [intros Heq; unfold winner, auto_winner_or_default; by rewrite (Htie Heq)|].
  split; [apply (Hflags SHIFT1 eq_refl)|].
  split; [apply (Hflags SHIFT2 eq_refl)|].
  split; [apply (Hflags SHIFT3 eq_refl)|].
  split; [apply (Hflags SHIFT4 eq_refl)|].
  intros shift Hs. destruct (Hflags shift Hs) as [Hwin Hother]. by rewrite Hwin, Hother.
Qed.

End HubActivation.

Section ShotResolution.

Import MatchEngine.

Context {G : Type} `{RandomGen G}.



















End ShotResolution.

Section EngineWitnesses.

Import MatchEngine.

Lemma phase_change_hub_flags_witness :
  let boundary := engine_after_auto 5 3 in
  let later := _on_phase_change AUTO TRANSITION boundary in
  _auto_winner later = _auto_winner (_on_phase_change AUTO TRANSITION boundary)
  /\ team_hub_active "red" (match_state (_on_phase_change TRANSITION SHIFT1 later)) = false
  /\ team_hub_active "blue" (match_state (_on_phase_change TRANSITION SHIFT1 later)) = true.
Proof.
  cbv zeta.
  pose proof (phase_change_hub_flags (engine_after_auto 5 3)
                (_on_phase_change AUTO TRANSITION (engine_after_auto 5 3)) TRANSITION eq_refl)
    as (_ & _ & _ & Hs1 & _ & _ & _ & Hother).
  split; [reflexivity|]. split; [exact Hs1|].
  exact (Hother SHIFT1 eq_refl).
Defined.

End EngineWitnesses.

Section ShotResolutionAtAnInput.

Import MatchEngine.


End ShotResolutionAtAnInput.

Section ScoringCycle.

Import Robot.

Context {G : Type} `{RandomGen G}.







End ScoringCycle.

Section ScoringCycleAtAnInput.

Import Robot.



End ScoringCycleAtAnInput.

Section Conservation.

Import FieldManager.

(** *** What the ledger conserves *)

Lemma fuel_in_robots_app (l1 l2 : list RobotState) :
  fuel_in_robots (l1 ++ l2) = fuel_in_robots l1 + fuel_in_robots l2.
Proof. induction l1 as [|r l1 IH]; simpl; [done|]. rewrite IH. lia. Qed.

(** Moves inside the ledger keep the sum: flight to transit (hit or
    miss), transit back to the neutral zone, and a push. *)
Lemma fuel_scored_conserves alliance count now s robots :
  total_fuel_check (fuel_scored alliance count now s) robots = total_fuel_check s robots.
Proof.
  unfold fuel_scored. destruct (count <=? 0); [done|].
  unfold total_fuel_check; simpl. lia.
Qed.

Lemma fuel_missed_conserves count now s robots :
  total_fuel_check (fuel_missed count now s) robots = total_fuel_check s robots.
Proof.
  unfold fuel_missed. destruct (count <=? 0); [done|].
  unfold total_fuel_check; simpl. lia.
Qed.

Lemma transit_loop_conserves now queue s pending robots :
  total_fuel_check (fst (transit_loop now queue s pending)) robots = total_fuel_check s robots.
Proof.
  revert s pending. induction queue as [|[return_time count] queue IH]; intros s pending; [done|].
  simpl. destruct (Qle_bool return_time now); rewrite IH; [|done].
  unfold total_fuel_check; simpl. lia.
Qed.

Lemma process_transit_queue_conserves now s robots :
  total_fuel_check (_process_transit_queue now s) robots = total_fuel_check s robots.
Proof.
  unfold _process_transit_queue.
  pose proof (transit_loop_conserves now (transit_queue s) s [] robots) as Hloop.
  destruct (transit_loop now (transit_queue s) s []) as [s' pending]. simpl in Hloop.
  rewrite <- Hloop. reflexivity.
Qed.

(** A draw from a pool takes the granted fuel out of the ledger: the sum
    is restored only when the caller adds the grant to a robot. *)
Lemma try_intake_takes_out alliance_str zone_str amount s robots :
  total_fuel_check (snd (try_intake alliance_str zone_str amount s)) robots
  = total_fuel_check s robots - fst (try_intake alliance_str zone_str amount s).
Proof.
  rewrite try_intake_unfold. destruct (amount <=? 0); cbn [fst snd]; [lia|].
  destruct (intake_pool alliance_str zone_str); unfold total_fuel_check; simpl; lia.
Qed.

End Conservation.

Section PushTrip.

Import Robot.

Context {G : Type} `{RandomGen G}.

(** A push trip completed against the field manager of the repository:
    the fuel drawn from the neutral zone, and the fuel the robot was
    pushing, leave the conserved sum. *)
Lemma complete_push_trip_total (r : Robot G) (fld : FieldState)
    (before after : list RobotState) :
  let out := _complete_push_trip FieldManager_return_fuel_to_field
               FieldManager_add_fuel_to_alliance_zone r fld in
  let pushed := fst (FieldManager.try_intake (Alliance_value (r_alliance r))
                       (RobotZone_value ZONE_NEUTRAL) PUSH_FUEL_PER_TRIP fld) in
  total_fuel_check (snd out) (before ++ state (fst out) :: after)
  = total_fuel_check fld (before ++ state r :: after) - pushed - fuel_being_pushed (state r).
Proof.
  cbv zeta. unfold _complete_push_trip, FieldManager_return_fuel_to_field,
    FieldManager_add_fuel_to_alliance_zone.
  pose proof (try_intake_takes_out (Alliance_value (r_alliance r))
                (RobotZone_value ZONE_NEUTRAL) PUSH_FUEL_PER_TRIP fld
                (before ++ state r :: after)) as Htake.
  destruct (FieldManager.try_intake _ _ _ fld) as [pushed fld1]. cbn [fst snd] in *.
  rewrite <- Htake. unfold total_fuel_check. rewrite !fuel_in_robots_app. simpl. lia.
Qed.

End PushTrip.

Section ConservationAtAnInput.

Import Robot FieldManager.

(** C1, at an input the code receives.  At match start the ledger and the
    six preloaded robots of two elite-turret alliances hold the 60 fuel and
    the conservation check passes.  When the robot "red_2", on a push
    cycle, completes its trip, five fuel are drawn from the neutral zone,
    and because the field manager has neither [return_fuel_to_field] nor
    [add_fuel_to_alliance_zone] nothing is handed back: the sum is 55 and
    the conservation check raises. *)
Theorem push_trip_breaks_conservation :
  let robots := (robots_before_pusher ++ pusher :: robots_after_pusher)%list in
  let out := _complete_push_trip FieldManager_return_fuel_to_field
               FieldManager_add_fuel_to_alliance_zone pusher init in
  let robots' := (robots_before_pusher ++ fst out :: robots_after_pusher)%list in
  map (fun r => fuel_held (state r)) robots = [8; 2; 0; 8; 2; 0]
  /\ total_fuel_check init (states_of robots) = TOTAL_FUEL
  /\ assert_conservation (states_of robots) init = Passed
  /\ neutral_fuel_available (snd out) = INITIAL_NEUTRAL_FUEL - PUSH_FUEL_PER_TRIP
  /\ map (fun r => fuel_held (state r) + fuel_being_pushed (state r)) robots' = [8; 2; 0; 8; 2; 0]
  /\ total_fuel_check (snd out) (states_of robots') = 55
  /\ assert_conservation (states_of robots') (snd out) = AssertionError.
Proof. cbv zeta. repeat split; vm_compute; reflexivity. Qed.

(** The same loss in the autonomous routine DISRUPT_NEUTRAL, which the
    presets "2_score_1_disrupt" and "1_score_1_climb_1_disrupt" select:
    every tick of disrupting draws up to five fuel that nobody receives. *)
Lemma auto_disrupt_breaks_conservation :
  let disrupting := set_cycle_phase "auto_disrupting" pusher in
  let out := _tick_auto_disrupt FieldManager_return_fuel_to_field
               FieldManager_add_fuel_to_alliance_zone disrupting init in
  let robots' := (robots_before_pusher ++ fst out :: robots_after_pusher)%list in
  total_fuel_check (snd out) (states_of robots') = 55
  /\ assert_conservation (states_of robots') (snd out) = AssertionError.
Proof. cbv zeta. split; vm_compute; reflexivity. Qed.

(** The preload does not always hand out the ten fuel of an alliance:
    three stock kitbots take one fuel each, and the match starts with 46
    fuel on the books. *)
Lemma preload_shortfall_breaks_conservation :
  let robots := preloaded_robots kitbot_base_config kitbot_base_config in
  map (fun r => fuel_held (state r)) robots = [1; 1; 1; 1; 1; 1]
  /\ total_fuel_check init (states_of robots) = 46
  /\ assert_conservation (states_of robots) init = AssertionError.
Proof. cbv zeta. repeat split; vm_compute; reflexivity. Qed.

End ConservationAtAnInput.

(* ===================================================================== *)
(** ** The loop of [run] *)
(* ===================================================================== *)

Section PhaseDataFrame.

Import MatchEngine.

Context {G : Type} `{RandomGen G}.

Lemma keeps_phase_data_refl (e : MatchEngine G) : keeps_phase_data e e.
Proof. by repeat split. Qed.

Lemma keeps_phase_data_trans (e1 e2 e3 : MatchEngine G) :
  keeps_phase_data e1 e2 -> keeps_phase_data e2 e3 -> keeps_phase_data e1 e3.
Proof.
  intros (Ht & Hp & Hr & Hb & Hw) (Ht' & Hp' & Hr' & Hb' & Hw').
  repeat split; congruence.
Qed.

Lemma keeps_phase_data_if (b : bool) (e x y : MatchEngine G) :
  keeps_phase_data e x -> keeps_phase_data e y ->
  keeps_phase_data e (if b then x else y).
Proof. by destruct b. Qed.

Lemma hp_throw_keeps alliance elapsed (e : MatchEngine G) :
  keeps_phase_data e (_hp_throw alliance elapsed e).
Proof.
  unfold _hp_throw. cbv zeta.
  destruct (rng_random _) as [trial g].
  repeat apply keeps_phase_data_if; by repeat split.
Qed.

Lemma hp_feed_keeps team alliance (e : MatchEngine G) :
  keeps_phase_data e (_hp_feed team alliance e).
Proof.
  unfold _hp_feed, keeps_phase_data. destruct (hp_feed_loop _ _ _ _). by repeat split.
Qed.

Lemma process_hp_for_alliance_keeps alliance hp_mode dt elapsed (e : MatchEngine G) :
  keeps_phase_data e (_process_hp_for_alliance alliance hp_mode dt elapsed e).
Proof.
  unfold _process_hp_for_alliance.
  assert (Hset : forall t e', keeps_phase_data e e' ->
            keeps_phase_data e
              match alliance with RED => set_red_hp_timer t e' | BLUE => set_blue_hp_timer t e' end).
  { intros t e' Hk. eapply keeps_phase_data_trans; [exact Hk|]. destruct alliance; by repeat split. }
  destruct hp_mode; cbv zeta;
    repeat match goal with |- context [if ?b then _ else _] => destruct b end;
    apply Hset; auto using hp_throw_keeps, hp_feed_keeps, keeps_phase_data_refl.
Qed.

Lemma process_human_players_keeps dt elapsed (e : MatchEngine G) :
  keeps_phase_data e (_process_human_players dt elapsed e).
Proof.
  unfold _process_human_players.
  destruct (current_phase (match_state e)); try apply keeps_phase_data_refl;
    (eapply keeps_phase_data_trans; apply process_hp_for_alliance_keeps).
Qed.

Lemma credit_hits_keeps alliance hits (e : MatchEngine G) :
  keeps_phase_data e (credit_hits alliance hits e).
Proof. unfold credit_hits. destruct alliance; by repeat split. Qed.

Lemma shots_keeps (e e1 : MatchEngine G) (hits misses : Z) (hub_active : bool)
    alliance name elapsed :
  keeps_phase_data e e1 ->
  keeps_phase_data e
    (let e2 :=
       if 0 <? hits then
         let e' := set_field (FieldManager.fuel_scored name hits elapsed (field e1)) e1 in
         if hub_active then credit_hits alliance hits e' else e'
       else e1 in
     if 0 <? misses
     then set_field (FieldManager.fuel_missed misses elapsed (field e2)) e2
     else e2).
Proof.
  intros H1. cbv zeta.
  match goal with
  | |- keeps_phase_data e (if _ then set_field _ ?e2 else _) =>
      assert (H2 : keeps_phase_data e e2)
  end.
  { apply keeps_phase_data_if; [|exact H1].
    apply keeps_phase_data_if;
      [eapply keeps_phase_data_trans; [|apply credit_hits_keeps]|];
      (eapply keeps_phase_data_trans; [exact H1|by repeat split]). }
  apply keeps_phase_data_if; [|exact H2].
  eapply keeps_phase_data_trans; [exact H2|by repeat split].
Qed.

Lemma resolve_robot_keeps elapsed robot (e : MatchEngine G) :
  keeps_phase_data e (snd (resolve_robot elapsed robot e)).
Proof.
  unfold resolve_robot.
  assert (Hbody : forall (b : bool) (x y : Robot.Robot G * MatchEngine G),
            keeps_phase_data e (snd x) -> keeps_phase_data e (snd y) ->
            keeps_phase_data e (snd (if b then x else y))) by (by intros []).
  destruct (current_action _); try apply keeps_phase_data_refl;
    (apply Hbody; [apply keeps_phase_data_refl|];
     apply Hbody; [apply keeps_phase_data_refl|]; cbv zeta;
     destruct (shot_loop _ _ _ _ _ _ _) as [[[[held g] fld] hits] misses]; cbn [snd];
     apply (shots_keeps e (set_field fld (set_rng g e))); by repeat split).
Qed.

Lemma resolve_robots_keeps elapsed robots (e : MatchEngine G) :
  keeps_phase_data e (snd (resolve_robots elapsed robots e)).
Proof.
  revert e. induction robots as [|robot robots IH]; intros e; simpl;
    [apply keeps_phase_data_refl|].
  pose proof (resolve_robot_keeps elapsed robot e) as Hone.
  destruct (resolve_robot elapsed robot e) as [robot' e1]. cbn [snd] in Hone.
  pose proof (IH e1) as Hrest.
  destruct (resolve_robots elapsed robots e1) as [rest' e2]. cbn [snd] in *.
  by eapply keeps_phase_data_trans.
Qed.

Lemma resolve_shooting_keeps elapsed (e : MatchEngine G) :
  keeps_phase_data e (_resolve_shooting elapsed e).
Proof.
  unfold _resolve_shooting.
  pose proof (resolve_robots_keeps elapsed (all_robots e) e) as Hk.
  destruct (resolve_robots _ _ _) as [robots e']. cbn [snd] in Hk.
  eapply keeps_phase_data_trans; [exact Hk|]. by repeat split.
Qed.

Lemma defense_loop_keeps defenders defended (e : MatchEngine G) :
  keeps_phase_data e (snd (defense_loop defenders defended e)).
Proof.
  revert defended e. induction defenders as [|defender defenders IH]; intros defended e; simpl;
    [apply keeps_phase_data_refl|].
  destruct (_find_robot _ e); [|apply IH].
  destruct (negb _); [|apply IH].
  eapply keeps_phase_data_trans; [|apply IH]. by repeat split.
Qed.

Lemma release_loop_keeps items defended (e : MatchEngine G) :
  keeps_phase_data e (release_loop items defended e).
Proof.
  revert e. induction items as [|[robot_id is_defended] items IH]; intros e; simpl;
    [apply keeps_phase_data_refl|].
  destruct (_ && _); [|apply IH].
  eapply keeps_phase_data_trans; [|apply IH].
  destruct (_find_robot robot_id e); by repeat split.
Qed.

Lemma process_defense_keeps (e : MatchEngine G) : keeps_phase_data e (_process_defense e).
Proof.
  unfold _process_defense.
  match goal with |- context [defense_loop ?d ?c e] =>
    pose proof (defense_loop_keeps d c e) as Hk; destruct (defense_loop d c e) as [cd e1]
  end.
  cbn [snd] in Hk. eapply keeps_phase_data_trans; [exact Hk|apply release_loop_keeps].
Qed.

Lemma fouls_loop_keeps robots (e : MatchEngine G) : keeps_phase_data e (fouls_loop robots e).
Proof.
  revert e. induction robots as [|robot robots IH]; intros e; simpl;
    [apply keeps_phase_data_refl|].
  destruct (_ <? _); [|apply IH].
  eapply keeps_phase_data_trans; [|apply IH].
  destruct (Robot.r_alliance robot); by repeat split.
Qed.

(** The six steps of an iteration leave the clock, the phase, the hub
    flags and the Auto winner alone. *)
Lemma steps_keeps dt elapsed (e e' : MatchEngine G) :
  steps dt elapsed e = Some e' -> keeps_phase_data e e'.
Proof.
  unfold steps.
  set (e1 := set_field _ e).
  assert (H1 : keeps_phase_data e e1) by (by repeat split).
  pose proof (process_human_players_keeps dt elapsed e1) as H2.
  set (e2 := _process_human_players dt elapsed e1) in *.
  destruct (tick_robots _ _ _ _) as [[robots fld]|]; [|discriminate].
  intros [= <-].
  eapply keeps_phase_data_trans; [exact H1|].
  eapply keeps_phase_data_trans; [exact H2|].
  eapply keeps_phase_data_trans; [|apply fouls_loop_keeps].
  eapply keeps_phase_data_trans; [|apply process_defense_keeps].
  eapply keeps_phase_data_trans; [|apply resolve_shooting_keeps].
  by repeat split.
Qed.

End PhaseDataFrame.

Section Clock.

Import MatchEngine.

Context {G : Type} `{RandomGen G}.

Lemma begin_tick_time (e : MatchEngine G) :
  time_remaining (match_state (begin_tick e)) = time_remaining (match_state e).
Proof.
  unfold begin_tick. cbv zeta.
  set (new_phase := _get_phase _).
  assert (Hchange : forall old (e' : MatchEngine G), time_remaining (match_state (_on_phase_change old new_phase e'))
                               = time_remaining (match_state e')).
  { intros old e'. unfold _on_phase_change, _update_hub_activation, _determine_auto_winner.
    destruct old, new_phase; cbn;
      repeat match goal with |- context [if ?b then _ else _] => destruct b end;
      reflexivity. }
  destruct (bool_decide _); destruct (_ !! _); cbn; rewrite ?Hchange; reflexivity.
Qed.

Lemma run_iteration_time (e e' : MatchEngine G) :
  run_iteration e = Some e' ->
  time_remaining (match_state e')
  = (time_remaining (match_state e) - TICK_INTERVAL)%Q.
Proof.
  unfold run_iteration. cbv zeta.
  destruct (steps _ _ _) as [e2|] eqn:Hsteps; [|discriminate].
  intros [= <-]. apply steps_keeps in Hsteps. destruct Hsteps as (Ht & _).
  cbn. by rewrite Ht, begin_tick_time.
Qed.

Lemma iterate_time (k j : nat) (e e' : MatchEngine G) :
  time_remaining (match_state e) = clock j ->
  iterate k e = Some e' ->
  time_remaining (match_state e') = clock (j + k).
Proof.
  revert j e. induction k as [|k IH]; intros j e Hj; simpl.
  - intros [= <-]. by rewrite Nat.add_0_r.
  - destruct (run_iteration e) as [e1|] eqn:Hone; [|discriminate].
    intros Hrest. apply run_iteration_time in Hone.
    replace (j + S k)%nat with (S j + k)%nat by lia.
    apply (IH (S j) e1); [|exact Hrest].
    rewrite Hone, Hj. reflexivity.
Qed.



(** The clock in closed form. *)
Lemma clock_value (k : nat) :
  (clock k == TOTAL_MATCH_DURATION - inject_Z (Z.of_nat k) * TICK_INTERVAL)%Q.
Proof.
  induction k as [|k IH].
  - unfold clock. simpl. ring.
  - change (clock (S k)) with (clock k - TICK_INTERVAL)%Q.
    rewrite IH, Nat2Z.inj_succ, <- Z.add_1_r, inject_Z_plus. ring.
Qed.

Lemma Qltb_compat_r (a t t' : Q) : (t == t')%Q -> Qltb a t = Qltb a t'.
Proof. intros Heq. unfold Qltb. f_equal. by apply Qleb_comp. Qed.



(** The clock is positive at the head of the iterations 0 to 319 and runs
    out at the head of iteration 320. *)
Lemma clock_positive (k : nat) : (k < 320)%nat -> Qltb 0 (clock k) = true.
Proof.
  intros Hk. rewrite (Qltb_compat_r _ _ _ (clock_value k)).
  assert (Hall : forallb
                   (fun k => Qltb 0 (TOTAL_MATCH_DURATION
                                     - inject_Z (Z.of_nat k) * TICK_INTERVAL))
                   (seq 0 320) = true)
    by (vm_compute; reflexivity).
  rewrite forallb_forall in Hall. apply Hall, in_seq. lia.
Qed.

Lemma clock_out : Qltb 0 (clock 320) = false.
Proof. rewrite (Qltb_compat_r _ _ _ (clock_value 320)). vm_compute. reflexivity. Qed.

Lemma ticks_for_match : ticks_for TOTAL_MATCH_DURATION = 320%nat.
Proof. vm_compute. reflexivity. Qed.

Lemma run_loop_iterate (k j : nat) (e : MatchEngine G) :
  time_remaining (match_state e) = clock j -> (j + k <= 320)%nat ->
  run_loop k e = iterate k e.
Proof.
  revert j e. induction k as [|k IH]; intros j e Hj Hle; simpl; [reflexivity|].
  rewrite Hj, clock_positive by lia.
  destruct (run_iteration e) as [e1|] eqn:Hone; [|reflexivity].
  apply (IH (S j)); [|lia].
  apply run_iteration_time in Hone. rewrite Hone, Hj. reflexivity.
Qed.

Lemma loop_outcome_iterate (k j : nat) (e : MatchEngine G) :
  time_remaining (match_state e) = clock j -> (j + k = 320)%nat ->
  loop_outcome e (iterate k e).
Proof.
  revert j e. induction k as [|k IH]; intros j e Hj Hsum; simpl.
  - apply loop_exit. rewrite Hj. replace j with 320%nat by lia. apply clock_out.
  - assert (Hpos : Qltb 0 (time_remaining (match_state e)) = true)
      by (rewrite Hj; apply clock_positive; lia).
    destruct (run_iteration e) as [e1|] eqn:Hone.
    + eapply loop_iterate; [exact Hpos|exact Hone|].
      apply (IH (S j)); [|lia].
      apply run_iteration_time in Hone. rewrite Hone, Hj. reflexivity.
    + by apply loop_raise.
Qed.



End Clock.

Section CycleTotal.

Import Robot.

Context {G : Type} `{RandomGen G}.

Implicit Types r : Robot G.

(** Case analysis along the control flow of a handler, and the two ways
    a leaf is closed: the phase written last needs no cycle total, or
    neither the phase nor the total was written. *)
Ltac flow :=
  cbv zeta;
  repeat match goal with
         | |- context [match ?x with _ => _ end] => destruct x eqn:?
         end.

Ltac leaf :=
  first [ reflexivity
        | match goal with Hr : cycle_total_known _ = true |- _ => exact Hr end ].

Lemma check_intake_failure_known r :
  cycle_total_known r = true -> cycle_total_known (_check_intake_failure r) = true.
Proof. intros Hr. unfold _check_intake_failure. flow; leaf. Qed.

Lemma check_shooter_failure_known r :
  cycle_total_known r = true -> cycle_total_known (_check_shooter_failure r) = true.
Proof. intros Hr. unfold _check_shooter_failure. flow; leaf. Qed.

Lemma check_turret_failure_known r :
  cycle_total_known r = true -> cycle_total_known (_check_turret_failure r) = true.
Proof. intros Hr. unfold _check_turret_failure. flow; leaf. Qed.

Lemma check_failures_known r :
  cycle_total_known r = true -> cycle_total_known (check_failures r) = true.
Proof.
  intros Hr. unfold check_failures.
  by apply check_turret_failure_known, check_shooter_failure_known,
    check_intake_failure_known.
Qed.

Lemma dump_stockpile_known r :
  cycle_total_known r = true -> cycle_total_known (dump_stockpile r) = true.
Proof. intros Hr. unfold dump_stockpile. flow; leaf. Qed.

Lemma start_scoring_cycle_known r : cycle_total_known (_start_scoring_cycle r) = true.
Proof. unfold _start_scoring_cycle. flow. reflexivity. Qed.


Lemma known_with_total r (total : Q) :
  _cycle_total_time r = Some total -> cycle_total_known r = true.
Proof.
  intros Htotal. unfold cycle_total_known. rewrite Htotal. apply implb_true_r.
Qed.

Lemma total_of_known r :
  needs_cycle_total (_cycle_phase r) = true -> cycle_total_known r = true ->
  exists total, _cycle_total_time r = Some total.
Proof.
  unfold cycle_total_known. intros ->. destruct (_cycle_total_time r) as [total|]; [|discriminate].
  by exists total.
Qed.

Lemma begin_drive_to_hub_known r :
  needs_cycle_total (_cycle_phase r) = true -> cycle_total_known r = true ->
  exists r', _begin_drive_to_hub r = Some r' /\ cycle_total_known r' = true.
Proof.
  intros Hphase Hr. destruct (total_of_known r Hphase Hr) as [total Htotal].
  unfold _begin_drive_to_hub. rewrite Htotal. eexists. split; reflexivity.
Qed.

Lemma begin_intake_known r fld :
  needs_cycle_total (_cycle_phase r) = true -> cycle_total_known r = true ->
  exists r' fld', _begin_intake r fld = Some (r', fld') /\ cycle_total_known r' = true.
Proof.
  intros Hphase Hr. destruct (total_of_known r Hphase Hr) as [total Htotal].
  destruct (begin_drive_to_hub_known r Hphase Hr) as (r1 & Hhub & Hr1).
  unfold _begin_intake. rewrite Hhub. flow.
  all: eexists _, _; split; [reflexivity|].
  all: first [reflexivity | exact Hr1 | apply (known_with_total _ total); exact Htotal].
Qed.

Lemma begin_shooting_known r :
  cycle_total_known r = true -> cycle_total_known (_begin_shooting r) = true.
Proof. intros Hr. unfold _begin_shooting. flow; leaf. Qed.

Lemma begin_align_known r :
  cycle_total_known r = true -> cycle_total_known (_begin_align r) = true.
Proof.
  intros Hr. unfold _begin_align. flow; [reflexivity|by apply begin_shooting_known].
Qed.

Lemma in_phase_needs r :
  in_phase "drive_to_fuel" r || in_phase "intaking" r = true ->
  needs_cycle_total (_cycle_phase r) = true.
Proof. intros Hphase. exact Hphase. Qed.

Lemma on_scoring_action_complete_known r fld :
  cycle_total_known r = true ->
  exists r' fld',
    _on_scoring_action_complete r fld = Some (r', fld') /\ cycle_total_known r' = true.
Proof.
  intros Hr. unfold _on_scoring_action_complete, _finish_intake.
  destruct (in_phase "drive_to_fuel" r) eqn:Hfuel.
  { apply begin_intake_known; [|exact Hr]. apply in_phase_needs. by rewrite Hfuel. }
  destruct (in_phase "intaking" r) eqn:Hintake.
  { destruct (begin_drive_to_hub_known r) as (r1 & -> & Hr1);
      [apply in_phase_needs; by rewrite Hfuel, Hintake|exact Hr|].
    by eexists _, _. }
  flow; eexists _, _; (split; [reflexivity|]);
    first [reflexivity | exact Hr | by apply begin_align_known | by apply begin_shooting_known].
Qed.

Lemma tick_scoring_known dt r fld :
  cycle_total_known r = true ->
  exists r' fld', _tick_scoring dt r fld = Some (r', fld') /\ cycle_total_known r' = true.
Proof.
  intros Hr. unfold _tick_scoring. cbv zeta.
  destruct (Qltb 0 (action_timer (state r))).
  - match goal with |- context [if ?b then _ else _] => destruct b end.
    + by eexists _, _.
    + by apply on_scoring_action_complete_known.
  - flow; eexists _, _; (split; [reflexivity|]);
      first [exact Hr | apply start_scoring_cycle_known].
Qed.

Lemma stockpile_ready_at_known z r : cycle_total_known (stockpile_ready_at z r) = true.
Proof. unfold stockpile_ready_at. flow; reflexivity. Qed.

Lemma start_preposition_known r : cycle_total_known (_start_preposition r) = true.
Proof.
  unfold _start_preposition. cbv zeta.
  match goal with |- context [if ?b then _ else _] => destruct b end;
    [apply stockpile_ready_at_known|reflexivity].
Qed.

Lemma start_stockpile_cycle_known r : cycle_total_known (_start_stockpile_cycle r) = true.
Proof.
  unfold _start_stockpile_cycle.
  destruct (_ <=? _); [apply start_preposition_known|].
  destruct (rng_uniform _ _ _). reflexivity.
Qed.

Lemma stockpile_intake_known r fld : cycle_total_known (fst (_stockpile_intake r fld)) = true.
Proof. unfold _stockpile_intake. flow; reflexivity. Qed.

Lemma on_stockpile_action_complete_known r fld :
  cycle_total_known r = true ->
  cycle_total_known (fst (_on_stockpile_action_complete r fld)) = true.
Proof.
  intros Hr. unfold _on_stockpile_action_complete.
  repeat match goal with |- context [if ?b then _ else _] => destruct b end; cbn [fst];
    first [ apply stockpile_intake_known | apply start_preposition_known
          | apply stockpile_ready_at_known | exact Hr ].
Qed.

Lemma tick_stockpiling_known dt r fld :
  cycle_total_known r = true -> cycle_total_known (fst (_tick_stockpiling dt r fld)) = true.
Proof.
  intros Hr. unfold _tick_stockpiling. cbv zeta.
  destruct (Qltb 0 (action_timer (state r))).
  - match goal with |- context [if ?b then _ else _] => destruct b end;
      [exact Hr|by apply on_stockpile_action_complete_known].
  - flow; cbn [fst]; first [exact Hr | apply start_stockpile_cycle_known].
Qed.

Lemma start_defense_known r : cycle_total_known (_start_defense r) = true.
Proof. unfold _start_defense. flow; reflexivity. Qed.

Lemma check_defense_fouls_known r :
  cycle_total_known r = true -> cycle_total_known (_check_defense_fouls r) = true.
Proof. intros Hr. unfold _check_defense_fouls. flow; leaf. Qed.

Lemma tick_defending_known dt r :
  cycle_total_known r = true -> cycle_total_known (_tick_defending dt r) = true.
Proof.
  intros Hr. unfold _tick_defending. cbv zeta.
  repeat match goal with |- context [if ?b then _ else _] => destruct b end;
    first [reflexivity | exact Hr | by apply check_defense_fouls_known].
Qed.

Lemma start_push_cycle_known r : cycle_total_known (_start_push_cycle r) = true.
Proof. reflexivity. Qed.

Lemma complete_push_trip_known back add r fld :
  cycle_total_known (fst (_complete_push_trip back add r fld)) = true.
Proof. unfold _complete_push_trip. flow; reflexivity. Qed.

Lemma tick_auto_disrupt_known back add r fld :
  cycle_total_known r = true ->
  cycle_total_known (fst (_tick_auto_disrupt back add r fld)) = true.
Proof. intros Hr. unfold _tick_auto_disrupt. flow; cbn [fst]; leaf. Qed.

Lemma tick_pushing_known dt r fld :
  cycle_total_known r = true -> cycle_total_known (fst (_tick_pushing dt r fld)) = true.
Proof.
  intros Hr. unfold _tick_pushing. cbv zeta.
  destruct (Qltb 0 (action_timer (state r))).
  - match goal with |- context [if ?b then _ else _] => destruct b end;
      [apply complete_push_trip_known|exact Hr].
  - flow; cbn [fst]; leaf.
Qed.

Lemma start_climb_known r :
  cycle_total_known r = true -> cycle_total_known (_start_climb r) = true.
Proof. intros Hr. unfold _start_climb. flow; leaf. Qed.

Lemma resolve_climb_known r : cycle_total_known (_resolve_climb r) = true.
Proof. unfold _resolve_climb. flow; reflexivity. Qed.

Lemma apply_active_role_known r :
  cycle_total_known r = true -> cycle_total_known (_apply_active_role r) = true.
Proof.
  intros Hr. unfold _apply_active_role. cbv zeta.
  destruct (active_shift_role (config r));
    repeat match goal with |- context [if ?b then _ else _] => destruct b end;
    first [ apply start_scoring_cycle_known | apply start_defense_known
          | apply dump_stockpile_known; exact Hr ].
Qed.

Lemma apply_inactive_role_known r : cycle_total_known (_apply_inactive_role r) = true.
Proof.
  unfold _apply_inactive_role. cbv zeta.
  destruct (inactive_shift_role (config r));
    first [ apply start_stockpile_cycle_known | apply start_defense_known
          | apply start_push_cycle_known ].
Qed.

Lemma on_shift_change_known hub_active r :
  cycle_total_known r = true -> cycle_total_known (on_shift_change hub_active r) = true.
Proof.
  intros Hr. unfold on_shift_change. cbv zeta.
  destruct hub_active;
    [exact (apply_active_role_known r Hr)|exact (apply_inactive_role_known r)].
Qed.

Lemma detect_shift_change_known m r :
  cycle_total_known r = true -> cycle_total_known (_detect_shift_change m r) = true.
Proof.
  intros Hr. unfold _detect_shift_change. cbv zeta.
  destruct (bool_decide _); [|exact Hr].
  destruct (current_phase m); first [exact Hr | by apply on_shift_change_known].
Qed.

Lemma start_auto_shot_burst_known r : cycle_total_known (_start_auto_shot_burst r) = true.
Proof. unfold _start_auto_shot_burst. flow; reflexivity. Qed.

Lemma tick_auto_score_known r : cycle_total_known (_tick_auto_score r) = true.
Proof.
  unfold _tick_auto_score. cbv zeta.
  repeat match goal with
         | |- context [if ?b then _ else _] => destruct b
         | |- context [let '(_, _) := ?x in _] => destruct x
         end;
    first [reflexivity | apply start_auto_shot_burst_known].
Qed.

Lemma tick_auto_climb_known r : cycle_total_known (_tick_auto_climb r) = true.
Proof. unfold _tick_auto_climb. flow; reflexivity. Qed.

Lemma complete_auto_action_known r fld :
  cycle_total_known r = true ->
  cycle_total_known (fst (_complete_auto_action r fld)) = true.
Proof.
  intros Hr. unfold _complete_auto_action. cbv zeta.
  repeat match goal with
         | |- context [if in_phase ?p r then _ else _] => destruct (in_phase p r)
         end.
  all: try (apply tick_auto_disrupt_known; exact Hr).
  all: try apply start_auto_shot_burst_known.
  all: flow; cbn [fst]; leaf.
Qed.

Lemma tick_auto_known dt r fld :
  cycle_total_known r = true -> cycle_total_known (fst (_tick_auto dt r fld)) = true.
Proof.
  intros Hr. unfold _tick_auto. cbv zeta.
  destruct (Qltb 0 (action_timer (state r))).
  - match goal with |- context [if ?b then _ else _] => destruct b end;
      [by apply complete_auto_action_known|exact Hr].
  - destruct (auto_action (config r)); cbn [fst];
      first [ apply tick_auto_score_known | apply tick_auto_climb_known
            | by apply tick_auto_disrupt_known ].
Qed.

Lemma tick_teleop_shift_known dt r fld :
  cycle_total_known r = true ->
  exists r' fld', _tick_teleop_shift dt r fld = Some (r', fld') /\ cycle_total_known r' = true.
Proof.
  intros Hr. unfold _tick_teleop_shift.
  destruct (shift_role (state r)).
  - by apply tick_scoring_known.
  - pose proof (tick_stockpiling_known dt r fld Hr) as Hk.
    destruct (_tick_stockpiling dt r fld) as [r' fld']. by exists r', fld'.
  - eexists _, _. split; [reflexivity|by apply tick_defending_known].
  - pose proof (tick_pushing_known dt r fld Hr) as Hk.
    destruct (_tick_pushing dt r fld) as [r' fld']. by exists r', fld'.
Qed.

Lemma tick_endgame_known m dt r fld :
  cycle_total_known r = true ->
  exists r' fld', _tick_endgame m dt r fld = Some (r', fld') /\ cycle_total_known r' = true.
Proof.
  intros Hr. unfold _tick_endgame. cbv zeta.
  destruct (is_climbing (state r)).
  - repeat match goal with |- context [if ?b then _ else _] => destruct b end;
      eexists _, _; (split; [reflexivity|]);
      first [exact Hr | apply resolve_climb_known].
  - match goal with |- context [if ?b then _ else _] => destruct b end.
    + eexists _, _. split; [reflexivity|by apply start_climb_known].
    + by apply tick_scoring_known.
Qed.

(** A tick of a robot in a consistent state raises nothing and leaves the
    robot in a consistent state. *)
Lemma tick_known m dt r fld :
  cycle_total_known r = true ->
  exists r' fld', tick m dt r fld = Some (r', fld') /\ cycle_total_known r' = true.
Proof.
  intros Hr. unfold tick. cbv zeta.
  set (r1 := if _failures_checked r then r else _).
  assert (Hr1 : cycle_total_known r1 = true).
  { subst r1. destruct (_failures_checked r); [exact Hr|].
    exact (check_failures_known r Hr). }
  pose proof (detect_shift_change_known m r1 Hr1) as Hr2.
  set (r2 := _detect_shift_change m r1) in *.
  destruct (current_phase m).
  - pose proof (tick_auto_known dt r2 fld Hr2) as Hk.
    destruct (_tick_auto dt r2 fld) as [r' fld']. by exists r', fld'.
  - by eexists _, _.
  - by apply tick_teleop_shift_known.
  - by apply tick_teleop_shift_known.
  - by apply tick_teleop_shift_known.
  - by apply tick_teleop_shift_known.
  - by apply tick_endgame_known.
Qed.

Lemma init_known robot_id alliance config (g : G) :
  cycle_total_known (init robot_id alliance config g) = true.
Proof. reflexivity. Qed.

End CycleTotal.

Section EngineNeverRaises.

Import Robot MatchEngine.

Context {G : Type} `{RandomGen G}.

Implicit Types (e : MatchEngine G) (robots : list (Robot G)).

Lemma hp_feed_loop_ready team alliance robots fld :
  robots_ready robots -> robots_ready (fst (hp_feed_loop team alliance robots fld)).
Proof.
  revert fld. induction robots as [|robot rest IH]; intros fld Hready; simpl; [exact Hready|].
  apply Forall_cons in Hready as [Hrobot Hrest].
  destruct (_ && _).
  - destruct (FieldManager.hp_feed alliance fld) as [[] fld']; cbn [fst];
      apply Forall_cons; by split.
  - specialize (IH fld Hrest). destruct (hp_feed_loop team alliance rest fld) as [rest' fld'].
    cbn [fst] in *. apply Forall_cons. by split.
Qed.

Lemma hp_feed_ready team alliance e :
  robots_ready (all_robots e) -> robots_ready (all_robots (_hp_feed team alliance e)).
Proof.
  intros Hready. unfold _hp_feed.
  pose proof (hp_feed_loop_ready team alliance (all_robots e) (field e) Hready) as Hloop.
  by destruct (hp_feed_loop _ _ _ _).
Qed.

Lemma hp_throw_robots alliance elapsed e :
  all_robots (_hp_throw alliance elapsed e) = all_robots e.
Proof.
  unfold _hp_throw. cbv zeta. destruct (rng_random _) as [trial g].
  repeat match goal with |- context [if ?b then _ else _] => destruct b end; reflexivity.
Qed.

Lemma process_hp_for_alliance_ready alliance hp_mode dt elapsed e :
  robots_ready (all_robots e) ->
  robots_ready (all_robots (_process_hp_for_alliance alliance hp_mode dt elapsed e)).
Proof.
  intros Hready. unfold _process_hp_for_alliance. cbv zeta.
  assert (Hset : forall t e', robots_ready (all_robots e') ->
            robots_ready
              (all_robots match alliance with
                          | RED => set_red_hp_timer t e'
                          | BLUE => set_blue_hp_timer t e'
                          end)) by (by intros t e' He'; destruct alliance).
  destruct hp_mode;
    repeat match goal with |- context [if ?b then _ else _] => destruct b end;
    apply Hset; rewrite ?hp_throw_robots; auto using hp_feed_ready.
Qed.

Lemma process_human_players_ready dt elapsed e :
  robots_ready (all_robots e) ->
  robots_ready (all_robots (_process_human_players dt elapsed e)).
Proof.
  intros Hready. unfold _process_human_players.
  destruct (current_phase (match_state e)); try exact Hready;
    by do 2 apply process_hp_for_alliance_ready.
Qed.

(** No robot raises while the robots are consistent. *)
Lemma tick_robots_ready m dt robots fld :
  robots_ready robots ->
  exists robots' fld',
    tick_robots m dt robots fld = Some (robots', fld') /\ robots_ready robots'.
Proof.
  revert fld. induction robots as [|robot rest IH]; intros fld Hready; simpl.
  - by exists [], fld.
  - apply Forall_cons in Hready as [Hrobot Hrest].
    destruct (tick_known m dt robot fld Hrobot) as (robot' & fld1 & -> & Hrobot').
    destruct (IH fld1 Hrest) as (rest' & fld2 & -> & Hrest').
    eexists _, _. split; [reflexivity|]. apply Forall_cons. by split.
Qed.

Lemma resolve_robot_known elapsed robot e :
  cycle_total_known robot = true ->
  cycle_total_known (fst (resolve_robot elapsed robot e)) = true.
Proof.
  intros Hrobot. unfold resolve_robot. cbv zeta.
  destruct (current_action _); try exact Hrobot.
  all: repeat match goal with |- context [if ?b then _ else _] => destruct b end;
       try exact Hrobot.
  all: destruct (shot_loop _ _ _ _ _ _ _) as [[[[held g] fld] hits] misses]; exact Hrobot.
Qed.

Lemma resolve_robots_ready elapsed robots e :
  robots_ready robots -> robots_ready (fst (resolve_robots elapsed robots e)).
Proof.
  revert e. induction robots as [|robot rest IH]; intros e Hready; simpl; [exact Hready|].
  apply Forall_cons in Hready as [Hrobot Hrest].
  pose proof (resolve_robot_known elapsed robot e Hrobot) as Hone.
  destruct (resolve_robot elapsed robot e) as [robot' e1].
  specialize (IH e1 Hrest). destruct (resolve_robots elapsed rest e1) as [rest' e2].
  cbn [fst] in *. apply Forall_cons. by split.
Qed.

Lemma resolve_shooting_ready elapsed e :
  robots_ready (all_robots e) -> robots_ready (all_robots (_resolve_shooting elapsed e)).
Proof.
  intros Hready. unfold _resolve_shooting.
  pose proof (resolve_robots_ready elapsed (all_robots e) e Hready) as Hloop.
  by destruct (resolve_robots _ _ _).
Qed.

Lemma update_robot_ready robot_id (method : Robot G -> Robot G) robots :
  (forall r, cycle_total_known r = true -> cycle_total_known (method r) = true) ->
  robots_ready robots -> robots_ready (update_robot robot_id method robots).
Proof.
  intros Hmethod. induction robots as [|robot rest IH]; intros Hready; simpl; [exact Hready|].
  apply Forall_cons in Hready as [Hrobot Hrest].
  destruct (String.eqb _ _); apply Forall_cons; split;
    [by apply Hmethod|exact Hrest|exact Hrobot|by apply IH].
Qed.

Lemma apply_defense_penalty_known cycle_hit accuracy_hit (r : Robot G) :
  cycle_total_known r = true ->
  cycle_total_known (apply_defense_penalty cycle_hit accuracy_hit r) = true.
Proof. intros Hr. exact Hr. Qed.

Lemma reset_defense_penalty_known (r : Robot G) :
  cycle_total_known r = true -> cycle_total_known (reset_defense_penalty r) = true.
Proof.
  intros Hr. unfold reset_defense_penalty. cbv zeta.
  match goal with |- context [match ?x with _ => _ end] => destruct x end; exact Hr.
Qed.

Lemma defense_loop_ready defenders defended e :
  robots_ready (all_robots e) ->
  robots_ready (all_robots (snd (defense_loop defenders defended e))).
Proof.
  revert defended e. induction defenders as [|defender rest IH]; intros defended e Hready;
    simpl; [exact Hready|].
  destruct (_find_robot _ e) as [target|]; [|by apply IH].
  destruct (negb _); [|by apply IH].
  apply IH. cbn. apply update_robot_ready; [|exact Hready].
  destruct (is_turret target); apply apply_defense_penalty_known.
Qed.

Lemma release_loop_ready items defended e :
  robots_ready (all_robots e) ->
  robots_ready (all_robots (release_loop items defended e)).
Proof.
  revert e. induction items as [|[robot_id is_defended] rest IH]; intros e Hready; simpl;
    [exact Hready|].
  destruct (_ && _); [|by apply IH].
  apply IH. destruct (_find_robot robot_id e); cbn; [|exact Hready].
  apply update_robot_ready; [apply reset_defense_penalty_known|exact Hready].
Qed.

Lemma process_defense_ready e :
  robots_ready (all_robots e) -> robots_ready (all_robots (_process_defense e)).
Proof.
  intros Hready. unfold _process_defense.
  match goal with |- context [defense_loop ?d ?c e] =>
    pose proof (defense_loop_ready d c e Hready) as Hloop; destruct (defense_loop d c e)
  end.
  by apply release_loop_ready.
Qed.

Lemma fouls_loop_robots robots e : all_robots (fouls_loop robots e) = all_robots e.
Proof.
  revert e. induction robots as [|robot rest IH]; intros e; simpl; [reflexivity|].
  destruct (_ <? _); [|apply IH].
  rewrite IH. by destruct (r_alliance robot).
Qed.

Lemma begin_tick_robots e : all_robots (begin_tick e) = all_robots e.
Proof.
  unfold begin_tick. cbv zeta.
  set (new_phase := _get_phase _).
  assert (Hchange : forall old (e' : MatchEngine G),
            all_robots (_on_phase_change old new_phase e') = all_robots e').
  { intros old e'. unfold _on_phase_change, _update_hub_activation, _determine_auto_winner.
    destruct old, new_phase; cbn;
      repeat match goal with |- context [if ?b then _ else _] => destruct b end;
      reflexivity. }
  destruct (bool_decide _); destruct (_ !! _); cbn; rewrite ?Hchange; reflexivity.
Qed.

(** The six steps of an iteration raise nothing while the robots are
    consistent, and leave them consistent. *)
Lemma steps_ready dt elapsed e :
  robots_ready (all_robots e) ->
  exists e', steps dt elapsed e = Some e' /\ robots_ready (all_robots e').
Proof.
  intros Hready. unfold steps. cbv zeta.
  set (e1 := set_field _ e).
  assert (H1 : robots_ready (all_robots e1)) by exact Hready.
  pose proof (process_human_players_ready dt elapsed e1 H1) as H2.
  set (e2 := _process_human_players dt elapsed e1) in *.
  destruct (tick_robots_ready (match_state e2) dt (all_robots e2) (field e2) H2)
    as (robots & fld & -> & H3).
  eexists. split; [reflexivity|].
  unfold _process_fouls. rewrite fouls_loop_robots.
  apply process_defense_ready, resolve_shooting_ready. exact H3.
Qed.

Lemma run_iteration_ready e :
  robots_ready (all_robots e) ->
  exists e', run_iteration e = Some e' /\ robots_ready (all_robots e').
Proof.
  intros Hready. unfold run_iteration. cbv zeta.
  edestruct (steps_ready TICK_INTERVAL) as (e2 & -> & H2);
    [rewrite begin_tick_robots; exact Hready|].
  eexists. split; [reflexivity|exact H2].
Qed.

Lemma iterate_ready (k : nat) e :
  robots_ready (all_robots e) ->
  exists e', iterate k e = Some e' /\ robots_ready (all_robots e').
Proof.
  revert e. induction k as [|k IH]; intros e Hready; simpl; [by exists e|].
  destruct (run_iteration_ready e Hready) as (e1 & -> & H1). by apply IH.
Qed.

Lemma preload_loop_ready robots (remaining : Z) :
  robots_ready robots -> robots_ready (preload_loop robots remaining).
Proof.
  revert remaining. induction robots as [|robot rest IH]; intros remaining Hready; simpl;
    [exact Hready|].
  apply Forall_cons in Hready as [Hrobot Hrest]. apply Forall_cons.
  split; [exact Hrobot|by apply IH].
Qed.

Lemma make_robots_ready prefix alliance configs (i : nat) (g : G) :
  robots_ready (fst (make_robots prefix alliance configs i g)).
Proof.
  revert i g. induction configs as [|cfg rest IH]; intros i g; simpl; [constructor|].
  destruct (rng_randint _ _ g) as [seed g1].
  specialize (IH (S i) g1). destruct (make_robots prefix alliance rest (S i) g1) as [robots g2].
  cbn [fst] in *. apply Forall_cons. split; [apply init_known|exact IH].
Qed.

Lemma init_ready (red blue : AllianceConfig) (seed : Z) :
  robots_ready (all_robots (init (G:=G) red blue seed)).
Proof.
  unfold init. cbv zeta.
  pose proof (make_robots_ready "red" RED (robots red) 0 (rng_seed seed)) as Hred.
  destruct (make_robots "red" RED _ _ _) as [red_robots g1].
  pose proof (make_robots_ready "blue" BLUE (robots blue) 0 g1) as Hblue.
  destruct (make_robots "blue" BLUE _ _ _) as [blue_robots g2].
  cbn [fst] in *. cbn [all_robots]. unfold _distribute_preload.
  apply Forall_app. split; by apply preload_loop_ready.
Qed.

Lemma init_clock (red blue : AllianceConfig) (seed : Z) :
  time_remaining (match_state (init (G:=G) red blue seed)) = clock 0.
Proof.
  unfold init. cbv zeta.
  destruct (make_robots "red" RED _ _ _) as [red_robots g1].
  destruct (make_robots "blue" BLUE _ _ _) as [blue_robots g2].
  reflexivity.
Qed.

End EngineNeverRaises.

Section PhaseSchedule.

Import MatchEngine.

Context {G : Type} `{RandomGen G}.

Implicit Types e : MatchEngine G.












Lemma init_phase (red blue : AllianceConfig) (seed : Z) :
  current_phase (match_state (init (G:=G) red blue seed)) = AUTO.
Proof.
  unfold init. cbv zeta.
  destruct (make_robots "red" RED _ _ _) as [red_robots g1].
  destruct (make_robots "blue" BLUE _ _ _) as [blue_robots g2].
  reflexivity.
Qed.



End PhaseSchedule.

Section RobotStreams.

Import Robot.

Context {G : Type} `{RandomGen G}.

Variable origin : G.

Implicit Types r : Robot G.

Ltac flow :=
  cbv zeta;
  repeat match goal with
         | |- context [match ?x with _ => _ end] => destruct x eqn:?
         end.












































End RobotStreams.

Section EngineStreams.

Import Robot MatchEngine.

Context {G : Type} `{RandomGen G}.

Implicit Types (e : MatchEngine G) (robots : list (Robot G)).



























End EngineStreams.

Section WholeMatch.

Import MatchEngine.

Context {G : Type} `{RandomGen G}.

(** The loop of a match runs its 320 iterations without an exception. *)
Lemma match_iterations (red blue : AllianceConfig) (seed : Z) (k : nat) :
  exists e, iterate k (init (G:=G) red blue seed) = Some e.
Proof.
  destruct (iterate_ready k (init red blue seed) (init_ready red blue seed)) as (e & He & _).
  by exists e.
Qed.

Lemma match_loop_outcome (red blue : AllianceConfig) (seed : Z) :
  exists e,
    loop_outcome (init (G:=G) red blue seed) (Some e)
    /\ run_loop (ticks_for TOTAL_MATCH_DURATION) (init red blue seed) = Some e.
Proof.
  destruct (match_iterations red blue seed 320) as [e He].
  exists e. split.
  - rewrite <- He. apply (loop_outcome_iterate 320 0); [apply init_clock|reflexivity].
  - rewrite ticks_for_match, <- He.
    apply (run_loop_iterate 320 0); [apply init_clock|reflexivity].
Qed.



End WholeMatch.

Section WholeMatchAtAnInput.

Import MatchEngine.



(** A match under the auto preset "2_score_1_disrupt", on the linear
    congruential generator with seed 42: the books balance up to the head
    of iteration 6, the first tick of disrupting takes five fuel off
    them, and by iteration 20 the disruptor has emptied the neutral zone
    into nowhere. *)
Lemma disrupt_match_breaks_conservation :
  let e0 : MatchEngine Lcg := init disrupt_alliance elite_alliance 42 in
  option_map engine_total (iterate 6 e0) = Some TOTAL_FUEL
  /\ option_map engine_total (iterate 7 e0) = Some 55
  /\ option_map (fun e => FieldManager.assert_conservation (states_of (all_robots e)) (field e))
       (iterate 7 e0) = Some FieldManager.AssertionError
  /\ option_map engine_total (iterate 20 e0) = Some 20.
Proof. cbv zeta. repeat split; vm_compute; reflexivity. Qed.

End WholeMatchAtAnInput.

Section KitbotMatch.

Import MatchEngine.

Context {G : Type} `{RandomGen G}.

(** A match between two alliances of stock kitbots starts 14 fuel short,
    whatever the seed and the generator. *)
Lemma kitbot_match_starts_short (seed : Z) :
  engine_total (init (G:=G) kitbot_alliance kitbot_alliance seed) = 46.
Proof.
  unfold init, kitbot_alliance. cbn [robots make_robots].
  repeat match goal with
         | |- context [rng_randint ?a ?b ?g] => destruct (rng_randint a b g)
         end.
  reflexivity.
Qed.

End KitbotMatch.
